(** * Z-boson resonance fit: ingestion, outlier filters, model, fit loop,
      figures and window

    A shallow embedding of [src/python/z-boson/z_boson_gui.py]: the functions
    [read_data], [initial_filter], [filter_data], [cross_section],
    [chi_square], [check_numerical_input], [fit_to_data],
    [plot_parameter_surface], [plot_fit], [collect_results] and
    [run_analysis], and the class [InputWindow] of [main] with its methods.

    Numbers.  A Python/NumPy float is modelled by [fl]: an exact real number,
    or one of the IEEE special values [+inf], [-inf], [nan] that NumPy
    produces (with a warning, never an exception) on a division by zero.
    Rounding, overflow and the sign of zero are not modelled: a zero divisor
    counts as [+0.0], which is what [np.std] and [len(data) - len(popt)]
    deliver.  The properties proved of [fl] are about the shape of the
    computations, their exceptions and their signs, which rounding leaves
    as they are, or they say that they are read in exact arithmetic.  Where
    rounding decides, the residual pass is modelled once more on binary64
    numbers (module [Binary64]).

    Exceptions.  Fallible code lives in the [result] monad; the constructors
    of [exn] are the Python exceptions that the code can raise.

    The world.  SciPy's solver, Matplotlib, [np.linspace], the formatting
    of floats, the files and the sort of lists are parameters of the
    sections that use them.  A file is not found, refuses to open, or gives
    its lines and then, possibly, the exception that ends the reading. *)

From Stdlib Require Import Reals Lra Lia List Bool Arith ZArith String Ascii.
From Stdlib Require Import DecimalString.
From Stdlib Require DecimalNat DecimalFacts.
From Stdlib Require PrimFloat.
From Stdlib Require Import Sorting.Sorted Sorting.Permutation.
Import ListNotations.

Set Implicit Arguments.

(* ================================================================== *)
(** ** Floats as extended reals *)

Module Float.

Local Open Scope R_scope.

Inductive fl : Type :=
| Fin (r : R)
| PInf
| NInf
| NaN.

(** Sign of a real number, as a three-way comparison with zero. *)
Definition Rsgn (r : R) : comparison :=
  match total_order_T r 0 with
  | inleft (left _) => Lt
  | inleft (right _) => Eq
  | inright _ => Gt
  end.

(** The infinity of a given sign; a zero sign gives [nan]
    (as in [0 * inf] and [0 / 0]). *)
Definition signed_inf (c : comparison) : fl :=
  match c with
  | Gt => PInf
  | Lt => NInf
  | Eq => NaN
  end.

Definition fopp (x : fl) : fl :=
  match x with
  | Fin r => Fin (- r)
  | PInf => NInf
  | NInf => PInf
  | NaN => NaN
  end.

Definition fadd (x y : fl) : fl :=
  match x, y with
  | NaN, _ | _, NaN => NaN
  | Fin a, Fin b => Fin (a + b)
  | PInf, NInf | NInf, PInf => NaN
  | PInf, _ | _, PInf => PInf
  | NInf, _ | _, NInf => NInf
  end.

Definition fsub (x y : fl) : fl := fadd x (fopp y).

Definition fmul (x y : fl) : fl :=
  match x, y with
  | NaN, _ | _, NaN => NaN
  | Fin a, Fin b => Fin (a * b)
  | Fin a, PInf | PInf, Fin a => signed_inf (Rsgn a)
  | Fin a, NInf | NInf, Fin a => signed_inf (CompOpp (Rsgn a))
  | PInf, PInf | NInf, NInf => PInf
  | PInf, NInf | NInf, PInf => NInf
  end.

(** NumPy division: a zero divisor gives an infinity of the dividend's sign,
    or [nan] for [0 / 0]. *)
Definition fdiv (x y : fl) : fl :=
  match x, y with
  | NaN, _ | _, NaN => NaN
  | Fin a, Fin b =>
      if Req_dec_T b 0 then signed_inf (Rsgn a) else Fin (a / b)
  | Fin _, (PInf | NInf) => Fin 0
  | PInf, Fin b => if Rlt_dec b 0 then NInf else PInf
  | NInf, Fin b => if Rlt_dec b 0 then PInf else NInf
  | (PInf | NInf), (PInf | NInf) => NaN
  end.

(** [np.abs] *)
Definition fabs (x : fl) : fl :=
  match x with
  | Fin r => Fin (Rabs r)
  | PInf | NInf => PInf
  | NaN => NaN
  end.

(** [np.sqrt], as [np.std] applies it *)
Definition fsqrt (x : fl) : fl :=
  match x with
  | Fin r => if Rlt_dec r 0 then NaN else Fin (sqrt r)
  | PInf => PInf
  | NInf | NaN => NaN
  end.

(** [x ** 0.5]: the square root, except that C's [pow] sends [-inf] to [+inf]. *)
Definition fpow_half (x : fl) : fl :=
  match x with
  | NInf => PInf
  | _ => fsqrt x
  end.

(** [x ** 2] *)
Definition fsq (x : fl) : fl := fmul x x.

(** [x < y]; every comparison with [nan] is false. *)
Definition fltb (x y : fl) : bool :=
  match x, y with
  | NaN, _ | _, NaN => false
  | Fin a, Fin b => if Rlt_dec a b then true else false
  | NInf, (Fin _ | PInf) => true
  | Fin _, PInf => true
  | _, _ => false
  end.

(** [x <= y] *)
Definition fleb (x y : fl) : bool :=
  match x, y with
  | NaN, _ | _, NaN => false
  | Fin a, Fin b => if Rle_dec a b then true else false
  | NInf, _ => true
  | _, PInf => true
  | _, _ => false
  end.

Definition is_nan (x : fl) : bool :=
  match x with NaN => true | _ => false end.

Definition is_finite (x : fl) : bool :=
  match x with Fin _ => true | _ => false end.

(** Conversion of a Python [int]. *)
Definition fl_of_Z (z : Z) : fl := Fin (IZR z).
Definition fl_of_nat (n : nat) : fl := Fin (INR n).

(** [np.sum]: the order of summation does not matter for exact reals. *)
Definition fsum (l : list fl) : fl := fold_left fadd l (Fin 0).

(** [np.average] of a one-dimensional array ([nan] on an empty one). *)
Definition average (l : list fl) : fl := fdiv (fsum l) (fl_of_nat (List.length l)).

(** [np.std]: [sqrt(mean((x - x.mean())**2))]. *)
Definition std (l : list fl) : fl :=
  let m := average l in
  fsqrt (average (map (fun x => fsq (fsub x m)) l)).

End Float.
Export Float.

(* ================================================================== *)
(** ** Exceptions *)

Module Py.

(** The exceptions the modelled code can raise.  [ExternalError] stands for
    whatever an external call (the SciPy solver, Matplotlib) raises. *)
Inductive exn : Type :=
| IndexError
| ValueError
| ExternalError (name : string).

Inductive result (A : Type) : Type :=
| Ok (a : A)
| Error (e : exn).

Arguments Ok {A} a.
Arguments Error {A} e.

Definition bind {A B : Type} (m : result A) (k : A -> result B) : result B :=
  match m with
  | Ok a => k a
  | Error e => Error e
  end.

Definition is_error {A : Type} (m : result A) : bool :=
  match m with Ok _ => false | Error _ => true end.

(** [l[i]] on a Python list or a one-dimensional array. *)
Definition index {A : Type} (l : list A) (i : nat) : result A :=
  match nth_error l i with
  | Some a => Ok a
  | None => Error IndexError
  end.

End Py.
Export Py.

Declare Scope py_scope.
Delimit Scope py_scope with py.
Notation "x <- m ;; k" := (bind m (fun x => k))
  (at level 61, m at next level, right associativity) : py_scope.
Notation "' p <- m ;; k" := (bind m (fun x => match x with p => k end))
  (at level 61, p pattern, m at next level, right associativity) : py_scope.
Open Scope py_scope.

(* ================================================================== *)
(** ** Two-dimensional arrays *)

Module NdArray.

(** A row of the data array is the list of floats parsed from one line. *)
Definition row : Type := list fl.

(** The array [np.array(rows)].  An empty list of rows is the one-dimensional
    empty array; rows of unequal length make a one-dimensional array of
    objects (in the NumPy of the script's time; later versions refuse to
    build it).  Both refuse a two-dimensional index. *)
Definition ndarray : Type := list row.

(** Number of columns of a two-dimensional array; [None] when the array
    is one-dimensional. *)
Definition ncols (data : ndarray) : option nat :=
  match data with
  | [] => None
  | r :: rs =>
      if forallb (fun r' => Nat.eqb (List.length r') (List.length r)) rs
      then Some (List.length r)
      else None
  end.

(** [data[:, k]] *)
Definition col (k : nat) (data : ndarray) : result (list fl) :=
  match ncols data with
  | Some n =>
      if Nat.ltb k n then Ok (map (fun r => nth k r NaN) data)
      else Error IndexError
  | None => Error IndexError
  end.

(** [entry[k]] for a row [entry] met while iterating over the array. *)
Definition item (k : nat) (entry : row) : fl := nth k entry NaN.

(** [a[i, j]] on a matrix (the covariance). *)
Definition at2 (a : list (list fl)) (i j : nat) : result fl :=
  match ncols a with
  | Some n =>
      match nth_error a i with
      | Some r => index r j
      | None => Error IndexError
      end
  | None => Error IndexError
  end.

End NdArray.
Export NdArray.

(* ================================================================== *)
(** ** Text of the input files *)

Module Text.

Definition newline : ascii := ascii_of_nat 10.
Definition comma : ascii := ascii_of_nat 44.

(** [match('.*nan.*', line)]: the pattern is anchored at the start and [.]
    does not cross a newline, so it matches when [nan] starts somewhere in
    the text before the first newline. *)
Fixpoint re_match_nan (line : string) : bool :=
  match line with
  | EmptyString => false
  | String c rest =>
      if prefix "nan" line then true
      else if Ascii.eqb c newline then false
      else re_match_nan rest
  end.

(** [s.split(sep)] for a one-character separator: never the empty list. *)
Fixpoint split (sep : ascii) (s : string) : list string :=
  match s with
  | EmptyString => [EmptyString]
  | String c rest =>
      if Ascii.eqb c sep then EmptyString :: split sep rest
      else
        match split sep rest with
        | [] => [String c EmptyString]
        | w :: ws => String c w :: ws
        end
  end.

(** [str(n)] for a non-negative [int]. *)
Definition str_of_nat (n : nat) : string :=
  NilZero.string_of_uint (Nat.to_uint n).

End Text.
Export Text.

(* ================================================================== *)
(** ** Float literals *)

(** Python's [float(str)] on the literals met in data files: surrounding
    white space is dropped; an optional sign is followed by decimal digits
    with an optional fraction, or by [inf], [infinity] or [nan] in any mix of
    upper and lower case.  Exponents and digit-group underscores, which
    [float] also reads, are left out: on such text [float_literal] says
    [None] where Python returns a number. *)
Module Literal.

Inductive literal : Type :=
| LNaN
| LInf (negative : bool)
| LDec (negative : bool) (mantissa : Z) (scale : nat).

Definition is_space (c : ascii) : bool :=
  let n := nat_of_ascii c in
  (Nat.leb 9 n && Nat.leb n 13) || Nat.eqb n 32.

Fixpoint drop_space (l : list ascii) : list ascii :=
  match l with
  | c :: l' => if is_space c then drop_space l' else l
  | [] => []
  end.

Definition strip (s : string) : list ascii :=
  rev (drop_space (rev (drop_space (list_ascii_of_string s)))).

Definition lower (c : ascii) : ascii :=
  let n := nat_of_ascii c in
  if Nat.leb 65 n && Nat.leb n 90 then ascii_of_nat (n + 32) else c.

Definition digit_of (c : ascii) : option Z :=
  let n := nat_of_ascii c in
  if Nat.leb 48 n && Nat.leb n 57 then Some (Z.of_nat (n - 48)) else None.

(** The longest prefix of digits: its value after [acc], how many digits it
    has, and the text behind it. *)
Fixpoint digits (l : list ascii) (acc : Z) (count : nat)
  : Z * nat * list ascii :=
  match l with
  | c :: l' =>
      match digit_of c with
      | Some d => digits l' (10 * acc + d)%Z (S count)
      | None => (acc, count, l)
      end
  | [] => (acc, count, [])
  end.

Definition parse_unsigned (negative : bool) (l : list ascii) : option literal :=
  let word := string_of_list_ascii (map lower l) in
  if String.eqb word "nan" then Some LNaN
  else if String.eqb word "inf" || String.eqb word "infinity"
  then Some (LInf negative)
  else
    let '(whole, n1, rest) := digits l 0%Z O in
    match rest with
    | [] => if Nat.eqb n1 0 then None else Some (LDec negative whole O)
    | c :: rest' =>
        if Ascii.eqb c "."%char then
          let '(mantissa, n2, rest'') := digits rest' whole O in
          match rest'' with
          | [] =>
              if Nat.eqb (n1 + n2) 0 then None
              else Some (LDec negative mantissa n2)
          | _ :: _ => None
          end
        else None
    end.

Definition parse_literal (s : string) : option literal :=
  match strip s with
  | c :: l' =>
      if Ascii.eqb c "-"%char then parse_unsigned true l'
      else if Ascii.eqb c "+"%char then parse_unsigned false l'
      else parse_unsigned false (c :: l')
  | [] => None
  end.

Definition fl_of_literal (x : literal) : fl :=
  match x with
  | LNaN => NaN
  | LInf false => PInf
  | LInf true => NInf
  | LDec false m k => Fin (IZR m / 10 ^ k)
  | LDec true m k => Fin (- (IZR m / 10 ^ k))
  end.

Definition float_literal (s : string) : option fl :=
  option_map fl_of_literal (parse_literal s).

End Literal.
Export Literal.

(* ================================================================== *)
(** ** The program *)

Module ZBoson.

Local Open Scope R_scope.

Definition FILE_NAMES : list string :=
  ["z_boson_data_1.csv"; "z_boson_data_2.csv"]%string.
Definition GAMMA_EE : fl := Fin (8391 / 100000).
Definition H_BAR : fl := Fin (6582119569 / 1000000000 * / 10 ^ 25).
Definition M_Z0 : fl := Fin (91179 / 1000).
Definition GAMMA_Z0 : fl := Fin (2510 / 1000).
Definition CONVERSION_FACTOR : fl := Fin (3894 / 1000 * 10 ^ 5).

(** [np.pi] *)
Definition np_pi : fl := Fin PI.

(** A distribution function as the code calls it:
    [func(energy, m_z, gamma_z[, gamma_vertex_1[, gamma_vertex_2]])]. *)
Definition dist_fn : Type := fl -> fl -> fl -> option fl -> option fl -> fl.

(** A keyword argument left out takes its default. *)
Definition default (d : fl) (o : option fl) : fl :=
  match o with Some v => v | None => d end.

(** *** [initial_filter] *)

Definition initial_filter (data : ndarray) : result ndarray :=
  ys <- col 1 data ;;
  let mean := average ys in
  ys' <- col 1 data ;;
  let sigma := std ys' in
  let new_data :=
    fold_left
      (fun new_data entry =>
         if fltb (fabs (fsub mean (item 1 entry))) (fmul (Fin 5) sigma)
         then new_data ++ [entry]
         else new_data)
      data [] in
  Ok new_data.

(** *** [filter_data] *)

(** The first statement of [filter_data]: the array of absolute deviations
    of the data from the distribution function. *)
Definition deviation_array (data : ndarray) (func : dist_fn) (popt : list fl)
  (gamma_ee_unknown : bool) : result (list fl) :=
  if Nat.eqb (List.length popt) 2 then
    ys <- col 1 data ;;
    xs <- col 0 data ;;
    p0 <- index popt 0 ;;
    p1 <- index popt 1 ;;
    Ok (map (fun yx => fabs (fsub (fst yx) (func (snd yx) p0 p1 None None)))
          (combine ys xs))
  else if Nat.eqb (List.length popt) 3 && gamma_ee_unknown then
    ys <- col 1 data ;;
    xs <- col 0 data ;;
    p0 <- index popt 0 ;;
    p1 <- index popt 1 ;;
    p2 <- index popt 2 ;;
    Ok (map (fun yx => fabs (fsub (fst yx) (func (snd yx) p0 p1 (Some p2) (Some p2))))
          (combine ys xs))
  else
    ys <- col 1 data ;;
    xs <- col 0 data ;;
    p0 <- index popt 0 ;;
    p1 <- index popt 1 ;;
    p2 <- index popt 2 ;;
    Ok (map (fun yx => fabs (fsub (fst yx) (func (snd yx) p0 p1 (Some p2) None)))
          (combine ys xs)).

(** [(deviation_array - mean) / sigma] *)
Definition z_scores (deviation_array : list fl) : list fl :=
  let mean := average deviation_array in
  let sigma := std deviation_array in
  map (fun d => fdiv (fsub d mean) sigma) deviation_array.

(** The loop over [zip(z_scores, data)] with its two accumulators. *)
Definition split_outliers (zs : list fl) (data : ndarray)
  : ndarray * list row :=
  fold_left
    (fun acc ze =>
       let '(new_data, outliers) := acc in
       if fltb (fst ze) (Fin 4)
       then (new_data ++ [snd ze], outliers)
       else (new_data, outliers ++ [snd ze]))
    (combine zs data) ([], []).

Definition filter_data (data : ndarray) (func : dist_fn) (popt : list fl)
  (gamma_ee_unknown : bool) : result (ndarray * list row) :=
  devs <- deviation_array data func popt gamma_ee_unknown ;;
  Ok (split_outliers (z_scores devs) data).

(** *** [cross_section] *)

Definition cross_section : dist_fn :=
  fun energy m_z gamma_z g1 g2 =>
    let gamma_vertex_1 := default GAMMA_EE g1 in
    let gamma_vertex_2 := default GAMMA_EE g2 in
    fmul
      (fmul
         (fmul
            (fmul (fdiv (fmul (Fin 12) np_pi) (fsq m_z)) gamma_vertex_1)
            gamma_vertex_2)
         CONVERSION_FACTOR)
      (fdiv (fsq energy)
         (fadd (fsq (fsub (fsq energy) (fsq m_z))) (fsq (fmul gamma_z m_z)))).

(** *** [chi_square] *)

Definition chi_square (data : ndarray) (popt : list fl)
  (gamma_ee_unknown : bool) (func : dist_fn) : result fl :=
  observed <- col 1 data ;;
  error <- col 2 data ;;
  predicted <-
    (if Nat.eqb (List.length popt) 2 then
       xs <- col 0 data ;;
       p0 <- index popt 0 ;;
       p1 <- index popt 1 ;;
       Ok (map (fun x => func x p0 p1 None None) xs)
     else if Nat.eqb (List.length popt) 3 && gamma_ee_unknown then
       xs <- col 0 data ;;
       p0 <- index popt 0 ;;
       p1 <- index popt 1 ;;
       p2 <- index popt 2 ;;
       Ok (map (fun x => func x p0 p1 (Some p2) (Some p2)) xs)
     else
       xs <- col 0 data ;;
       p0 <- index popt 0 ;;
       p1 <- index popt 1 ;;
       p2 <- index popt 2 ;;
       Ok (map (fun x => func x p0 p1 (Some p2) None) xs)) ;;
  Ok (fsum
        (map (fun ope =>
                let '(o, p, e) := ope in fdiv (fsq (fsub o p)) (fsq e))
           (combine (combine observed predicted) error))).

(** *** The world outside the script *)

(** The function handed to the solver: [lambda x, a, b: ...] or
    [lambda x, a, b, c: ...]. *)
Inductive fit_fn : Type :=
| Fit2 (f : fl -> fl -> fl -> fl)
| Fit3 (f : fl -> fl -> fl -> fl -> fl).

(** The covariance matrix the solver returns. *)
Definition matrix : Type := list (list fl).

(** The value of the [custom_gamma] argument: [None], a float (the default
    [0.01] when the caller leaves it out) or the text of the entry box. *)
Inductive py_arg : Type :=
| PyNone
| PyFloat (x : fl)
| PyStr (s : string).

(** [while outliers:] with [outliers = True] before the loop.  [body] is one
    pass of the loop, from the current data to the fitted parameters, the
    retained data and the outliers.  [None]: [fuel] passes did not end the
    loop. *)
Fixpoint while_outliers (fuel : nat)
  (body : ndarray -> result (list fl * matrix * ndarray * list row))
  (data : ndarray) : option (result (ndarray * list fl * matrix)) :=
  match fuel with
  | O => None
  | S fuel' =>
      match body data with
      | Error e => Some (Error e)
      | Ok (popt, pcov, data', outliers) =>
          match outliers with
          | [] => Some (Ok (data', popt, pcov))
          | _ :: _ => while_outliers fuel' body data'
          end
      end
  end.

(** Every pass that goes on drops a record, so one pass more than there are
    records ends the loop (lemma [fit_loop_ends]); the last branch is never
    taken. *)
Definition run_while
  (body : ndarray -> result (list fl * matrix * ndarray * list row))
  (data : ndarray) : result (ndarray * list fl * matrix) :=
  match while_outliers (S (List.length data)) body data with
  | Some r => r
  | None => Error (ExternalError "while")
  end.

(** A sorting function for [output_array.sort(key=...)]: the elements are
    inserted one by one, each behind those it is not smaller than.  On keys
    that [<] orders this is the stable sorted permutation, which is what
    Python's sort returns. *)
Fixpoint insert_by (key : row -> fl) (x : row) (l : list row) : list row :=
  match l with
  | [] => [x]
  | y :: l' =>
      if fltb (key x) (key y) then x :: y :: l' else y :: insert_by key x l'
  end.

Definition insertion_sort (key : row -> fl) (l : list row) : list row :=
  fold_left (fun sorted x => insert_by key x sorted) l [].

(** A file as [read_data] meets it.  [open(file_name, 'r')] raises
    [FileNotFoundError] ([Absent]), raises another exception, such as
    [PermissionError] or [IsADirectoryError] ([Refused]), or returns a file
    object ([Lines]): the loop [for line in file] gets its lines one by one
    and then either ends or is left by the exception [fault] that the
    iteration raises (a [UnicodeDecodeError] on bytes that are no text). *)
Inductive text_file : Type :=
| Absent
| Refused (e : exn)
| Lines (lines : list string) (fault : option exn).

Section Script.

(** Python's [float(str)]; [None] is a [ValueError]. *)
Variable py_float : string -> option fl.
(** What opening and reading the file of a given name gives. *)
Variable open_file : string -> text_file.
(** [scipy.optimize.curve_fit(f, xdata, ydata, p0=..., sigma=...)[:2]] *)
Variable curve_fit :
  fit_fn -> list fl -> list fl -> list fl -> list fl -> result (list fl * matrix).
(** [format(x, spec)], the conversion behind [f'{x:spec}']. *)
Variable format_float : string -> fl -> string.
(** [l.sort(key=...)], as the sorted list.  Python promises a stable sort
    that compares keys with [<] only; what it returns on keys that [<] does
    not order (a [nan] among them) is some rearrangement of the list. *)
Variable list_sort : (row -> fl) -> list row -> list row.
(** The two plotting functions, which show and save figures. *)
Variable plot_fit : ndarray -> list fl -> bool -> result unit.
Variable plot_parameter_surface : ndarray -> list fl -> matrix -> result unit.

(** *** [read_data] *)

(** [[float(entry) for entry in entries]] *)
Fixpoint floats (entries : list string) : option row :=
  match entries with
  | [] => Some []
  | entry :: rest =>
      match py_float entry with
      | None => None
      | Some v =>
          match floats rest with
          | None => None
          | Some vs => Some (v :: vs)
          end
      end
  end.

(** The body of the loop over the lines of a file: [Ok None] when the line
    is passed over, [Ok (Some l)] when it is appended, [Error] when an
    exception leaves the [try] block. *)
Definition read_line (line : string) : result (option row) :=
  if re_match_nan line then Ok None
  else
    match floats (split comma line) with
    | None => Ok None
    | Some l =>
        l2 <- index l 2 ;;
        if fleb l2 (Fin 0) then Ok None
        else
          l1 <- index l 1 ;;
          if fltb l1 (Fin 0) then Ok None
          else
            l0 <- index l 0 ;;
            if fltb l0 (Fin 0) then Ok None
            else Ok (Some l)
    end.

Fixpoint read_lines (lines : list string) (output_array : list row)
  : result (list row) :=
  match lines with
  | [] => Ok output_array
  | line :: rest =>
      o <- read_line line ;;
      match o with
      | None => read_lines rest output_array
      | Some l => read_lines rest (output_array ++ [l])
      end
  end.

Fixpoint read_files (file_names : list string) (output_array : list row)
  (successful_file_imports : nat) : result (list row * nat) :=
  match file_names with
  | [] => Ok (output_array, successful_file_imports)
  | file_name :: rest =>
      match open_file file_name with
      | Lines lines fault =>
          output_array' <- read_lines lines output_array ;;
          match fault with
          | Some e => Error e
          | None => read_files rest output_array' successful_file_imports
          end
      | Refused e => Error e
      | Absent => read_files rest output_array (successful_file_imports - 1)
      end
  end.

Definition read_data (file_names : list string) : result (ndarray * string) :=
  '(output_array, successful_file_imports) <-
    read_files file_names [] (List.length file_names) ;;
  let message :=
    (str_of_nat successful_file_imports ++ "/" ++
     str_of_nat (List.length file_names) ++
     " files have been imported successfully.")%string in
  Ok (list_sort (item 0) output_array, message).

(** *** [fit_to_data] *)

(** The solver call of each loop, on the three columns of the data. *)
Definition fit (f : fit_fn) (data : ndarray) (p0 : list fl)
  : result (list fl * matrix) :=
  xs <- col 0 data ;;
  ys <- col 1 data ;;
  sigma <- col 2 data ;;
  curve_fit f xs ys p0 sigma.

Definition fit_to_data (data : ndarray) (different_decay gamma_ee_unknown : bool)
  (custom_gamma : fl) (func : dist_fn)
  : result (ndarray * list fl * matrix * bool) :=
  data <- initial_filter data ;;
  '(data, popt, pcov) <-
    (if different_decay then
       let gamma_decay := custom_gamma in
       run_while
         (fun data =>
            '(popt, pcov) <-
              fit (Fit3 (fun x a b c => func x a b (Some c) (Some GAMMA_EE)))
                data [Fin (91179 / 1000); Fin (2510 / 1000); gamma_decay] ;;
            '(data', outliers) <- filter_data data func popt false ;;
            Ok (popt, pcov, data', outliers))
         data
     else if gamma_ee_unknown then
       let gamma_ee := custom_gamma in
       run_while
         (fun data =>
            '(popt, pcov) <-
              fit (Fit3 (fun x a b c => func x a b (Some c) (Some c)))
                data [Fin (91179 / 1000); Fin (2510 / 1000); gamma_ee] ;;
            '(data', outliers) <- filter_data data func popt gamma_ee_unknown ;;
            Ok (popt, pcov, data', outliers))
         data
     else
       run_while
         (fun data =>
            '(popt, pcov) <-
              fit (Fit2 (fun x a b => func x a b (Some GAMMA_EE) (Some GAMMA_EE)))
                data [Fin (91179 / 1000); Fin (2510 / 1000)] ;;
            '(data', outliers) <- filter_data data func popt false ;;
            Ok (popt, pcov, data', outliers))
         data) ;;
  Ok (data, popt, pcov, gamma_ee_unknown).

(** *** [collect_results] *)

Definition nl : string := String newline EmptyString.

Definition collect_results (popt : list fl) (pcov : matrix)
  (chi_squared_red : fl) (gamma_ee_unknown : bool) : result string :=
  m_z <- index popt 0 ;;
  v00 <- at2 pcov 0 0 ;;
  let sigma_m_z := fpow_half v00 in
  gamma_z <- index popt 1 ;;
  v11 <- at2 pcov 1 1 ;;
  let sigma_gamma_z := fpow_half v11 in
  let tau := fdiv H_BAR gamma_z in
  let sigma_tau := fmul sigma_gamma_z (fdiv tau gamma_z) in
  let message := ""%string in
  let message :=
    (message ++ "Mass of Z Boson = " ++ format_float ".3e" m_z ++ " +/- " ++
     format_float ".1e" sigma_m_z ++ " GeV/c^2" ++ nl ++ nl)%string in
  let message :=
    (message ++ "Width of Z Boson = " ++ format_float ".3e" gamma_z ++ " +/- " ++
     format_float ".1e" sigma_gamma_z ++ " GeV" ++ nl ++ nl)%string in
  message <-
    (if Nat.eqb (List.length popt) 3 && gamma_ee_unknown then
       gamma_ee <- index popt 2 ;;
       v22 <- at2 pcov 2 2 ;;
       let sigma_gamma_ee := fpow_half v22 in
       Ok (message ++ "Partial width for electron-positron = " ++
           format_float ".3e" gamma_ee ++ " +/- " ++
           format_float ".1e" sigma_gamma_ee ++ " GeV" ++ nl ++ nl)%string
     else if Nat.eqb (List.length popt) 3 then
       gamma_pp <- index popt 2 ;;
       v22 <- at2 pcov 2 2 ;;
       let sigma_gamma_pp := fpow_half v22 in
       Ok (message ++ "Partial width for new decay = " ++
           format_float ".3e" gamma_pp ++ " +/- " ++
           format_float ".1e" sigma_gamma_pp ++ " GeV" ++ nl ++ nl)%string
     else Ok message) ;;
  let message :=
    (message ++ "Lifetime of Z Boson = " ++ format_float ".2e" tau ++ " +/- " ++
     format_float ".1e" sigma_tau ++ " s" ++ nl ++ nl)%string in
  let message :=
    (message ++ "Reduced chi squared = " ++ format_float ".3f" chi_squared_red)%string in
  Ok message.

(** *** [run_analysis] *)

(** [float(custom_gamma)] *)
Definition float_of_arg (v : py_arg) : result fl :=
  match v with
  | PyNone => Error (ExternalError "TypeError")
  | PyFloat x => Ok x
  | PyStr s =>
      match py_float s with
      | Some x => Ok x
      | None => Error ValueError
      end
  end.

(** Line 441: [chi_square(data, popt, gamma_ee_unknown)/(len(data) - len(popt))] *)
Definition reduced_chi_square (data : ndarray) (popt : list fl)
  (gamma_ee_unknown : bool) : result fl :=
  chi <- chi_square data popt gamma_ee_unknown cross_section ;;
  Ok (fdiv chi
        (fl_of_Z (Z.of_nat (List.length data) - Z.of_nat (List.length popt)))).

Definition run_analysis (data : ndarray) (different_decay gamma_ee_unknown : bool)
  (custom_gamma : py_arg) : result string :=
  '(data, popt, pcov, gamma_ee_unknown) <-
    (match custom_gamma with
     | PyNone =>
         fit_to_data data different_decay gamma_ee_unknown (Fin (1 / 100))
           cross_section
     | _ =>
         guess <- float_of_arg custom_gamma ;;
         fit_to_data data different_decay gamma_ee_unknown guess cross_section
     end) ;;
  chi_squared_red <- reduced_chi_square data popt gamma_ee_unknown ;;
  message <- collect_results popt pcov chi_squared_red gamma_ee_unknown ;;
  _ <- plot_fit data popt gamma_ee_unknown ;;
  _ <- (if Nat.eqb (List.length popt) 2
        then plot_parameter_surface data popt pcov
        else Ok tt) ;;
  Ok message.

End Script.

(** *** [check_numerical_input] *)

Section Input.

Variable py_float : string -> option fl.

(** [float(value)] on the text of an entry box raises nothing but a
    [ValueError]. *)
Definition check_numerical_input (value : string) : bool :=
  match py_float value with
  | Some _ => true
  | None => false
  end.

End Input.

End ZBoson.

(* ================================================================== *)
(** ** The figures *)

(** The two plotting functions.  What they compute before they draw is
    modelled in full; the Matplotlib calls that draw are external, and
    [plt.show()], which ends both functions and touches neither the arrays
    nor the files, is left out.  The directory of the script is modelled by
    the list of the paths that exist in it, and is taken to accept [mkdir]
    and [savefig]. *)
Module Figures.

Import ZBoson.
Local Open Scope string_scope.

Definition file_system : Type := list string.

(** [exists(path)] *)
Definition path_exists (fs : file_system) (path : string) : bool :=
  existsb (String.eqb path) fs.

(** [try: mkdir(folder)] with [except FileExistsError: pass] *)
Definition mkdir (folder : string) (fs : file_system) : file_system :=
  if path_exists fs folder then fs else folder :: fs.

(** [plt.savefig(path, dpi=300)]: the file is written. *)
Definition savefig (path : string) (fs : file_system) : file_system :=
  path :: fs.

(** [f'{folder}/{fig_name}'] *)
Definition figure_path (folder fig_name : string) : string :=
  folder ++ "/" ++ fig_name.

(** The loop [while True:] at the end of both plotting functions, entered
    with the counter [i]; [fig_name i] is the file name that the f-string
    gives for [i].  [None]: [fuel] rounds did not reach the [break]. *)
Fixpoint save_loop (fuel : nat) (fig_name : nat -> string) (i : nat)
  (fs : file_system) : option file_system :=
  match fuel with
  | O => None
  | S fuel' =>
      let folder := "SavedFigures" in
      let fs := mkdir folder fs in
      if negb (path_exists fs (figure_path folder (fig_name i)))
      then Some (savefig (figure_path folder (fig_name i)) fs)
      else save_loop fuel' fig_name (S i) fs
  end.

(** The loop from [i = 1].  Two rounds more than there are paths reach the
    [break] when no two counters share a file name (lemma
    [save_loop_ends]); the last branch is then never taken. *)
Definition save_figure (fig_name : nat -> string) (fs : file_system)
  : result file_system :=
  match save_loop (S (S (List.length fs))) fig_name 1 fs with
  | Some fs' => Ok fs'
  | None => Error (ExternalError "while")
  end.

(** [f'ZBoson_fit_plot_{mode}({i}).png'] *)
Definition fit_plot_name (mode : string) (i : nat) : string :=
  "ZBoson_fit_plot_" ++ mode ++ "(" ++ str_of_nat i ++ ").png".

(** [f'ZBoson_chi_square_surface({i}).png'] *)
Definition surface_name (i : nat) : string :=
  "ZBoson_chi_square_surface(" ++ str_of_nat i ++ ").png".

Section Plots.

(** [np.linspace(start, stop, num)] *)
Variable linspace : fl -> fl -> nat -> list fl.
(** Lines 347 to 366 of [plot_fit]: the figure with the data, the curve
    [y_fit] over [energy_space] and the residuals. *)
Variable draw_fit : ndarray -> list fl -> list fl -> list fl -> result unit.
(** Lines 292 to 300 of [plot_parameter_surface]: the surface over the
    three lists of values. *)
Variable draw_surface : list fl -> list fl -> list fl -> result unit.

(** *** [plot_fit] *)

(** Lines 332 to 344: the mode, the energies of the curve, the curve and
    the residuals. *)
Definition fit_curves (data : ndarray) (popt : list fl) (func : dist_fn)
  (gamma_ee_unknown : bool)
  : result (string * list fl * list fl * list fl) :=
  first <- at2 data 0 0 ;;
  last <- at2 data (List.length data - 1) 0 ;;
  let energy_space := linspace first last 1000 in
  if Nat.eqb (List.length popt) 2 then
    let mode := "default" in
    p0 <- index popt 0 ;;
    p1 <- index popt 1 ;;
    let y_fit := map (fun x => func x p0 p1 None None) energy_space in
    ys <- col 1 data ;;
    xs <- col 0 data ;;
    p0 <- index popt 0 ;;
    p1 <- index popt 1 ;;
    Ok (mode, energy_space, y_fit,
        map (fun yx => fsub (fst yx) (func (snd yx) p0 p1 None None))
          (combine ys xs))
  else if Nat.eqb (List.length popt) 3 && gamma_ee_unknown then
    let mode := "gamma_ee_unknown" in
    p0 <- index popt 0 ;;
    p1 <- index popt 1 ;;
    p2 <- index popt 2 ;;
    let y_fit := map (fun x => func x p0 p1 (Some p2) (Some p2)) energy_space in
    ys <- col 1 data ;;
    xs <- col 0 data ;;
    p0 <- index popt 0 ;;
    p1 <- index popt 1 ;;
    p2 <- index popt 2 ;;
    Ok (mode, energy_space, y_fit,
        map (fun yx => fsub (fst yx) (func (snd yx) p0 p1 (Some p2) (Some p2)))
          (combine ys xs))
  else
    let mode := "different_decay" in
    p0 <- index popt 0 ;;
    p1 <- index popt 1 ;;
    p2 <- index popt 2 ;;
    let y_fit := map (fun x => func x p0 p1 (Some p2) None) energy_space in
    ys <- col 1 data ;;
    xs <- col 0 data ;;
    p0 <- index popt 0 ;;
    p1 <- index popt 1 ;;
    p2 <- index popt 2 ;;
    Ok (mode, energy_space, y_fit,
        map (fun yx => fsub (fst yx) (func (snd yx) p0 p1 (Some p2) None))
          (combine ys xs)).

Definition plot_fit (fs : file_system) (data : ndarray) (popt : list fl)
  (func : dist_fn) (gamma_ee_unknown : bool) : result file_system :=
  '(mode, energy_space, y_fit, y_residuals) <-
    fit_curves data popt func gamma_ee_unknown ;;
  _ <- draw_fit data energy_space y_fit y_residuals ;;
  save_figure (fit_plot_name mode) fs.

(** *** [plot_parameter_surface] *)

(** The inner loop [for gamma_z in gamma_z_array:] with its three lists. *)
Fixpoint scan_gamma_z (data : ndarray) (m_z : fl) (gamma_z_array : list fl)
  (acc : list fl * list fl * list fl) : result (list fl * list fl * list fl) :=
  match gamma_z_array with
  | [] => Ok acc
  | gamma_z :: rest =>
      let '(m_z_values, gamma_z_values, chi_square_values) := acc in
      chi <- chi_square data [m_z; gamma_z] false cross_section ;;
      scan_gamma_z data m_z rest
        (m_z_values ++ [m_z], gamma_z_values ++ [gamma_z],
         chi_square_values ++ [chi])%list
  end.

(** The outer loop [for m_z in m_z_array:]. *)
Fixpoint scan_m_z (data : ndarray) (m_z_array gamma_z_array : list fl)
  (acc : list fl * list fl * list fl) : result (list fl * list fl * list fl) :=
  match m_z_array with
  | [] => Ok acc
  | m_z :: rest =>
      acc' <- scan_gamma_z data m_z gamma_z_array acc ;;
      scan_m_z data rest gamma_z_array acc'
  end.

(** Lines 273 to 290: the grid around the fitted parameters and the value
    of chi squared at each of its points. *)
Definition parameter_surface (data : ndarray) (popt : list fl) (pcov : matrix)
  : result (list fl * list fl * list fl) :=
  v00 <- at2 pcov 0 0 ;;
  let delta_m_z := fmul (Fin (15 / 10)) (fpow_half v00) in
  v11 <- at2 pcov 1 1 ;;
  let delta_gamma_z := fmul (Fin (15 / 10)) (fpow_half v11) in
  p0 <- index popt 0 ;;
  let m_z_array :=
    linspace (fsub p0 delta_m_z) (fadd p0 delta_m_z) 100 in
  p1 <- index popt 1 ;;
  let gamma_z_array :=
    linspace (fsub p1 delta_gamma_z) (fadd p1 delta_gamma_z) 100 in
  min_chi_squared <- chi_square data popt false cross_section ;;
  scan_m_z data m_z_array gamma_z_array ([], [], []).

Definition plot_parameter_surface (fs : file_system) (data : ndarray)
  (popt : list fl) (pcov : matrix) : result file_system :=
  '(m_z_values, gamma_z_values, chi_square_values) <-
    parameter_surface data popt pcov ;;
  _ <- draw_surface m_z_values gamma_z_values chi_square_values ;;
  save_figure surface_name fs.

End Plots.

End Figures.

(* ================================================================== *)
(** ** The window *)

(** The class [InputWindow] of [main]: the attributes that its methods
    read and write, and the methods.  A label is modelled by its text and
    the place of its last [place] call, an entry box or button by whether
    its state is [normal], a Tk variable by its value.  The attributes are
    grouped: the Tk variables, the controls, the marks beside the entry
    boxes and the message area. *)
Module Gui.

Import ZBoson.
Local Open Scope string_scope.
Local Open Scope Z_scope.

Record label : Type := Label {
  text : string;
  position : option (Z * Z)
}.

(** [l.place(x=..., y=...)] *)
Definition place (x y : Z) (l : label) : label :=
  Label (text l) (Some (x, y)).

(** The variables [sel_1], [sel_2], [sel_3], [gamma_pp] and [gamma_ee]. *)
Record tk_vars : Type := TkVars {
  sel_1 : string;
  sel_2 : bool;
  sel_3 : bool;
  gamma_pp : string;
  gamma_ee : string
}.

Definition set_sel_2 (v : bool) (s : tk_vars) : tk_vars :=
  TkVars (sel_1 s) v (sel_3 s) (gamma_pp s) (gamma_ee s).
Definition set_sel_3 (v : bool) (s : tk_vars) : tk_vars :=
  TkVars (sel_1 s) (sel_2 s) v (gamma_pp s) (gamma_ee s).
Definition set_gamma_pp (v : string) (s : tk_vars) : tk_vars :=
  TkVars (sel_1 s) (sel_2 s) (sel_3 s) v (gamma_ee s).
Definition set_gamma_ee (v : string) (s : tk_vars) : tk_vars :=
  TkVars (sel_1 s) (sel_2 s) (sel_3 s) (gamma_pp s) v.

(** The value shown by the combobox [file_choice], and whether the newest
    button [input_files] and the newest entry boxes [gamma_pp_input] and
    [gamma_ee_input] are in state [normal]. *)
Record controls : Type := Controls {
  file_choice : string;
  input_files : bool;
  gamma_pp_input : bool;
  gamma_ee_input : bool
}.

Definition set_file_choice (v : string) (c : controls) : controls :=
  Controls v (input_files c) (gamma_pp_input c) (gamma_ee_input c).
Definition set_input_files (v : bool) (c : controls) : controls :=
  Controls (file_choice c) v (gamma_pp_input c) (gamma_ee_input c).
Definition set_gamma_pp_input (v : bool) (c : controls) : controls :=
  Controls (file_choice c) (input_files c) v (gamma_ee_input c).
Definition set_gamma_ee_input (v : bool) (c : controls) : controls :=
  Controls (file_choice c) (input_files c) (gamma_pp_input c) v.

(** The labels [files_selected_msg], [sel_2_valid], [sel_2_invalid],
    [sel_3_valid] and [sel_3_invalid]. *)
Record marks : Type := Marks {
  files_selected_msg : label;
  sel_2_valid : label;
  sel_2_invalid : label;
  sel_3_valid : label;
  sel_3_invalid : label
}.

Definition set_files_selected_msg (v : label) (m : marks) : marks :=
  Marks v (sel_2_valid m) (sel_2_invalid m) (sel_3_valid m) (sel_3_invalid m).
Definition set_sel_2_valid (v : label) (m : marks) : marks :=
  Marks (files_selected_msg m) v (sel_2_invalid m) (sel_3_valid m) (sel_3_invalid m).
Definition set_sel_2_invalid (v : label) (m : marks) : marks :=
  Marks (files_selected_msg m) (sel_2_valid m) v (sel_3_valid m) (sel_3_invalid m).
Definition set_sel_3_valid (v : label) (m : marks) : marks :=
  Marks (files_selected_msg m) (sel_2_valid m) (sel_2_invalid m) v (sel_3_invalid m).
Definition set_sel_3_invalid (v : label) (m : marks) : marks :=
  Marks (files_selected_msg m) (sel_2_valid m) (sel_2_invalid m) (sel_3_valid m) v.

(** The attributes [messages], [displayed_messages], [message_counter]. *)
Record console : Type := Console {
  messages : list string;
  displayed_messages : list label;
  message_counter : nat
}.

Record InputWindow : Type := Window {
  files : list string;
  data : ndarray;
  vars : tk_vars;
  ctrl : controls;
  mark : marks;
  log : console;
  output : label
}.

Definition set_files (v : list string) (w : InputWindow) : InputWindow :=
  Window v (data w) (vars w) (ctrl w) (mark w) (log w) (output w).
Definition set_data (v : ndarray) (w : InputWindow) : InputWindow :=
  Window (files w) v (vars w) (ctrl w) (mark w) (log w) (output w).
Definition with_vars (f : tk_vars -> tk_vars) (w : InputWindow) : InputWindow :=
  Window (files w) (data w) (f (vars w)) (ctrl w) (mark w) (log w) (output w).
Definition with_ctrl (f : controls -> controls) (w : InputWindow) : InputWindow :=
  Window (files w) (data w) (vars w) (f (ctrl w)) (mark w) (log w) (output w).
Definition with_mark (f : marks -> marks) (w : InputWindow) : InputWindow :=
  Window (files w) (data w) (vars w) (ctrl w) (f (mark w)) (log w) (output w).
Definition set_log (v : console) (w : InputWindow) : InputWindow :=
  Window (files w) (data w) (vars w) (ctrl w) (mark w) v (output w).
Definition set_output (v : label) (w : InputWindow) : InputWindow :=
  Window (files w) (data w) (vars w) (ctrl w) (mark w) (log w) v.

(** [self.file_options] *)
Definition file_options : list string :=
  ["Use default files"; "Choose different files"].

(** *** [display_message] *)

(** [f'[{self.message_counter}]  {message}'] *)
Definition numbered (message_counter : nat) (message : string) : string :=
  "[" ++ str_of_nat message_counter ++ "]  " ++ message.

(** [while len(self.displayed_messages) > 6:] the last label is moved out
    of the window and deleted from the list.  A round shortens the list, so
    as many rounds as it is long end the loop. *)
Fixpoint drop_last (fuel : nat) (displayed : list label) : list label :=
  match fuel with
  | O => displayed
  | S fuel' =>
      if Nat.ltb 6 (List.length displayed)
      then drop_last fuel' (removelast displayed)
      else displayed
  end.

(** [for i in range(len(self.displayed_messages)):] from the index [i] on. *)
Fixpoint place_from (i : nat) (displayed : list label) : list label :=
  match displayed with
  | [] => []
  | l :: rest => place 30 (450 + 40 * Z.of_nat i) l :: place_from (S i) rest
  end.

Definition display_message (message : string) (w : InputWindow) : InputWindow :=
  let messages := message :: messages (log w) in
  let displayed_messages :=
    Label (numbered (message_counter (log w)) message) None
    :: displayed_messages (log w) in
  let message_counter := (message_counter (log w) + 1)%nat in
  let displayed_messages :=
    drop_last (List.length displayed_messages) displayed_messages in
  let displayed_messages := place_from 0 displayed_messages in
  set_log (Console messages displayed_messages message_counter) w.

(** *** [show_output] *)

Definition show_output (text : string) (w : InputWindow) : InputWindow :=
  let w :=
    display_message
      "The plots have been saved in the same directory as the script." w in
  set_output (place 500 450 (Label text None)) w.

(** *** [allow_file_input], [allow_gamma_pp], [allow_gamma_ee] *)

(** Of the two radio buttons of a variable, [deselect] on the one for
    [True] and [select] on the one for [False], in either order, leave the
    variable [False]. *)
Definition allow_file_input (w : InputWindow) : InputWindow :=
  let choice := file_choice (ctrl w) in
  if String.eqb choice "Choose different files" then
    with_ctrl (set_input_files true) w
  else
    let w := with_ctrl (set_input_files false) w in
    let w := with_vars (set_sel_2 false) w in
    with_ctrl (set_gamma_pp_input false) w.

Definition allow_gamma_pp (w : InputWindow) : InputWindow :=
  let choice := sel_2 (vars w) in
  if choice then
    let w := with_ctrl (set_gamma_pp_input true) w in
    let w := with_vars (set_sel_3 false) w in
    let w := with_ctrl (set_gamma_ee_input false) w in
    let w := with_ctrl (set_file_choice "Choose different files") w in
    with_ctrl (set_input_files true) w
  else
    with_ctrl (set_gamma_pp_input false) w.

Definition allow_gamma_ee (w : InputWindow) : InputWindow :=
  let choice := sel_3 (vars w) in
  let different_decay := sel_2 (vars w) in
  if choice && negb different_decay then
    with_ctrl (set_gamma_ee_input true) w
  else
    let w := with_ctrl (set_gamma_ee_input false) w in
    with_vars (set_sel_3 false) w.

Section Methods.

Variable py_float : string -> option fl.
Variable open_file : string -> text_file.
Variable curve_fit :
  fit_fn -> list fl -> list fl -> list fl -> list fl -> result (list fl * matrix).
Variable format_float : string -> fl -> string.
Variable list_sort : (row -> fl) -> list row -> list row.
Variable plot_fit : ndarray -> list fl -> bool -> result unit.
Variable plot_parameter_surface : ndarray -> list fl -> matrix -> result unit.

(** [read_data] and [run_analysis] in the world of the window. *)
Definition read (file_names : list string) : result (ndarray * string) :=
  read_data py_float open_file list_sort file_names.

Definition analyse (d : ndarray) (different_decay gamma_ee_unknown : bool)
  (custom_gamma : py_arg) : result string :=
  run_analysis py_float curve_fit format_float plot_fit plot_parameter_surface
    d different_decay gamma_ee_unknown custom_gamma.

(** A method returns the window as it leaves it, and [Error] when it
    leaves it by an exception. *)

(** *** [confirm_selection] *)

Definition confirm_selection (w : InputWindow) : InputWindow * result unit :=
  if sel_2 (vars w) then
    let w := with_mark (fun m => set_sel_3_valid (place (-100) 180 (sel_3_valid m)) m) w in
    let w := with_mark (fun m => set_sel_3_invalid (place (-100) 180 (sel_3_invalid m)) m) w in
    let correct := check_numerical_input py_float (gamma_pp (vars w)) in
    if correct then
      let w := with_mark (fun m => set_sel_2_valid (place 550 180 (sel_2_valid m)) m) w in
      let w := with_mark (fun m => set_sel_2_invalid (place (-100) 180 (sel_2_invalid m)) m) w in
      let w := display_message "Running the script..." w in
      match read (files w) with
      | Error e => (w, Error e)
      | Ok (d, message) =>
          let w := set_data d w in
          let w := display_message message w in
          match analyse (data w) (sel_2 (vars w)) (sel_3 (vars w))
                  (PyStr (gamma_pp (vars w))) with
          | Error e => (w, Error e)
          | Ok text => (show_output text w, Ok tt)
          end
      end
    else
      let w := display_message "Invalid input provided." w in
      let w := with_mark (fun m => set_sel_2_valid (place (-100) 180 (sel_2_valid m)) m) w in
      let w := with_mark (fun m => set_sel_2_invalid (place 550 180 (sel_2_invalid m)) m) w in
      (w, Ok tt)
  else if sel_3 (vars w) then
    let w := with_mark (fun m => set_sel_2_valid (place (-100) 180 (sel_2_valid m)) m) w in
    let w := with_mark (fun m => set_sel_2_invalid (place (-100) 180 (sel_2_invalid m)) m) w in
    let correct := check_numerical_input py_float (gamma_ee (vars w)) in
    if correct then
      let w := with_mark (fun m => set_sel_3_valid (place 550 280 (sel_3_valid m)) m) w in
      let w := with_mark (fun m => set_sel_3_invalid (place (-100) 280 (sel_3_invalid m)) m) w in
      let w := display_message "Running the script..." w in
      match (if String.eqb (sel_1 (vars w)) "Use default files"
             then read FILE_NAMES else read (files w)) with
      | Error e => (w, Error e)
      | Ok (d, message) =>
          let w := set_data d w in
          let w := display_message message w in
          match analyse (data w) (sel_2 (vars w)) (sel_3 (vars w))
                  (PyStr (gamma_ee (vars w))) with
          | Error e => (w, Error e)
          | Ok text => (show_output text w, Ok tt)
          end
      end
    else
      let w := display_message "Invalid input provided." w in
      let w := with_mark (fun m => set_sel_3_valid (place (-100) 280 (sel_3_valid m)) m) w in
      let w := with_mark (fun m => set_sel_3_invalid (place 550 280 (sel_3_invalid m)) m) w in
      (w, Ok tt)
  else (w, Ok tt).

(** *** [get_files] *)

(** [selection] is what [askopenfilenames()] returns. *)
Definition get_files (selection : list string) (w : InputWindow)
  : InputWindow * result unit :=
  let w := set_files selection w in
  match read (files w) with
  | Ok (d, message) =>
      let w := set_data d w in
      let w := display_message message w in
      let w := with_mark (fun m => set_files_selected_msg
                                     (place 400 80 (files_selected_msg m)) m) w in
      (w, Ok tt)
  | Error IndexError =>
      (display_message
         "The selected files are not compatible with the script." w, Ok tt)
  | Error e => (w, Error e)
  end.

(** *** [run_default] *)

Definition run_default (w : InputWindow) : InputWindow * result unit :=
  let w := display_message "Running the script..." w in
  match read FILE_NAMES with
  | Error e => (w, Error e)
  | Ok (d, message) =>
      let w := set_data d w in
      let w := display_message message w in
      match analyse (data w) false false (PyFloat (Fin (1 / 100))) with
      | Error e => (w, Error e)
      | Ok text => (show_output text w, Ok tt)
      end
  end.

(** *** [exit_program] *)

(** [sys.exit(0)] raises [SystemExit]. *)
Definition exit_program (w : InputWindow) : InputWindow * result unit :=
  (display_message "The program is closing..." w,
   Error (ExternalError "SystemExit")).

(** *** [__init__] and the main loop *)

(** The window when [InputWindow(window)] returns. *)
Definition init : InputWindow :=
  display_message "The program has started."
    (Window [] []
       (TkVars "Use default files" false false "" "")
       (Controls "" false false false)
       (Marks (Label "Files selected!" None)
          (Label "valid input" None) (Label "invalid input" None)
          (Label "valid input" None) (Label "invalid input" None))
       (Console [] [] 0)
       (place 500 450 (Label "" None))).

(** What the user does: picks an entry of the combobox, picks files with
    the button [Choose files...], clicks a radio button of [sel_2] or of
    [sel_3], types into an entry box, or presses one of the three buttons
    at the bottom.  Tk writes the variable of a radio button or an entry
    box before it calls the command, and lets nothing happen on a control
    that is disabled. *)
Inductive event : Type :=
| ComboboxSelected (choice : string)
| ChooseFiles (selection : list string)
| ClickSel2 (value : bool)
| ClickSel3 (value : bool)
| TypeGammaPP (value : string)
| TypeGammaEE (value : string)
| ConfirmSelection
| UseDefaultSettings
| ExitProgram.

Definition handle (e : event) (w : InputWindow) : InputWindow * result unit :=
  match e with
  | ComboboxSelected choice =>
      if existsb (String.eqb choice) file_options
      then (allow_file_input (with_ctrl (set_file_choice choice) w), Ok tt)
      else (w, Ok tt)
  | ChooseFiles selection =>
      if input_files (ctrl w) then get_files selection w else (w, Ok tt)
  | ClickSel2 value => (allow_gamma_pp (with_vars (set_sel_2 value) w), Ok tt)
  | ClickSel3 value => (allow_gamma_ee (with_vars (set_sel_3 value) w), Ok tt)
  | TypeGammaPP value =>
      if gamma_pp_input (ctrl w)
      then (with_vars (set_gamma_pp value) w, Ok tt) else (w, Ok tt)
  | TypeGammaEE value =>
      if gamma_ee_input (ctrl w)
      then (with_vars (set_gamma_ee value) w, Ok tt) else (w, Ok tt)
  | ConfirmSelection => confirm_selection w
  | UseDefaultSettings => run_default w
  | ExitProgram => exit_program w
  end.

(** [window.mainloop()]: the events are handled one after the other; an
    exception that leaves a method is reported and the loop goes on, except
    for [SystemExit], which ends it. *)
Fixpoint mainloop (events : list event) (w : InputWindow) : InputWindow :=
  match events with
  | [] => w
  | ExitProgram :: _ => fst (handle ExitProgram w)
  | e :: rest => mainloop rest (fst (handle e w))
  end.

End Methods.

End Gui.

(* ================================================================== *)
(** ** The residual pass in double precision *)

(** [filter_data] and [cross_section] once more, on IEEE binary64 numbers:
    Rocq's primitive floats, whose operations round to the nearest number
    as those of Python and NumPy do.  This is for what [fl] leaves out, the
    rounding of the mean and of the standard deviation.  A decimal constant
    of the script is written as the quotient of two integers, which rounds
    to the same number. *)
Module Binary64.

Import PrimFloat.
Local Open Scope float_scope.

Definition row : Type := list float.
Definition ndarray : Type := list row.

Definition ncols (data : ndarray) : option nat :=
  match data with
  | [] => None
  | r :: rs =>
      if forallb (fun r' => Nat.eqb (List.length r') (List.length r)) rs
      then Some (List.length r)
      else None
  end.

(** [data[:, k]] *)
Definition col (k : nat) (data : ndarray) : result (list float) :=
  match ncols data with
  | Some n =>
      if Nat.ltb k n then Ok (map (fun r => nth k r nan) data)
      else Error IndexError
  | None => Error IndexError
  end.

(** The length of an array as a float. *)
Fixpoint of_nat (n : nat) : float :=
  match n with
  | O => 0
  | S n' => of_nat n' + 1
  end.

(** The sum that [np.average] and [np.std] take of a one-dimensional
    array: NumPy adds fewer than eight numbers from left to right, starting
    from zero.  It adds a longer array in blocks, in another order, which is
    not modelled: [None]. *)
Definition sum (l : list float) : option float :=
  if Nat.ltb (List.length l) 8 then Some (fold_left add l 0) else None.

Definition average (l : list float) : option float :=
  option_map (fun s => s / of_nat (List.length l)) (sum l).

(** [np.std]: the root of the mean of [(x - x.mean()) * (x - x.mean())]. *)
Definition std (l : list float) : option float :=
  match average l with
  | Some m => option_map sqrt (average (map (fun x => (x - m) * (x - m)) l))
  | None => None
  end.

Definition GAMMA_EE : float := 8391 / 100000.
Definition CONVERSION_FACTOR : float := 3894 / 1000 * 100000.
Definition np_pi : float := 0x1.921fb54442d18p+1.

Definition dist_fn : Type :=
  float -> float -> float -> option float -> option float -> float.

Definition default (d : float) (o : option float) : float :=
  match o with Some v => v | None => d end.

(** [x ** 2] on the entries of an array, which NumPy computes as the
    product; and on a scalar, where Python and NumPy call C's [pow], taken
    here to return the rounded product as well. *)
Definition square (x : float) : float := x * x.
Definition pow_2 (x : float) : float := x * x.

Definition cross_section : dist_fn :=
  fun energy m_z gamma_z g1 g2 =>
    let gamma_vertex_1 := default GAMMA_EE g1 in
    let gamma_vertex_2 := default GAMMA_EE g2 in
    12 * np_pi / pow_2 m_z * gamma_vertex_1 * gamma_vertex_2 *
    CONVERSION_FACTOR *
    (square energy /
     (square (square energy - pow_2 m_z) + pow_2 (gamma_z * m_z))).

Definition deviation_array (data : ndarray) (func : dist_fn)
  (popt : list float) (gamma_ee_unknown : bool) : result (list float) :=
  if Nat.eqb (List.length popt) 2 then
    ys <- col 1 data ;;
    xs <- col 0 data ;;
    p0 <- index popt 0 ;;
    p1 <- index popt 1 ;;
    Ok (map (fun yx => abs (fst yx - func (snd yx) p0 p1 None None))
          (combine ys xs))
  else if Nat.eqb (List.length popt) 3 && gamma_ee_unknown then
    ys <- col 1 data ;;
    xs <- col 0 data ;;
    p0 <- index popt 0 ;;
    p1 <- index popt 1 ;;
    p2 <- index popt 2 ;;
    Ok (map (fun yx => abs (fst yx - func (snd yx) p0 p1 (Some p2) (Some p2)))
          (combine ys xs))
  else
    ys <- col 1 data ;;
    xs <- col 0 data ;;
    p0 <- index popt 0 ;;
    p1 <- index popt 1 ;;
    p2 <- index popt 2 ;;
    Ok (map (fun yx => abs (fst yx - func (snd yx) p0 p1 (Some p2) None))
          (combine ys xs)).

(** [(deviation_array - mean) / sigma] *)
Definition z_scores (deviation_array : list float) : option (list float) :=
  match average deviation_array, std deviation_array with
  | Some mean, Some sigma =>
      Some (map (fun d => (d - mean) / sigma) deviation_array)
  | _, _ => None
  end.

Definition split_outliers (zs : list float) (data : ndarray)
  : ndarray * list row :=
  fold_left
    (fun acc ze =>
       let '(new_data, outliers) := acc in
       if fst ze <? 4
       then (new_data ++ [snd ze], outliers)
       else (new_data, outliers ++ [snd ze]))
    (combine zs data) ([], []).

(** [filter_data]; [None] on the arrays whose sums are not modelled. *)
Definition filter_data (data : ndarray) (func : dist_fn) (popt : list float)
  (gamma_ee_unknown : bool) : option (result (ndarray * list row)) :=
  match deviation_array data func popt gamma_ee_unknown with
  | Error e => Some (Error e)
  | Ok devs =>
      option_map (fun zs => Ok (split_outliers zs data)) (z_scores devs)
  end.

(** Three records at energy 0, where the model predicts a cross section of
    0, each with the cross section 0.1; and the parameters
    [91.179, 2.510]. *)
Definition above_line : row := [0; 1 / 10; 1].

Definition three_above : ndarray := [above_line; above_line; above_line].

Definition first_guess : list float := [91179 / 1000; 2510 / 1000].

End Binary64.

(* ================================================================== *)
(** ** Notions of the specification *)

(** The words in which the properties of the program are stated: samples
    of real numbers, the resonance line shape, residuals and z-scores,
    sortedness, and the model variants. *)
Module Notions.

Import ZBoson.
Local Open Scope R_scope.

(** Sum, mean and variance (the mean squared deviation from the mean) of a
    list of reals. *)
Definition Rsum (l : list R) : R := fold_right Rplus 0 l.

Definition Rmean (l : list R) : R := Rsum l / INR (List.length l).

Definition Rvar (l : list R) : R :=
  Rmean (map (fun x => (x - Rmean l) * (x - Rmean l)) l).

(** The value of [cross_section] on real arguments. *)
Definition breit_wigner (e m g g1 g2 : R) : R :=
  12 * PI / (m * m) * g1 * g2 * (3894 / 1000 * 10 ^ 5) *
  (e * e / ((e * e - m * m) * (e * e - m * m) + g * m * (g * m))).

(** The line shape as the specification writes it, with a prefactor [K]
    of its own. *)
Definition line_shape (K E M G G1 G2 : fl) : fl :=
  fmul (fmul (fmul K G1) G2)
    (fdiv (fsq E) (fadd (fsq (fsub (fsq E) (fsq M))) (fsq (fmul G M)))).

(** The model-predicted dependent value at independent value [x], for the
    parameters [popt] of a fit. *)
Definition prediction (func : dist_fn) (popt : list fl)
  (gamma_ee_unknown : bool) (x : fl) : fl :=
  match popt with
  | [p0; p1] => func x p0 p1 None None
  | [p0; p1; p2] =>
      if gamma_ee_unknown then func x p0 p1 (Some p2) (Some p2)
      else func x p0 p1 (Some p2) None
  | p0 :: p1 :: p2 :: _ => func x p0 p1 (Some p2) None
  | _ => NaN
  end.

(** The z-score of a value within a sample. *)
Definition zscore (v : fl) (sample : list fl) : fl :=
  fdiv (fsub v (average sample)) (std sample).

(** Signed and absolute residual of a record. *)
Definition residual (func : dist_fn) (popt : list fl) (geu : bool) (r : row)
  : fl :=
  fsub (item 1 r) (prediction func popt geu (item 0 r)).

Definition abs_residual (func : dist_fn) (popt : list fl) (geu : bool)
  (r : row) : fl :=
  fabs (residual func popt geu r).

(** The residual pass as the specification words it: z-scores of the signed
    residuals, a record dropped when its z-score exceeds 4.  The result is
    the retained records and the dropped ones. *)
Definition residual_pass_signed (data : ndarray) (func : dist_fn)
  (popt : list fl) (geu : bool) : ndarray * list row :=
  let sample := map (residual func popt geu) data in
  let exceeds r := fltb (Fin 4) (zscore (residual func popt geu r) sample) in
  (filter (fun r => negb (exceeds r)) data, filter exceeds data).

(** A record is kept by [filter_data] when the z-score of its absolute
    residual, within the absolute residuals of the data, is below 4. *)
Definition kept (data : ndarray) (func : dist_fn) (popt : list fl) (geu : bool)
  (r : row) : bool :=
  fltb (zscore (abs_residual func popt geu r)
          (map (abs_residual func popt geu) data)) (Fin 4).

(** One pass of a fit loop of [fit_to_data]: the solver call, then the
    residual pass. *)
Definition pass
  (curve_fit : fit_fn -> list fl -> list fl -> list fl -> list fl ->
               result (list fl * matrix))
  (f : fit_fn) (p0 : list fl) (func : dist_fn) (flag : bool)
  (data : ndarray) : result (list fl * matrix * ndarray * list row) :=
  '(popt, pcov) <- fit curve_fit f data p0 ;;
  '(data', outliers) <- filter_data data func popt flag ;;
  Ok (popt, pcov, data', outliers).

(** The model variants of the specification and the two flags by which the
    script selects them. *)
Inductive ModelVariant : Type := Standard | FreeVertexWidth | NewChannel.

Definition different_decay_of (v : ModelVariant) : bool :=
  match v with NewChannel => true | _ => false end.

Definition gamma_ee_unknown_of (v : ModelVariant) : bool :=
  match v with FreeVertexWidth => true | _ => false end.

(** Order of two rows by a key. *)
Definition key_le (key : row -> fl) (a b : row) : Prop :=
  fleb (key a) (key b) = true.

(** Sorted ascending by independent value. *)
Definition sorted_by_energy (data : ndarray) : Prop :=
  Sorted (key_le (item 0)) data.

(** What Python promises of [list.sort]: a rearrangement of the list, in
    ascending order of the keys when none of them is [nan]. *)
Definition sort_contract (list_sort : (row -> fl) -> list row -> list row)
  : Prop :=
  forall key l,
    Permutation (list_sort key l) l /\
    (Forall (fun r => is_nan (key r) = false) l ->
     Sorted (key_le key) (list_sort key l)).

(** A float that is not negative: a number [>= 0], [+inf] or [nan]. *)
Definition not_negative (x : fl) : Prop :=
  match x with
  | Fin r => 0 <= r
  | PInf | NaN => True
  | NInf => False
  end.

(** The exception that an analysis of the empty dataset ends in. *)
Definition empty_dataset_error (py_float : string -> option fl)
  (custom_gamma : py_arg) : exn :=
  match custom_gamma with
  | PyStr s =>
      match py_float s with
      | Some _ => IndexError
      | None => ValueError
      end
  | _ => IndexError
  end.

(** The solver evaluates the function it is given at a parameter vector
    as [f(x, *popt)]. *)
Definition eval_fit (f : fit_fn) (popt : list fl) (x : fl) : option fl :=
  match f, popt with
  | Fit2 f, [a; b] => Some (f x a b)
  | Fit3 f, [a; b; c] => Some (f x a b c)
  | _, _ => None
  end.

(** The function that [fit_to_data] hands to the solver in each of its
    three branches, and the starting point [p0] that goes with it. *)
Definition fitted_function (func : dist_fn)
  (different_decay gamma_ee_unknown : bool) : fit_fn :=
  if different_decay
  then Fit3 (fun x a b c => func x a b (Some c) (Some GAMMA_EE))
  else if gamma_ee_unknown
  then Fit3 (fun x a b c => func x a b (Some c) (Some c))
  else Fit2 (fun x a b => func x a b (Some GAMMA_EE) (Some GAMMA_EE)).

Definition starting_point (different_decay gamma_ee_unknown : bool)
  (custom_gamma : fl) : list fl :=
  if different_decay || gamma_ee_unknown
  then [Fin (91179 / 1000); Fin (2510 / 1000); custom_gamma]
  else [Fin (91179 / 1000); Fin (2510 / 1000)].

(** A two-dimensional array with at least [k] columns. *)
Definition has_columns (k : nat) (data : ndarray) : bool :=
  match ncols data with
  | Some n => Nat.leb k n
  | None => false
  end.

(** The term of a record in the sum of chi squared. *)
Definition chi_term (func : dist_fn) (popt : list fl) (geu : bool) (r : row)
  : fl :=
  fdiv (fsq (residual func popt geu r)) (fsq (item 2 r)).

(** The bounds of the specification on the first three fields of a
    record: [independent_value >= 0], [dependent_value >= 0] and
    [uncertainty > 0]. *)
Definition in_bounds (x0 x1 x2 : fl) : bool :=
  fleb (Fin 0) x0 && fleb (Fin 0) x1 && fltb (Fin 0) x2.

(** A record that [read_data] retains: at least three fields, of which the
    third is not [<= 0] and the second and the first are not [< 0]. *)
Definition retained (r : row) : Prop :=
  (3 <= List.length r)%nat /\
  fleb (item 2 r) (Fin 0) = false /\
  fltb (item 1 r) (Fin 0) = false /\
  fltb (item 0 r) (Fin 0) = false.

(** A file that is text, or is not found: reading it raises nothing but
    the [FileNotFoundError] that [read_data] catches. *)
Definition reads_as_text (open_file : string -> text_file) (name : string)
  : Prop :=
  open_file name = Absent \/ exists lines, open_file name = Lines lines None.

(** Whether a file opens and whether it is not found, and how many of a
    list of files do and are. *)
Definition opens (open_file : string -> text_file) (name : string)
  : bool :=
  match open_file name with Lines _ _ => true | _ => false end.

Definition not_found (open_file : string -> text_file) (name : string)
  : bool :=
  match open_file name with Absent => true | _ => false end.

Definition opened (open_file : string -> text_file)
  (file_names : list string) : nat :=
  List.length (filter (opens open_file) file_names).

Definition missing (open_file : string -> text_file)
  (file_names : list string) : nat :=
  List.length (filter (not_found open_file) file_names).

(** The file that a save loop wrote is the first of its names, counted
    from 1, that was free: none of the paths that existed is written to,
    and the names before it are all taken. *)
Definition first_free (fig_name : nat -> string)
  (fs fs' : Figures.file_system) : Prop :=
  exists i : nat,
    (1 <= i)%nat /\
    fs' = Figures.figure_path "SavedFigures" (fig_name i)
          :: Figures.mkdir "SavedFigures" fs /\
    Figures.path_exists fs (Figures.figure_path "SavedFigures" (fig_name i))
    = false /\
    forall j : nat,
      (1 <= j < i)%nat ->
      Figures.path_exists fs (Figures.figure_path "SavedFigures" (fig_name j))
      = true.

(** The texts of the message area for a list of messages, newest first,
    of which the newest has the number [counter - 1]. *)
Fixpoint texts (counter : nat) (messages : list string) : list string :=
  match messages with
  | [] => []
  | message :: rest =>
      Gui.numbered (counter - 1) message :: texts (counter - 1) rest
  end.

(** The message area shows the six newest messages, the newest on top, one
    row of 40 points each from 450 on, each with its number; the counter is
    the number of messages displayed so far. *)
Definition console_shows (c : Gui.console) : Prop :=
  Gui.message_counter c = List.length (Gui.messages c) /\
  Gui.displayed_messages c
  = Gui.place_from 0
      (map (fun t => Gui.Label t None)
         (texts (Gui.message_counter c) (firstn 6 (Gui.messages c)))).

(** The selection of the window is consistent: [sel_1] has its first
    value, the two options are not both chosen, each entry box is open
    exactly when its option is chosen, and with the new decay chosen the
    button for the files is open and the combobox shows the choice of other
    files. *)
Definition selection_consistent (w : Gui.InputWindow) : Prop :=
  Gui.sel_1 (Gui.vars w) = "Use default files"%string /\
  Gui.sel_2 (Gui.vars w) && Gui.sel_3 (Gui.vars w) = false /\
  Gui.gamma_pp_input (Gui.ctrl w) = Gui.sel_2 (Gui.vars w) /\
  Gui.gamma_ee_input (Gui.ctrl w) = Gui.sel_3 (Gui.vars w) /\
  (Gui.sel_2 (Gui.vars w) = true ->
   Gui.input_files (Gui.ctrl w) = true /\
   Gui.file_choice (Gui.ctrl w) = "Choose different files"%string).

(** What SciPy promises of [curve_fit]: as many parameters as the starting
    point has, and a square covariance of that size. *)
Definition solver_contract
  (curve_fit : fit_fn -> list fl -> list fl -> list fl -> list fl ->
               result (list fl * matrix)) : Prop :=
  forall f xs ys p0 sigma popt pcov,
    p0 <> [] ->
    curve_fit f xs ys p0 sigma = Ok (popt, pcov) ->
    List.length popt = List.length p0 /\
    ncols pcov = Some (List.length p0) /\
    List.length pcov = List.length p0.

End Notions.

(* ================================================================== *)
(** ** Data and collaborators of the examples *)

Module Examples.

Import ZBoson Notions.
Local Open Scope R_scope.

(** A sample of seventeen equal values and one other. *)
Definition one_off (a b : R) : list R := repeat a 17 ++ [b].

(** Records at energy 0, where the model predicts a cross section of 0:
    one that the model reproduces and one that lies above it; and a record
    at energy 1 with cross section 0, which lies below the model. *)
Definition on_line : row := [Fin 0; Fin 0; Fin 1].
Definition off_line : row := [Fin 0; Fin 1; Fin 1].
Definition below_line : row := [Fin 1; Fin 0; Fin 1].

(** Seventeen records on the model and one below it. *)
Definition eighteen : ndarray := repeat on_line 17 ++ [below_line].

Definition two_points : ndarray := [on_line; off_line].

(** The parameters [91.179, 2.510]. *)
Definition first_guess : list fl := [M_Z0; GAMMA_Z0].

(** The model prediction at energy 1 for the parameters [first_guess]. *)
Definition peak : R :=
  breit_wigner 1 (91179 / 1000) (2510 / 1000) (8391 / 100000) (8391 / 100000).

(** The starting point [p0] of a variant. *)
Definition start (v : ModelVariant) (guess : fl) : list fl :=
  match v with
  | Standard => [Fin (91179 / 1000); Fin (2510 / 1000)]
  | _ => [Fin (91179 / 1000); Fin (2510 / 1000); guess]
  end.

(** A solver that returns its starting point, with a covariance of ones. *)
Definition guess_solver (f : fit_fn) (xdata ydata p0 sigma : list fl)
  : result (list fl * matrix) :=
  Ok (p0, map (fun _ => map (fun _ => Fin 1) p0) p0).

Definition ones (v : ModelVariant) : matrix :=
  match v with
  | Standard => [[Fin 1; Fin 1]; [Fin 1; Fin 1]]
  | _ => [[Fin 1; Fin 1; Fin 1]; [Fin 1; Fin 1; Fin 1]; [Fin 1; Fin 1; Fin 1]]
  end.

(** A line of a file as Python yields it, with its newline. *)
Definition line (s : string) : string :=
  (s ++ String newline EmptyString)%string.

(** The file system with the one file [data.csv]. *)
Definition single_file (lines : list string) (name : string)
  : text_file :=
  if String.eqb name "data.csv" then Lines lines None else Absent.

(** What [float_literal] reads from the digits of an integer. *)
Definition num (z : Z) : fl := Fin (IZR z / 10 ^ 0).

(** Three lines, one of them with [NaN] in upper case, and the rows that
    ingestion retains from them. *)
Definition nan_lines : list string :=
  [line "2,1,1"; line "NaN,1,1"; line "1,1,1"].

Definition nan_rows : list row :=
  [[num 2; num 1; num 1]; [NaN; num 1; num 1]; [num 1; num 1; num 1]].

(** The message of [read_data] for one file out of one. *)
Definition one_of_one : string :=
  "1/1 files have been imported successfully.".

(** A formatter that shows the format only. *)
Definition show_format (spec : string) (x : fl) : string :=
  ("{:" ++ spec ++ "}")%string.

(** Plotting functions that draw nothing, and a file with one line of two
    numbers. *)
Definition no_fit_plot (data : ndarray) (popt : list fl) (geu : bool)
  : result unit := Ok tt.

Definition no_surface_plot (data : ndarray) (popt : list fl) (pcov : matrix)
  : result unit := Ok tt.

Definition short_file : string -> text_file :=
  single_file [line "1,2"].

(** The file system with the one file [data.csv], whose bytes are no text:
    the iteration over it raises before it yields a line. *)
Definition binary_file (name : string) : text_file :=
  if String.eqb name "data.csv"
  then Lines [] (Some (ExternalError "UnicodeDecodeError"))
  else Absent.

End Examples.

(* ================================================================== *)
(** ** Facts about the numbers *)

Module FloatFacts.

Import Notions.
Local Open Scope R_scope.

Lemma fltb_Fin (a b : R) : fltb (Fin a) (Fin b) = true <-> a < b.
Proof.
  simpl. destruct (Rlt_dec a b); split; intros; try easy.
Qed.

Lemma fltb_Fin_false (a b : R) : fltb (Fin a) (Fin b) = false <-> b <= a.
Proof.
  simpl. destruct (Rlt_dec a b); split; intros; try easy; lra.
Qed.

Lemma fleb_Fin (a b : R) : fleb (Fin a) (Fin b) = true <-> a <= b.
Proof.
  simpl. destruct (Rle_dec a b); split; intros; try easy.
Qed.

Lemma fleb_Fin_false (a b : R) : fleb (Fin a) (Fin b) = false <-> b < a.
Proof.
  simpl. destruct (Rle_dec a b); split; intros; try easy; lra.
Qed.

Lemma fltb_nan_l (x : fl) : fltb NaN x = false.
Proof. reflexivity. Qed.

Lemma fltb_nan_r (x : fl) : fltb x NaN = false.
Proof. destruct x; reflexivity. Qed.

Lemma fleb_nan_l (x : fl) : fleb NaN x = false.
Proof. reflexivity. Qed.

Lemma fleb_nan_r (x : fl) : fleb x NaN = false.
Proof. destruct x; reflexivity. Qed.

(** [<=] is transitive on all floats: [nan] is below and above nothing. *)
Lemma fleb_trans (x y z : fl) :
  fleb x y = true -> fleb y z = true -> fleb x z = true.
Proof.
  destruct x as [a| | |], y as [b| | |], z as [c| | |]; simpl; try easy.
  destruct (Rle_dec a b), (Rle_dec b c), (Rle_dec a c); try easy; lra.
Qed.

(** On floats other than [nan], one of [x < y] and [y <= x] holds. *)
Lemma fltb_false_fleb (x y : fl) :
  is_nan x = false -> is_nan y = false -> fltb x y = false -> fleb y x = true.
Proof.
  destruct x as [a| | |], y as [b| | |]; simpl; try easy.
  destruct (Rlt_dec a b), (Rle_dec b a); try easy; lra.
Qed.

Lemma fltb_fleb (x y : fl) : fltb x y = true -> fleb x y = true.
Proof.
  destruct x as [a| | |], y as [b| | |]; simpl; try easy.
  destruct (Rlt_dec a b), (Rle_dec a b); try easy; lra.
Qed.

Lemma fleb_not_nan (x y : fl) :
  fleb x y = true -> is_nan x = false /\ is_nan y = false.
Proof. destruct x, y; simpl; try easy. Qed.

Lemma Rsgn_pos (r : R) : 0 < r -> Rsgn r = Gt.
Proof.
  intros H. unfold Rsgn. destruct (total_order_T r 0) as [[H1|H1]|H1]; try lra.
  reflexivity.
Qed.

Lemma Rsgn_neg (r : R) : r < 0 -> Rsgn r = Lt.
Proof.
  intros H. unfold Rsgn. destruct (total_order_T r 0) as [[H1|H1]|H1]; try lra.
  reflexivity.
Qed.

Lemma Rsgn_zero : Rsgn 0 = Eq.
Proof.
  unfold Rsgn. destruct (total_order_T 0 0) as [[H1|H1]|H1]; try lra.
  reflexivity.
Qed.

Lemma fdiv_Fin (a b : R) : b <> 0 -> fdiv (Fin a) (Fin b) = Fin (a / b).
Proof.
  intros H. simpl. destruct (Req_dec_T b 0); [contradiction | reflexivity].
Qed.

Lemma fdiv_zero_zero : fdiv (Fin 0) (Fin 0) = NaN.
Proof.
  simpl. destruct (Req_dec_T 0 0); [| congruence]. now rewrite Rsgn_zero.
Qed.

Lemma fdiv_pos_zero (a : R) : 0 < a -> fdiv (Fin a) (Fin 0) = PInf.
Proof.
  intros H. simpl. destruct (Req_dec_T 0 0); [| congruence]. now rewrite Rsgn_pos.
Qed.

Lemma fsqrt_Fin (a : R) : 0 <= a -> fsqrt (Fin a) = Fin (sqrt a).
Proof.
  intros H. simpl. destruct (Rlt_dec a 0); [lra | reflexivity].
Qed.

Lemma fadd_Fin (a b : R) : fadd (Fin a) (Fin b) = Fin (a + b).
Proof. reflexivity. Qed.

Lemma fsub_Fin (a b : R) : fsub (Fin a) (Fin b) = Fin (a - b).
Proof. reflexivity. Qed.

Lemma fmul_Fin (a b : R) : fmul (Fin a) (Fin b) = Fin (a * b).
Proof. reflexivity. Qed.

Lemma fsq_Fin (a : R) : fsq (Fin a) = Fin (a * a).
Proof. reflexivity. Qed.

Lemma fabs_Fin (a : R) : fabs (Fin a) = Fin (Rabs a).
Proof. reflexivity. Qed.

Create Rewrite HintDb fl_fin.
#[export] Hint Rewrite fadd_Fin fsub_Fin fmul_Fin fsq_Fin fabs_Fin : fl_fin.

Lemma sq_nonneg (x : R) : 0 <= x * x.
Proof. nra. Qed.

Lemma sqrt_le_of_sq (a s : R) : 0 <= a -> 0 <= s -> a <= s * s -> sqrt a <= s.
Proof.
  intros Ha Hs H. rewrite <- (sqrt_square s Hs). now apply sqrt_le_1_alt.
Qed.

Lemma sqrt_ge_of_sq (a s : R) : 0 <= s -> s * s <= a -> s <= sqrt a.
Proof.
  intros Hs H. rewrite <- (sqrt_square s Hs). now apply sqrt_le_1_alt.
Qed.

Lemma fold_fadd_Fin (l : list R) (a : R) :
  fold_left fadd (map Fin l) (Fin a) = Fin (a + Rsum l).
Proof.
  revert a. induction l as [|x l IH]; intros a; simpl.
  - f_equal. lra.
  - rewrite IH. f_equal. lra.
Qed.

Lemma fsum_Fin (l : list R) : fsum (map Fin l) = Fin (Rsum l).
Proof.
  unfold fsum. rewrite fold_fadd_Fin. f_equal. lra.
Qed.

Lemma INR_length_pos {A : Type} (l : list A) : l <> [] -> 0 < INR (List.length l).
Proof.
  destruct l; [congruence |]. intros _. apply lt_0_INR. simpl. lia.
Qed.

Lemma average_Fin (l : list R) :
  l <> [] -> average (map Fin l) = Fin (Rmean l).
Proof.
  intros H. unfold average. rewrite fsum_Fin, length_map. unfold fl_of_nat.
  apply fdiv_Fin. pose proof (INR_length_pos H). lra.
Qed.

Lemma Rsum_nonneg (l : list R) : Forall (fun x => 0 <= x) l -> 0 <= Rsum l.
Proof.
  unfold Rsum. induction 1; simpl; lra.
Qed.

Lemma Rvar_nonneg (l : list R) : l <> [] -> 0 <= Rvar l.
Proof.
  intros H. unfold Rvar, Rmean at 1. rewrite length_map.
  apply Rmult_le_pos.
  - apply Rsum_nonneg. apply Forall_forall. intros y Hy.
    apply in_map_iff in Hy as (x & <- & _).
    generalize (x - Rmean l). intros d. nra.
  - left. apply Rinv_0_lt_compat. now apply INR_length_pos.
Qed.

Lemma std_Fin (l : list R) :
  l <> [] -> std (map Fin l) = Fin (sqrt (Rvar l)).
Proof.
  intros H. unfold std. rewrite (average_Fin H). rewrite map_map. simpl.
  rewrite <- (map_map (fun x => (x - Rmean l) * (x - Rmean l)) Fin).
  rewrite average_Fin.
  - apply fsqrt_Fin. now apply Rvar_nonneg.
  - destruct l; simpl; congruence.
Qed.

End FloatFacts.

(* ================================================================== *)
(** ** The distribution function *)

Module CrossSection.

Import ZBoson Notions FloatFacts.
Local Open Scope R_scope.

Lemma cross_section_Fin (e m g g1 g2 : R) (o1 o2 : option fl) :
  default GAMMA_EE o1 = Fin g1 -> default GAMMA_EE o2 = Fin g2 ->
  m <> 0 ->
  (e * e - m * m) * (e * e - m * m) + g * m * (g * m) <> 0 ->
  cross_section (Fin e) (Fin m) (Fin g) o1 o2 = Fin (breit_wigner e m g g1 g2).
Proof.
  intros H1 H2 Hm Hd. unfold cross_section. rewrite H1, H2.
  unfold np_pi, CONVERSION_FACTOR. autorewrite with fl_fin.
  rewrite !fdiv_Fin.
  - now autorewrite with fl_fin.
  - exact Hd.
  - nra.
Qed.

Lemma breit_wigner_den_pos (e m g : R) :
  m <> 0 -> g <> 0 ->
  0 < (e * e - m * m) * (e * e - m * m) + g * m * (g * m).
Proof.
  intros Hm Hg. pose proof (sq_nonneg (e * e - m * m)).
  assert (g * m <> 0) by (apply Rmult_integral_contrapositive_currified; auto).
  assert (0 < g * m * (g * m)) by nra. lra.
Qed.

Lemma breit_wigner_zero (m g g1 g2 : R) : breit_wigner 0 m g g1 g2 = 0.
Proof. unfold breit_wigner, Rdiv. ring. Qed.

Lemma breit_wigner_pos (e m g g1 g2 : R) :
  e <> 0 -> m <> 0 -> g <> 0 -> 0 < g1 -> 0 < g2 ->
  0 < breit_wigner e m g g1 g2.
Proof.
  intros He Hm Hg H1 H2. unfold breit_wigner.
  pose proof (breit_wigner_den_pos e Hm Hg) as Hd.
  pose proof PI_RGT_0.
  assert (0 < m * m) by nra. assert (0 < e * e) by nra.
  assert (0 < 12 * PI / (m * m)) by (apply Rdiv_lt_0_compat; lra).
  assert (0 < e * e / ((e * e - m * m) * (e * e - m * m) + g * m * (g * m)))
    by (apply Rdiv_lt_0_compat; lra).
  assert (0 < 3894 / 1000 * 10 ^ 5) by lra.
  apply Rmult_lt_0_compat; [| assumption].
  apply Rmult_lt_0_compat; [| assumption].
  apply Rmult_lt_0_compat; [| assumption].
  apply Rmult_lt_0_compat; assumption.
Qed.

(** With unit widths and an infinite or undefined prefactor the line shape
    is no number. *)
Lemma line_shape_not_finite (K : fl) (x : R) :
  K = PInf \/ K = NInf \/ K = NaN ->
  forall r, fmul (fmul (fmul K (Fin 1)) (Fin 1)) (Fin x) <> Fin r.
Proof.
  pose proof (Rsgn_pos Rlt_0_1) as H1.
  intros [-> | [-> | ->]] r; simpl; rewrite ?H1; simpl; rewrite ?H1; simpl;
    try discriminate; unfold Rsgn; destruct (total_order_T x 0) as [[?|?]|?];
    discriminate.
Qed.

(** C4, as stated, fails: no prefactor [K] that is the same for all
    parameters turns the specification's line shape into [cross_section].
    At [E = M = 1] the code returns [12 pi c] and at [E = M = 2] it
    returns [3 pi c] ([c] the conversion factor), where the line shape
    gives [K] both times. *)
Lemma cross_section_no_fixed_prefactor :
  ~ (exists K : fl, forall E M G G1 G2 : fl,
        cross_section E M G (Some G1) (Some G2) = line_shape K E M G G1 G2).
Proof.
  intros [K H].
  pose proof (H (Fin 1) (Fin 1) (Fin 1) (Fin 1) (Fin 1)) as H1.
  pose proof (H (Fin 2) (Fin 2) (Fin 1) (Fin 1) (Fin 1)) as H2.
  rewrite (@cross_section_Fin 1 1 1 1 1) in H1; try reflexivity; try lra.
  rewrite (@cross_section_Fin 2 2 1 1 1) in H2; try reflexivity; try lra.
  unfold line_shape in H1, H2. autorewrite with fl_fin in H1, H2.
  rewrite fdiv_Fin in H1, H2 by lra.
  destruct K as [k| | |].
  - autorewrite with fl_fin in H1, H2. injection H1 as H1. injection H2 as H2.
    unfold breit_wigner in H1, H2. pose proof PI_RGT_0. lra.
  - symmetry in H1. revert H1. apply line_shape_not_finite. auto.
  - symmetry in H1. revert H1. apply line_shape_not_finite. auto.
  - symmetry in H1. revert H1. apply line_shape_not_finite. auto.
Qed.

(** C4, amended: there is a fixed constant [C] (twelve pi times the unit
    conversion factor) such that for every energy [E] and all parameters
    [M <> 0], [G], [G1], [G2] with a non-zero resonance denominator the
    model evaluator returns [(C / M^2) * G1 * G2 * (E^2 / ((E^2 - M^2)^2 +
    (G M)^2))]: the prefactor is [C / M^2] and depends on the fitted mass. *)
Theorem cross_section_mass_prefactor :
  exists C : R, forall E M G G1 G2 : R,
    M <> 0 ->
    (E * E - M * M) * (E * E - M * M) + G * M * (G * M) <> 0 ->
    cross_section (Fin E) (Fin M) (Fin G) (Some (Fin G1)) (Some (Fin G2))
    = Fin (C / (M * M) * G1 * G2 *
           (E * E / ((E * E - M * M) * (E * E - M * M) + G * M * (G * M)))).
Proof.
  exists (12 * PI * (3894 / 1000 * 10 ^ 5)). intros E M G G1 G2 HM Hd.
  rewrite (@cross_section_Fin E M G G1 G2); try reflexivity; try assumption.
  f_equal. unfold breit_wigner. field. split; [exact Hd | exact HM].
Qed.

Lemma cross_section_mass_prefactor_witness :
  exists C : R,
    cross_section (Fin 1) (Fin 2) (Fin 1) (Some (Fin 1)) (Some (Fin 1))
    = Fin (C / (2 * 2) * 1 * 1 *
           (1 * 1 / ((1 * 1 - 2 * 2) * (1 * 1 - 2 * 2) + 1 * 2 * (1 * 2)))).
Proof.
  destruct cross_section_mass_prefactor as [C H]. exists C.
  apply H; lra.
Defined.

End CrossSection.

(* ================================================================== *)
(** ** What the residual pass computes *)

Module Residual.

Import ZBoson Notions Examples FloatFacts CrossSection.
Local Open Scope R_scope.

Lemma fold_keep {A : Type} (p : A -> bool) (l acc : list A) :
  fold_left (fun acc x => if p x then acc ++ [x] else acc) l acc
  = acc ++ filter p l.
Proof.
  revert acc. induction l as [|x l IH]; intros acc; simpl.
  - now rewrite app_nil_r.
  - rewrite IH. destruct (p x); [| reflexivity].
    now rewrite <- app_assoc.
Qed.

Lemma fold_split {A B : Type} (p : A -> bool) (g : A -> B) (l : list A)
  (acc1 acc2 : list B) :
  fold_left
    (fun (acc : list B * list B) x =>
       let '(keep, out) := acc in
       if p x then (keep ++ [g x], out) else (keep, out ++ [g x]))
    l (acc1, acc2)
  = (acc1 ++ map g (filter p l), acc2 ++ map g (filter (fun x => negb (p x)) l)).
Proof.
  revert acc1 acc2. induction l as [|x l IH]; intros acc1 acc2; simpl.
  - now rewrite !app_nil_r.
  - destruct (p x); simpl; rewrite IH; now rewrite <- app_assoc.
Qed.

Lemma split_outliers_filter (zs : list fl) (data : ndarray) :
  split_outliers zs data
  = (map snd (filter (fun ze => fltb (fst ze) (Fin 4)) (combine zs data)),
     map snd (filter (fun ze => negb (fltb (fst ze) (Fin 4))) (combine zs data))).
Proof.
  unfold split_outliers.
  apply (fold_split (fun ze : fl * row => fltb (fst ze) (Fin 4)) snd).
Qed.

Lemma combine_map_same {A B C : Type} (f : A -> B) (g : A -> C) (l : list A) :
  combine (map f l) (map g l) = map (fun a => (f a, g a)) l.
Proof. induction l; simpl; congruence. Qed.

Lemma combine_map_l {A B : Type} (f : A -> B) (l : list A) :
  combine (map f l) l = map (fun a => (f a, a)) l.
Proof. induction l; simpl; congruence. Qed.

Lemma filter_map_snd {A B : Type} (f : A -> B) (p : B -> bool) (l : list A) :
  map snd (filter (fun ze => p (fst ze)) (map (fun a => (f a, a)) l))
  = filter (fun a => p (f a)) l.
Proof.
  induction l as [|a l IH]; simpl; [reflexivity |].
  destruct (p (f a)); simpl; congruence.
Qed.

Lemma col_Ok (k : nat) (data : ndarray) (l : list fl) :
  col k data = Ok l -> l = map (item k) data.
Proof.
  unfold col. destruct (ncols data); [| discriminate].
  destruct (Nat.ltb k n); [| discriminate]. now intros [= <-].
Qed.

Lemma col_defined (k n : nat) (data : ndarray) :
  ncols data = Some n -> (k < n)%nat -> col k data = Ok (map (item k) data).
Proof.
  intros Hn Hk. unfold col. rewrite Hn.
  apply Nat.ltb_lt in Hk. now rewrite Hk.
Qed.

Lemma col_Error (k : nat) (data : ndarray) (e : exn) :
  col k data = Error e -> e = IndexError.
Proof.
  unfold col. destruct (ncols data); [| now intros [=]].
  destruct (Nat.ltb k n); [discriminate | now intros [=]].
Qed.

(** When it returns, [deviation_array] is the list of absolute residuals. *)
Lemma deviation_array_Ok (data : ndarray) (func : dist_fn) (popt : list fl)
  (geu : bool) (devs : list fl) :
  deviation_array data func popt geu = Ok devs ->
  devs = map (abs_residual func popt geu) data.
Proof.
  unfold deviation_array, abs_residual, residual, prediction, index.
  destruct popt as [|p0 [|p1 [|p2 [|p3 rest]]]]; destruct geu; simpl;
    destruct (col 1 data) as [ys|] eqn:Hy; simpl; try discriminate;
    destruct (col 0 data) as [xs|] eqn:Hx; simpl; try discriminate;
    apply col_Ok in Hy, Hx; subst ys xs;
    intros [= <-]; now rewrite combine_map_same, map_map.
Qed.

Lemma deviation_array_defined (data : ndarray) (func : dist_fn)
  (popt : list fl) (geu : bool) (n : nat) :
  ncols data = Some n -> (2 <= n)%nat -> (2 <= List.length popt)%nat ->
  deviation_array data func popt geu
  = Ok (map (abs_residual func popt geu) data).
Proof.
  intros Hn Hle Hp.
  destruct (deviation_array data func popt geu) as [devs|e] eqn:E.
  - f_equal. eapply deviation_array_Ok; eauto.
  - exfalso. revert E. unfold deviation_array, index.
    rewrite (col_defined (k:=1) data Hn), (col_defined (k:=0) data Hn) by lia.
    destruct popt as [|p0 [|p1 [|p2 [|p3 rest]]]]; simpl in *; try lia;
      try discriminate.
    destruct geu; discriminate.
Qed.

(** [filter_data] keeps the records that [kept] accepts and returns the
    others as outliers, both in the order of the data. *)
Lemma filter_data_filter (data : ndarray) (func : dist_fn) (popt : list fl)
  (geu : bool) (new_data : ndarray) (outliers : list row) :
  filter_data data func popt geu = Ok (new_data, outliers) ->
  new_data = filter (kept data func popt geu) data /\
  outliers = filter (fun r => negb (kept data func popt geu r)) data.
Proof.
  unfold filter_data.
  destruct (deviation_array data func popt geu) as [devs|] eqn:E; simpl;
    [| discriminate].
  apply deviation_array_Ok in E. subst devs.
  rewrite split_outliers_filter. unfold z_scores.
  set (sample := map (abs_residual func popt geu) data).
  unfold sample at 3 6. rewrite map_map.
  rewrite combine_map_l.
  intros [= <- <-]. split.
  - exact (filter_map_snd _ (fun z => fltb z (Fin 4)) data).
  - exact (filter_map_snd _ (fun z => negb (fltb z (Fin 4))) data).
Qed.

(** *** Z-scores of finite samples *)

Lemma zscore_Fin (v : R) (l : list R) :
  l <> [] -> Rvar l <> 0 ->
  zscore (Fin v) (map Fin l) = Fin ((v - Rmean l) / sqrt (Rvar l)).
Proof.
  intros Hl Hv. unfold zscore. rewrite (average_Fin Hl), (std_Fin Hl).
  rewrite fsub_Fin. apply fdiv_Fin.
  intros H. apply sqrt_eq_0 in H; [contradiction |]. now apply Rvar_nonneg.
Qed.

Lemma div_lt_4 (x s : R) : 0 < s -> x < 4 * s -> x / s < 4.
Proof.
  intros Hs H. apply Rmult_lt_reg_r with s; [assumption |].
  unfold Rdiv. rewrite Rmult_assoc, Rinv_l by lra. lra.
Qed.

Lemma div_ge_4 (x s : R) : 0 < s -> 4 * s <= x -> 4 <= x / s.
Proof.
  intros Hs H. apply Rmult_le_reg_r with s; [assumption |].
  unfold Rdiv. rewrite Rmult_assoc, Rinv_l by lra. lra.
Qed.

Lemma div_le_4 (x s : R) : 0 < s -> x <= 4 * s -> x / s <= 4.
Proof.
  intros Hs H. apply Rmult_le_reg_r with s; [assumption |].
  unfold Rdiv. rewrite Rmult_assoc, Rinv_l by lra. lra.
Qed.

Lemma one_off_nonempty (a b : R) : one_off a b <> [].
Proof. discriminate. Qed.

Lemma Rmean_one_off (a b : R) : Rmean (one_off a b) = (17 * a + b) / 18.
Proof. unfold Rmean, Rsum, one_off. simpl. lra. Qed.

Lemma Rvar_one_off (a b : R) :
  Rvar (one_off a b) = 17 * ((b - a) * (b - a)) / 324.
Proof.
  unfold Rvar. rewrite Rmean_one_off. unfold Rmean, Rsum, one_off. simpl. field.
Qed.

Lemma one_off_var_pos (a b : R) : a <> b -> 0 < Rvar (one_off a b).
Proof.
  intros H. rewrite Rvar_one_off.
  assert (0 < (b - a) * (b - a)) by nra. lra.
Qed.

Lemma one_off_spread (a b : R) : a <> b -> 0 < sqrt (Rvar (one_off a b)).
Proof. intros H. apply sqrt_lt_R0. now apply one_off_var_pos. Qed.

Ltac one_off_zscore a b :=
  let Hs := fresh "Hs" in
  pose proof (@one_off_spread a b ltac:(lra)) as Hs;
  rewrite zscore_Fin;
  [| apply one_off_nonempty | apply Rgt_not_eq, one_off_var_pos; lra].

(** The largest of eighteen values, seventeen of them equal, has z-score
    [sqrt 17], which is above 4; the others have a negative one. *)
Lemma zscore_one_off_top (a b : R) :
  a < b -> fltb (zscore (Fin b) (map Fin (one_off a b))) (Fin 4) = false.
Proof.
  intros H. one_off_zscore a b.
  apply fltb_Fin_false. apply div_ge_4; [assumption |].
  rewrite Rmean_one_off.
  assert (sqrt (Rvar (one_off a b)) <= 17 * (b - a) / 72).
  { apply sqrt_le_of_sq.
    - apply Rvar_nonneg, one_off_nonempty.
    - lra.
    - rewrite Rvar_one_off. pose proof (sq_nonneg (b - a)). nra. }
  lra.
Qed.

Lemma zscore_one_off_rest (a b : R) :
  a < b -> fltb (zscore (Fin a) (map Fin (one_off a b))) (Fin 4) = true.
Proof.
  intros H. one_off_zscore a b.
  apply fltb_Fin. apply div_lt_4; [assumption |].
  rewrite Rmean_one_off. lra.
Qed.

(** With the odd value below the others, no z-score exceeds 4. *)
Lemma zscore_one_off_low (a b : R) :
  b < a -> fltb (Fin 4) (zscore (Fin b) (map Fin (one_off a b))) = false.
Proof.
  intros H. one_off_zscore a b.
  apply fltb_Fin_false. apply div_le_4; [assumption |].
  rewrite Rmean_one_off. lra.
Qed.

Lemma zscore_one_off_high (a b : R) :
  b < a -> fltb (Fin 4) (zscore (Fin a) (map Fin (one_off a b))) = false.
Proof.
  intros H. one_off_zscore a b.
  apply fltb_Fin_false. apply div_le_4; [assumption |].
  rewrite Rmean_one_off.
  assert ((a - b) / 72 <= sqrt (Rvar (one_off a b))).
  { apply sqrt_ge_of_sq.
    - lra.
    - rewrite Rvar_one_off. pose proof (sq_nonneg (b - a)). nra. }
  lra.
Qed.

Lemma filter_repeat_true {A : Type} (p : A -> bool) (a : A) (n : nat) :
  p a = true -> filter p (repeat a n) = repeat a n.
Proof. intros H. induction n; simpl; [reflexivity |]. now rewrite H, IHn. Qed.

Lemma filter_repeat_false {A : Type} (p : A -> bool) (a : A) (n : nat) :
  p a = false -> filter p (repeat a n) = [].
Proof. intros H. induction n; simpl; [reflexivity |]. now rewrite H, IHn. Qed.

(** *** Equal deviations *)

Lemma Rsum_repeat (a : R) (n : nat) : Rsum (repeat a n) = INR n * a.
Proof.
  unfold Rsum. induction n as [|n IH].
  - simpl. lra.
  - rewrite S_INR. cbn [repeat fold_right]. rewrite IH. lra.
Qed.

Lemma Rmean_repeat (a : R) (n : nat) : n <> O -> Rmean (repeat a n) = a.
Proof.
  intros Hn. unfold Rmean. rewrite Rsum_repeat, repeat_length.
  field. apply not_0_INR. exact Hn.
Qed.

Lemma Rvar_repeat (a : R) (n : nat) : n <> O -> Rvar (repeat a n) = 0.
Proof.
  intros Hn. unfold Rvar. rewrite (Rmean_repeat a Hn), map_repeat.
  rewrite Rmean_repeat by exact Hn. lra.
Qed.

Lemma map_constant {A B : Type} (f : A -> B) (c : B) (l : list A) :
  Forall (fun x => f x = c) l -> map f l = repeat c (List.length l).
Proof.
  induction 1 as [|x l Hx _ IH]; simpl; [reflexivity |]. now rewrite Hx, IH.
Qed.

Lemma filter_all_false {A : Type} (p : A -> bool) (l : list A) :
  Forall (fun x => p x = false) l -> filter p l = [].
Proof.
  induction 1 as [|x l Hx _ IH]; simpl; [reflexivity |]. now rewrite Hx.
Qed.

Lemma filter_all_true {A : Type} (p : A -> bool) (l : list A) :
  Forall (fun x => p x = true) l -> filter p l = l.
Proof.
  induction 1 as [|x l Hx _ IH]; simpl; [reflexivity |]. now rewrite Hx, IH.
Qed.

(** A sample of equal numbers has spread zero, and the z-score of its
    value is the quotient [0 / 0]. *)
Lemma flat_sample (func : dist_fn) (popt : list fl) (geu : bool)
  (data : ndarray) (a : R) :
  Forall (fun r => abs_residual func popt geu r = Fin a) data ->
  map (abs_residual func popt geu) data
  = map Fin (repeat a (List.length data)).
Proof.
  intros Hall. rewrite (@map_constant _ _ _ _ _ Hall). now rewrite map_repeat.
Qed.

Lemma flat_std (a : R) (n : nat) :
  n <> O -> std (map Fin (repeat a n)) = Fin 0.
Proof.
  intros Hn. rewrite std_Fin by (destruct n; [congruence | discriminate]).
  now rewrite (Rvar_repeat a Hn), sqrt_0.
Qed.

Lemma flat_zscore (a : R) (n : nat) :
  n <> O -> zscore (Fin a) (map Fin (repeat a n)) = fdiv (Fin 0) (Fin 0).
Proof.
  intros Hn. unfold zscore. rewrite (flat_std a Hn).
  rewrite average_Fin by (destruct n; [congruence | discriminate]).
  rewrite (Rmean_repeat a Hn), fsub_Fin. now rewrite Rminus_diag.
Qed.

(** *** A dataset on which the code and the specification part ways *)

Lemma peak_pos : 0 < peak.
Proof. apply breit_wigner_pos; lra. Qed.

Lemma residual_on_line :
  residual cross_section first_guess false on_line = Fin 0.
Proof.
  unfold residual, prediction, first_guess, on_line, item, M_Z0, GAMMA_Z0.
  simpl nth.
  rewrite (@cross_section_Fin 0 _ _ (8391 / 100000) (8391 / 100000));
    try reflexivity; try lra.
  rewrite breit_wigner_zero. autorewrite with fl_fin. f_equal. lra.
Qed.

Lemma residual_below_line :
  residual cross_section first_guess false below_line = Fin (- peak).
Proof.
  unfold residual, prediction, first_guess, below_line, item, M_Z0, GAMMA_Z0.
  simpl nth.
  rewrite (@cross_section_Fin 1 _ _ (8391 / 100000) (8391 / 100000));
    try reflexivity; try lra.
  autorewrite with fl_fin. f_equal. fold peak. lra.
Qed.

Lemma abs_residual_on_line :
  abs_residual cross_section first_guess false on_line = Fin 0.
Proof.
  unfold abs_residual. rewrite residual_on_line. simpl. f_equal. apply Rabs_R0.
Qed.

Lemma abs_residual_below_line :
  abs_residual cross_section first_guess false below_line = Fin peak.
Proof.
  unfold abs_residual. rewrite residual_below_line. simpl. f_equal.
  rewrite Rabs_Ropp. apply Rabs_pos_eq. pose proof peak_pos. lra.
Qed.

Lemma eighteen_abs :
  map (abs_residual cross_section first_guess false) eighteen
  = map Fin (one_off 0 peak).
Proof.
  unfold eighteen, one_off. rewrite !map_app, !map_repeat. cbn [map].
  now rewrite abs_residual_on_line, abs_residual_below_line.
Qed.

Lemma eighteen_signed :
  map (residual cross_section first_guess false) eighteen
  = map Fin (one_off 0 (- peak)).
Proof.
  unfold eighteen, one_off. rewrite !map_app, !map_repeat. cbn [map].
  now rewrite residual_on_line, residual_below_line.
Qed.

(** The code drops the record below the line... *)
Lemma filter_data_eighteen :
  filter_data eighteen cross_section first_guess false
  = Ok (repeat on_line 17, [below_line]).
Proof.
  destruct (filter_data eighteen cross_section first_guess false)
    as [[nd out]|e] eqn:E.
  - apply filter_data_filter in E as [-> ->]. f_equal.
    pose proof peak_pos as HP.
    assert (K0 : kept eighteen cross_section first_guess false on_line = true).
    { unfold kept. rewrite eighteen_abs, abs_residual_on_line.
      now apply zscore_one_off_rest. }
    assert (K1 : kept eighteen cross_section first_guess false below_line = false).
    { unfold kept. rewrite eighteen_abs, abs_residual_below_line.
      now apply zscore_one_off_top. }
    unfold eighteen at 2 4. rewrite !filter_app.
    rewrite filter_repeat_true by assumption.
    rewrite filter_repeat_false by now rewrite K0.
    cbn [filter app]. rewrite K1. cbn [negb]. rewrite ?app_nil_r. reflexivity.
  - exfalso. unfold filter_data in E.
    rewrite (@deviation_array_defined eighteen cross_section first_guess false 3)
      in E; [discriminate | reflexivity | lia | simpl; lia].
Qed.

(** ... which the pass on signed residuals keeps. *)
Lemma residual_pass_signed_eighteen :
  residual_pass_signed eighteen cross_section first_guess false = (eighteen, []).
Proof.
  unfold residual_pass_signed. rewrite eighteen_signed.
  pose proof peak_pos as HP.
  assert (K0 : fltb (Fin 4)
                 (zscore (residual cross_section first_guess false on_line)
                    (map Fin (one_off 0 (- peak)))) = false).
  { rewrite residual_on_line. apply zscore_one_off_high. lra. }
  assert (K1 : fltb (Fin 4)
                 (zscore (residual cross_section first_guess false below_line)
                    (map Fin (one_off 0 (- peak)))) = false).
  { rewrite residual_below_line. apply zscore_one_off_low. lra. }
  unfold eighteen. rewrite !filter_app.
  rewrite filter_repeat_true by now rewrite K0.
  rewrite filter_repeat_false by assumption.
  cbn [filter app]. rewrite K1. reflexivity.
Qed.

(** Two records on the model: the code drops both, their z-score being
    undefined; no z-score exceeds 4. *)
Lemma filter_data_flat_pair :
  filter_data [on_line; on_line] cross_section first_guess false
  = Ok ([], [on_line; on_line]).
Proof.
  assert (Hs : map (abs_residual cross_section first_guess false)
                 [on_line; on_line] = map Fin (repeat 0 2)).
  { cbn [map repeat]. now rewrite abs_residual_on_line. }
  assert (K : kept [on_line; on_line] cross_section first_guess false on_line
              = false).
  { unfold kept. rewrite Hs, abs_residual_on_line.
    rewrite flat_zscore by discriminate. now rewrite fdiv_zero_zero. }
  destruct (filter_data [on_line; on_line] cross_section first_guess false)
    as [[nd out]|e] eqn:E.
  - apply filter_data_filter in E as [-> ->]. cbn [filter]. now rewrite K.
  - exfalso. unfold filter_data in E.
    rewrite (@deviation_array_defined [on_line; on_line] cross_section
               first_guess false 3) in E;
      [discriminate | reflexivity | lia | simpl; lia].
Qed.

Lemma residual_pass_signed_flat_pair :
  residual_pass_signed [on_line; on_line] cross_section first_guess false
  = ([on_line; on_line], []).
Proof.
  unfold residual_pass_signed. cbn [map filter].
  rewrite residual_on_line.
  change [Fin 0; Fin 0] with (map Fin (repeat 0 2)).
  rewrite flat_zscore by discriminate. now rewrite fdiv_zero_zero.
Qed.

(** C1, as stated, fails twice.  On the dataset [eighteen] with the
    parameters [91.179, 2.510] the code drops the record that lies below
    the model, while the pass on signed residuals drops nothing.  On two
    records that the model reproduces every z-score is undefined: none
    exceeds 4, and the code drops both records. *)
Lemma filter_data_not_signed_pass :
  filter_data eighteen cross_section first_guess false
  <> Ok (residual_pass_signed eighteen cross_section first_guess false) /\
  filter_data [on_line; on_line] cross_section first_guess false
  <> Ok (residual_pass_signed [on_line; on_line] cross_section first_guess
           false).
Proof.
  rewrite filter_data_eighteen, residual_pass_signed_eighteen.
  rewrite filter_data_flat_pair, residual_pass_signed_flat_pair.
  split; discriminate.
Qed.

(** C1, amended: for every two-dimensional dataset with at least two columns
    and every parameter vector of at least two entries, the residual pass
    computes each record's z-score from the absolute residuals
    [|observed - predicted|], within the absolute residuals of the whole
    dataset (their mean as the centre, their standard deviation as the
    scale); it retains exactly the records whose z-score is below 4 and
    returns them together with the list of all other records, both in the
    order of the dataset. *)
Theorem filter_data_abs_zscore (data : ndarray) (func : dist_fn)
  (popt : list fl) (geu : bool) (n : nat) :
  ncols data = Some n -> (2 <= n)%nat -> (2 <= List.length popt)%nat ->
  let sample := map (abs_residual func popt geu) data in
  let keep r := fltb (zscore (abs_residual func popt geu r) sample) (Fin 4) in
  filter_data data func popt geu
  = Ok (filter keep data, filter (fun r => negb (keep r)) data).
Proof.
  intros Hn Hle Hp sample keep.
  destruct (filter_data data func popt geu) as [[nd out]|e] eqn:E.
  - apply filter_data_filter in E as [-> ->]. reflexivity.
  - exfalso. unfold filter_data in E.
    rewrite (@deviation_array_defined data func popt geu n Hn Hle Hp) in E.
    discriminate.
Qed.

Lemma filter_data_abs_zscore_witness :
  filter_data eighteen cross_section first_guess false
  = Ok (filter (kept eighteen cross_section first_guess false) eighteen,
        filter (fun r => negb (kept eighteen cross_section first_guess false r))
          eighteen).
Proof.
  apply (@filter_data_abs_zscore eighteen cross_section first_guess false 3).
  - reflexivity.
  - apply le_S, le_n.
  - apply le_n.
Defined.

(** *** Equal deviations from the model *)

(** C10, amended: for every (non-empty, two-dimensional) dataset that
    the model reproduces exactly, every absolute deviation being zero, the
    scale of the residual pass is zero, every z-score is the quotient
    [0 / 0], whose comparison with 4 fails, and the pass returns an empty
    retained dataset with every record among the outliers. *)
Theorem zero_deviations_all_outliers (data : ndarray) (func : dist_fn)
  (popt : list fl) (geu : bool) (n : nat) :
  ncols data = Some n -> (2 <= n)%nat -> (2 <= List.length popt)%nat ->
  Forall (fun r => abs_residual func popt geu r = Fin 0) data ->
  let sample := map (abs_residual func popt geu) data in
  std sample = Fin 0 /\
  Forall (fun r =>
            zscore (abs_residual func popt geu r) sample = fdiv (Fin 0) (Fin 0) /\
            fltb (zscore (abs_residual func popt geu r) sample) (Fin 4) = false)
    data /\
  filter_data data func popt geu = Ok ([], data).
Proof.
  intros Hn Hle Hp Hall sample.
  assert (Hlen : List.length data <> O) by (destruct data; discriminate).
  assert (Hs : sample = map Fin (repeat 0 (List.length data)))
    by now apply flat_sample.
  assert (Hz : Forall (fun r =>
            zscore (abs_residual func popt geu r) sample = fdiv (Fin 0) (Fin 0) /\
            fltb (zscore (abs_residual func popt geu r) sample) (Fin 4) = false)
    data).
  { apply Forall_forall. intros r Hr.
    rewrite Forall_forall in Hall. rewrite (Hall r Hr), Hs.
    rewrite (flat_zscore 0 Hlen). split; [reflexivity |].
    now rewrite fdiv_zero_zero. }
  split; [rewrite Hs; now apply flat_std |]. split; [exact Hz |].
  destruct (filter_data data func popt geu) as [[nd out]|e] eqn:E.
  - apply filter_data_filter in E as [-> ->]. f_equal. f_equal.
    + apply filter_all_false. revert Hz. apply Forall_impl. intros r [_ H]. exact H.
    + apply filter_all_true. revert Hz. apply Forall_impl. intros r [_ H].
      unfold kept. fold sample. now rewrite H.
  - exfalso. unfold filter_data in E.
    rewrite (@deviation_array_defined data func popt geu n Hn Hle Hp) in E.
    discriminate.
Qed.

(** Two records that the model reproduces exactly are both dropped. *)
Lemma zero_deviations_all_outliers_witness :
  let data := [on_line; on_line] in
  let sample := map (abs_residual cross_section first_guess false) data in
  std sample = Fin 0 /\
  Forall (fun r =>
            zscore (abs_residual cross_section first_guess false r) sample
            = fdiv (Fin 0) (Fin 0) /\
            fltb (zscore (abs_residual cross_section first_guess false r) sample)
              (Fin 4) = false)
    data /\
  filter_data data cross_section first_guess false = Ok ([], data).
Proof.
  apply (@zero_deviations_all_outliers [on_line; on_line] cross_section
           first_guess false 3).
  - reflexivity.
  - apply le_S, le_n.
  - apply le_n.
  - repeat constructor; apply abs_residual_on_line.
Defined.

End Residual.

(* ================================================================== *)
(** ** Equal deviations in double precision *)

Module Rounding.

Import PrimFloat.
Local Open Scope float_scope.

(** Deviations that are all zero stay zero in double precision: for fewer
    than eight records their mean and their scale are zero and every
    z-score is [nan]. *)
Lemma zero_deviations_nan (n : nat) :
  (0 < n < 8)%nat ->
  Binary64.average (repeat 0 n) = Some 0 /\
  Binary64.std (repeat 0 n) = Some 0 /\
  Binary64.z_scores (repeat 0 n) = Some (repeat nan n).
Proof.
  intros H.
  assert (C : (n = 1 \/ n = 2 \/ n = 3 \/ n = 4 \/ n = 5 \/ n = 6 \/ n = 7)%nat)
    by lia.
  clear H. repeat destruct C as [-> | C]; try subst n; repeat split;
    vm_compute; reflexivity.
Qed.

(** C10, as stated, fails in the arithmetic of the script.  Three records
    with the cross section 0.1 at energy 0, where the model predicts 0,
    have the same absolute deviation 0.1 from the prediction.  The sum
    [0.1 + 0.1 + 0.1] rounds upwards, so their mean lies above 0.1; the
    scale is not zero, the three z-scores are [-1], and the residual pass
    retains all three records and has no outlier. *)
Lemma equal_deviations_retained :
  Binary64.deviation_array Binary64.three_above Binary64.cross_section
    Binary64.first_guess false
  = Ok [1 / 10; 1 / 10; 1 / 10] /\
  (exists mean sigma,
      Binary64.average [1 / 10; 1 / 10; 1 / 10] = Some mean /\
      Binary64.std [1 / 10; 1 / 10; 1 / 10] = Some sigma /\
      (1 / 10 <? mean) = true /\ (0 <? sigma) = true) /\
  Binary64.z_scores [1 / 10; 1 / 10; 1 / 10] = Some [-1; -1; -1] /\
  Binary64.filter_data Binary64.three_above Binary64.cross_section
    Binary64.first_guess false
  = Some (Ok (Binary64.three_above, [])).
Proof.
  split; [vm_compute; reflexivity |]. split; [| split; vm_compute; reflexivity].
  eexists _, _. repeat split; vm_compute; reflexivity.
Qed.

End Rounding.

(* ================================================================== *)
(** ** The global pass *)

Module GlobalPass.

Import ZBoson Notions Examples FloatFacts Residual.
Local Open Scope R_scope.

Lemma initial_filter_filter (data new_data : ndarray) :
  initial_filter data = Ok new_data ->
  let ys := map (item 1) data in
  new_data
  = filter (fun entry =>
              fltb (fabs (fsub (average ys) (item 1 entry)))
                (fmul (Fin 5) (std ys))) data.
Proof.
  unfold initial_filter.
  destruct (col 1 data) as [ys|] eqn:E; simpl; [| discriminate].
  apply col_Ok in E. subst ys. intros [= <-]. now rewrite fold_keep.
Qed.

Lemma initial_filter_defined (data : ndarray) (n : nat) :
  ncols data = Some n -> (2 <= n)%nat ->
  let ys := map (item 1) data in
  initial_filter data
  = Ok (filter (fun entry =>
                  fltb (fabs (fsub (average ys) (item 1 entry)))
                    (fmul (Fin 5) (std ys))) data).
Proof.
  intros Hn Hle ys.
  destruct (initial_filter data) as [nd|e] eqn:E.
  - f_equal. now apply initial_filter_filter.
  - exfalso. revert E. unfold initial_filter.
    rewrite (col_defined (k:=1) data Hn) by lia. discriminate.
Qed.

(** Samples of two values. *)
Lemma Rmean_pair (a b : R) : Rmean [a; b] = (a + b) / 2.
Proof. unfold Rmean, Rsum. simpl. lra. Qed.

Lemma Rvar_pair (a b : R) : Rvar [a; b] = (b - a) / 2 * ((b - a) / 2).
Proof. unfold Rvar. rewrite Rmean_pair. unfold Rmean, Rsum. simpl. field. Qed.

Lemma sqrt_Rvar_pair (a b : R) : a <= b -> sqrt (Rvar [a; b]) = (b - a) / 2.
Proof. intros H. rewrite Rvar_pair. apply sqrt_square. lra. Qed.

Lemma average_pair (a b : R) : average [Fin a; Fin b] = Fin ((a + b) / 2).
Proof.
  change [Fin a; Fin b] with (map Fin [a; b]).
  rewrite average_Fin by discriminate. now rewrite Rmean_pair.
Qed.

Lemma std_pair (a b : R) : a <= b -> std [Fin a; Fin b] = Fin ((b - a) / 2).
Proof.
  intros H. change [Fin a; Fin b] with (map Fin [a; b]).
  rewrite std_Fin by discriminate. now rewrite sqrt_Rvar_pair.
Qed.

Lemma zscore_pair (v a b : R) :
  a < b -> zscore (Fin v) [Fin a; Fin b] = Fin ((v - (a + b) / 2) / ((b - a) / 2)).
Proof.
  intros H. unfold zscore. rewrite average_pair, std_pair by lra.
  rewrite fsub_Fin. apply fdiv_Fin. lra.
Qed.

Lemma initial_filter_two_points : initial_filter two_points = Ok two_points.
Proof.
  rewrite (@initial_filter_defined two_points 3); [| reflexivity | lia].
  f_equal. unfold two_points, on_line, off_line, item. cbn [map nth].
  rewrite average_pair, std_pair by lra. cbn [filter nth].
  autorewrite with fl_fin.
  assert (H0 : fltb (Fin (Rabs ((0 + 1) / 2 - 0))) (Fin (5 * ((1 - 0) / 2))) = true).
  { apply fltb_Fin. rewrite Rabs_pos_eq; lra. }
  assert (H1 : fltb (Fin (Rabs ((0 + 1) / 2 - 1))) (Fin (5 * ((1 - 0) / 2))) = true).
  { apply fltb_Fin. rewrite Rabs_left; lra. }
  now rewrite H0, H1.
Qed.

End GlobalPass.

(* ================================================================== *)
(** ** The fit loop *)

Module FitLoop.

Import ZBoson Notions Examples FloatFacts CrossSection Residual GlobalPass.
Local Open Scope R_scope.

Lemma filter_split_length {A : Type} (p : A -> bool) (l : list A) :
  (List.length (filter p l) + List.length (filter (fun x => negb (p x)) l)
   = List.length l)%nat.
Proof.
  induction l as [|x l IH]; simpl; [reflexivity |].
  destruct (p x); simpl; lia.
Qed.

Lemma filter_none_out {A : Type} (p : A -> bool) (l : list A) :
  filter (fun x => negb (p x)) l = [] -> filter p l = l.
Proof.
  induction l as [|x l IH]; simpl; [reflexivity |].
  destruct (p x); simpl; [| discriminate]. intros H. now rewrite IH.
Qed.

Lemma filter_data_length (data : ndarray) (func : dist_fn) (popt : list fl)
  (geu : bool) (new_data : ndarray) (outliers : list row) :
  filter_data data func popt geu = Ok (new_data, outliers) ->
  (List.length new_data + List.length outliers = List.length data)%nat.
Proof.
  intros H. apply filter_data_filter in H as [-> ->]. apply filter_split_length.
Qed.

Lemma filter_data_converged (data : ndarray) (func : dist_fn) (popt : list fl)
  (geu : bool) (new_data : ndarray) :
  filter_data data func popt geu = Ok (new_data, []) -> new_data = data.
Proof.
  intros H. apply filter_data_filter in H as [-> H]. symmetry in H.
  now apply filter_none_out.
Qed.

Section Loop.

Variable body : ndarray -> result (list fl * matrix * ndarray * list row).

Lemma while_outliers_Ok (fuel : nat) (data d : ndarray) (popt : list fl)
  (pcov : matrix) :
  while_outliers fuel body data = Some (Ok (d, popt, pcov)) ->
  exists d0, body d0 = Ok (popt, pcov, d, []).
Proof.
  revert data. induction fuel as [|fuel IH]; intros data; simpl; [discriminate |].
  destruct (body data) as [[[[popt' pcov'] d'] out]|e] eqn:E; [| discriminate].
  destruct out as [|o out].
  - intros [= <- <- <-]. now exists data.
  - apply IH.
Qed.

Hypothesis body_shrinks :
  forall data popt pcov data' outliers,
    body data = Ok (popt, pcov, data', outliers) ->
    outliers <> [] -> (List.length data' < List.length data)%nat.

Lemma while_outliers_ends (fuel : nat) (data : ndarray) :
  (List.length data < fuel)%nat -> while_outliers fuel body data <> None.
Proof.
  revert data. induction fuel as [|fuel IH]; intros data Hlt; [lia |].
  simpl. destruct (body data) as [[[[popt pcov] d'] out]|e] eqn:E; [| discriminate].
  destruct out as [|o out]; [discriminate |].
  apply IH. apply body_shrinks in E; [lia | discriminate].
Qed.

Lemma run_while_fuel (fuel : nat) (data : ndarray) :
  (List.length data < fuel)%nat ->
  while_outliers fuel body data = Some (run_while body data).
Proof.
  intros Hlt. unfold run_while.
  assert (G : forall f1 f2 d, (List.length d < f1)%nat -> (List.length d < f2)%nat ->
              while_outliers f1 body d = while_outliers f2 body d).
  { induction f1 as [|f1 IH]; intros f2 d H1 H2; [lia |].
    destruct f2 as [|f2]; [lia |]. simpl.
    destruct (body d) as [[[[popt pcov] d'] out]|e] eqn:E; [| reflexivity].
    destruct out as [|o out]; [reflexivity |].
    apply body_shrinks in E; [| discriminate]. apply IH; lia. }
  rewrite (G fuel (S (List.length data)) data Hlt) by lia.
  destruct (while_outliers (S (List.length data)) body data) eqn:E; [reflexivity |].
  exfalso. revert E. apply while_outliers_ends. lia.
Qed.

Lemma run_while_Ok (data d : ndarray) (popt : list fl) (pcov : matrix) :
  run_while body data = Ok (d, popt, pcov) ->
  exists d0, body d0 = Ok (popt, pcov, d, []).
Proof.
  unfold run_while.
  destruct (while_outliers (S (List.length data)) body data) as [r|] eqn:E;
    [| discriminate].
  intros ->. eapply while_outliers_Ok; eauto.
Qed.

End Loop.

Section Fit.
Variable curve_fit :
  fit_fn -> list fl -> list fl -> list fl -> list fl -> result (list fl * matrix).

Lemma pass_Ok f p0 func flag d0 d popt pcov out :
  pass curve_fit f p0 func flag d0 = Ok (popt, pcov, d, out) ->
  fit curve_fit f d0 p0 = Ok (popt, pcov) /\
  filter_data d0 func popt flag = Ok (d, out).
Proof.
  unfold pass. destruct (fit curve_fit f d0 p0) as [[popt' pcov']|]; simpl; [| discriminate].
  destruct (filter_data d0 func popt' flag) as [[d' out']|] eqn:E2; simpl;
    [| discriminate].
  intros [= <- <- <- <-]. auto.
Qed.

Lemma fit_to_data_Ok data dd geu guess func d popt pcov g :
  fit_to_data curve_fit data dd geu guess func = Ok (d, popt, pcov, g) ->
  g = geu /\
  let f := if dd then Fit3 (fun x a b c => func x a b (Some c) (Some GAMMA_EE))
           else if geu then Fit3 (fun x a b c => func x a b (Some c) (Some c))
           else Fit2 (fun x a b => func x a b (Some GAMMA_EE) (Some GAMMA_EE)) in
  let p0 := if dd || geu then [Fin (91179 / 1000); Fin (2510 / 1000); guess]
            else [Fin (91179 / 1000); Fin (2510 / 1000)] in
  fit curve_fit f d p0 = Ok (popt, pcov) /\
  filter_data d func popt (if dd then false else geu) = Ok (d, []).
Proof.
  unfold fit_to_data.
  destruct (initial_filter data) as [d1|]; simpl; [| discriminate].
  destruct dd; [| destruct geu];
  match goal with |- context [run_while ?b d1] =>
    destruct (run_while b d1) as [[[d' popt'] pcov']|] eqn:E; simpl; [| discriminate];
    intros [= <- <- <- <-]; split; [reflexivity |];
    apply run_while_Ok in E as [d0 E];
    apply (@pass_Ok _ _ func _ d0 d' popt' pcov' []) in E as [E1 E2];
    pose proof (filter_data_converged _ _ _ _ E2) as ->; simpl; auto
  end.
Qed.

(** Every pass that goes on drops a record. *)
Lemma pass_shrinks f p0 func flag data popt pcov data' outliers :
  pass curve_fit f p0 func flag data = Ok (popt, pcov, data', outliers) ->
  outliers <> [] -> (List.length data' < List.length data)%nat.
Proof.
  intros H Hout. apply pass_Ok in H as [_ H]. apply filter_data_length in H.
  destruct outliers; [congruence |]. simpl in H. lia.
Qed.

(** The fit loops end: more fuel than one pass per record changes nothing. *)
Lemma fit_loop_ends f p0 func flag (fuel : nat) (data : ndarray) :
  (List.length data < fuel)%nat ->
  while_outliers fuel (pass curve_fit f p0 func flag) data
  = Some (run_while (pass curve_fit f p0 func flag) data).
Proof.
  apply run_while_fuel. intros d popt pcov d' out. apply pass_shrinks.
Qed.

(** A fit that returns is the answer of the solver on the first three
    columns of the data. *)
Lemma fit_solver f data p0 r :
  fit curve_fit f data p0 = Ok r ->
  col 0 data = Ok (map (item 0) data) /\
  col 1 data = Ok (map (item 1) data) /\
  col 2 data = Ok (map (item 2) data) /\
  curve_fit f (map (item 0) data) (map (item 1) data) p0 (map (item 2) data)
  = Ok r.
Proof.
  unfold fit.
  destruct (col 0 data) as [xs|] eqn:E0; cbn [bind]; [| discriminate].
  destruct (col 1 data) as [ys|] eqn:E1; cbn [bind]; [| discriminate].
  destruct (col 2 data) as [sigma|] eqn:E2; cbn [bind]; [| discriminate].
  apply col_Ok in E0, E1, E2. subst xs ys sigma. auto.
Qed.

End Fit.

(** C5: whenever a fit returns, with a solver that returns as many
    parameters as its starting point has, the returned dataset has its
    three columns, and the returned parameters and covariance are what the
    solver answered when it was called on these columns with: in the
    Standard variant, a function of two free parameters (mass and width)
    with both vertex widths fixed at [GAMMA_EE]; in the FreeVertexWidth
    variant, a function of three free parameters with both vertex widths
    bound to the third; in the NewChannel variant, a function of three free
    parameters with the first vertex width bound to the third and the
    second fixed at [GAMMA_EE].  The parameter vector has length 2 for
    Standard and 3 otherwise. *)
Theorem fit_to_data_variants
  (curve_fit : fit_fn -> list fl -> list fl -> list fl -> list fl ->
               result (list fl * matrix))
  (v : ModelVariant) (data : ndarray) (guess : fl) (func : dist_fn)
  (d : ndarray) (popt : list fl) (pcov : matrix) (g : bool) :
  (forall f xs ys p0 sigma popt pcov,
      curve_fit f xs ys p0 sigma = Ok (popt, pcov) ->
      List.length popt = List.length p0) ->
  fit_to_data curve_fit data (different_decay_of v) (gamma_ee_unknown_of v)
    guess func = Ok (d, popt, pcov, g) ->
  let xdata := map (item 0) d in
  let ydata := map (item 1) d in
  let sigma := map (item 2) d in
  col 0 d = Ok xdata /\ col 1 d = Ok ydata /\ col 2 d = Ok sigma /\
  match v with
  | Standard =>
      curve_fit
        (Fit2 (fun x m gz => func x m gz (Some GAMMA_EE) (Some GAMMA_EE)))
        xdata ydata [Fin (91179 / 1000); Fin (2510 / 1000)] sigma
      = Ok (popt, pcov) /\
      List.length popt = 2%nat
  | FreeVertexWidth =>
      curve_fit
        (Fit3 (fun x m gz c => func x m gz (Some c) (Some c)))
        xdata ydata [Fin (91179 / 1000); Fin (2510 / 1000); guess] sigma
      = Ok (popt, pcov) /\
      List.length popt = 3%nat
  | NewChannel =>
      curve_fit
        (Fit3 (fun x m gz c => func x m gz (Some c) (Some GAMMA_EE)))
        xdata ydata [Fin (91179 / 1000); Fin (2510 / 1000); guess] sigma
      = Ok (popt, pcov) /\
      List.length popt = 3%nat
  end.
Proof.
  intros Hlen H xdata ydata sigma. apply fit_to_data_Ok in H as (_ & H & _).
  cbv zeta in H.
  destruct (fit_solver _ _ _ _ H) as (C0 & C1 & C2 & S).
  split; [exact C0 |]. split; [exact C1 |]. split; [exact C2 |].
  destruct v; cbn [different_decay_of gamma_ee_unknown_of orb] in S;
    (split; [exact S |]); apply Hlen in S; exact S.
Qed.

(** C7: when the fit loop has ended and [fit_to_data] returns, running the
    residual pass of that loop again on the returned dataset with the
    returned parameters retains the whole dataset and drops no record. *)
Theorem residual_pass_idempotent
  (curve_fit : fit_fn -> list fl -> list fl -> list fl -> list fl ->
               result (list fl * matrix))
  (data : ndarray) (different_decay gamma_ee_unknown : bool) (guess : fl)
  (func : dist_fn) (d : ndarray) (popt : list fl) (pcov : matrix) (g : bool) :
  fit_to_data curve_fit data different_decay gamma_ee_unknown guess func
  = Ok (d, popt, pcov, g) ->
  filter_data d func popt (if different_decay then false else gamma_ee_unknown)
  = Ok (d, []).
Proof.
  intros H. apply fit_to_data_Ok in H as (_ & _ & H). exact H.
Qed.

Lemma run_while_converged
  (body : ndarray -> result (list fl * matrix * ndarray * list row))
  (data data' : ndarray) (popt : list fl) (pcov : matrix) :
  body data = Ok (popt, pcov, data', []) ->
  run_while body data = Ok (data', popt, pcov).
Proof. intros H. unfold run_while. simpl. now rewrite H. Qed.

(** The model vanishes at energy 0. *)
Lemma cross_section_zero_energy (m g : R) (o1 o2 : option fl) :
  is_finite (default GAMMA_EE o1) = true ->
  is_finite (default GAMMA_EE o2) = true ->
  m <> 0 -> g <> 0 ->
  cross_section (Fin 0) (Fin m) (Fin g) o1 o2 = Fin 0.
Proof.
  intros H1 H2 Hm Hg.
  destruct (default GAMMA_EE o1) as [g1| | |] eqn:E1; try discriminate.
  destruct (default GAMMA_EE o2) as [g2| | |] eqn:E2; try discriminate.
  rewrite (@cross_section_Fin 0 m g g1 g2); try assumption.
  - now rewrite breit_wigner_zero.
  - apply Rgt_not_eq. now apply breit_wigner_den_pos.
Qed.

Lemma two_points_abs (v : ModelVariant) (c : R) (flag : bool) :
  map (abs_residual cross_section (start v (Fin c)) flag) two_points
  = [Fin 0; Fin 1].
Proof.
  unfold two_points, on_line, off_line, abs_residual, residual, prediction, item.
  destruct v, flag; cbn [map start nth];
    rewrite cross_section_zero_energy by (reflexivity || lra);
    autorewrite with fl_fin;
    rewrite Rminus_diag, Rabs_R0; replace (1 - 0) with 1 by lra;
    now rewrite Rabs_R1.
Qed.

Lemma filter_data_two_points (v : ModelVariant) (c : R) (flag : bool) :
  filter_data two_points cross_section (start v (Fin c)) flag
  = Ok (two_points, []).
Proof.
  destruct (filter_data two_points cross_section (start v (Fin c)) flag)
    as [[nd out]|e] eqn:E.
  - apply filter_data_filter in E as [-> ->].
    assert (K0 : kept two_points cross_section (start v (Fin c)) flag on_line = true).
    { unfold kept. rewrite two_points_abs.
      replace (abs_residual cross_section (start v (Fin c)) flag on_line) with (Fin 0).
      - rewrite zscore_pair by lra. apply fltb_Fin. lra.
      - pose proof (two_points_abs v c flag) as H. now injection H. }
    assert (K1 : kept two_points cross_section (start v (Fin c)) flag off_line = true).
    { unfold kept. rewrite two_points_abs.
      replace (abs_residual cross_section (start v (Fin c)) flag off_line) with (Fin 1).
      - rewrite zscore_pair by lra. apply fltb_Fin. lra.
      - pose proof (two_points_abs v c flag) as H. now injection H. }
    unfold two_points at 2 4. cbn [filter]. now rewrite K0, K1.
  - exfalso. unfold filter_data in E.
    rewrite (@deviation_array_defined two_points cross_section _ flag 3) in E;
      [discriminate | reflexivity | lia | destruct v; simpl; lia].
Qed.

Lemma fit_to_data_two_points (v : ModelVariant) (c : R) :
  fit_to_data guess_solver two_points (different_decay_of v)
    (gamma_ee_unknown_of v) (Fin c) cross_section
  = Ok (two_points, start v (Fin c), ones v, gamma_ee_unknown_of v).
Proof.
  unfold fit_to_data. rewrite initial_filter_two_points. cbn [bind].
  destruct v; cbn [different_decay_of gamma_ee_unknown_of];
    erewrite run_while_converged; try reflexivity.
  - change [Fin (91179 / 1000); Fin (2510 / 1000)] with (start Standard (Fin c)).
    change (fit guess_solver _ two_points (start Standard (Fin c)))
      with (Ok (start Standard (Fin c), ones Standard)).
    cbn [bind]. rewrite filter_data_two_points. reflexivity.
  - change [Fin (91179 / 1000); Fin (2510 / 1000); Fin c]
      with (start FreeVertexWidth (Fin c)).
    change (fit guess_solver _ two_points (start FreeVertexWidth (Fin c)))
      with (Ok (start FreeVertexWidth (Fin c), ones FreeVertexWidth)).
    cbn [bind]. rewrite filter_data_two_points. reflexivity.
  - change [Fin (91179 / 1000); Fin (2510 / 1000); Fin c]
      with (start NewChannel (Fin c)).
    change (fit guess_solver _ two_points (start NewChannel (Fin c)))
      with (Ok (start NewChannel (Fin c), ones NewChannel)).
    cbn [bind]. rewrite filter_data_two_points. reflexivity.
Qed.

Lemma guess_solver_length (f : fit_fn) (xs ys p0 sigma popt : list fl)
  (pcov : matrix) :
  guess_solver f xs ys p0 sigma = Ok (popt, pcov) ->
  List.length popt = List.length p0.
Proof. intros [= <- _]. reflexivity. Qed.

Lemma fit_to_data_variants_witness :
  guess_solver
    (Fit3 (fun x m gz c => cross_section x m gz (Some c) (Some GAMMA_EE)))
    (map (item 0) two_points) (map (item 1) two_points)
    [Fin (91179 / 1000); Fin (2510 / 1000); Fin (1 / 100)]
    (map (item 2) two_points)
  = Ok (start NewChannel (Fin (1 / 100)), ones NewChannel) /\
  List.length (start NewChannel (Fin (1 / 100))) = 3%nat.
Proof.
  exact (proj2 (proj2 (proj2
           (@fit_to_data_variants guess_solver NewChannel two_points
              (Fin (1 / 100)) cross_section two_points
              (start NewChannel (Fin (1 / 100))) (ones NewChannel)
              (gamma_ee_unknown_of NewChannel)
              guess_solver_length
              (fit_to_data_two_points NewChannel (1 / 100)))))).
Defined.

Lemma residual_pass_idempotent_witness :
  filter_data two_points cross_section (start Standard (Fin (1 / 100))) false
  = Ok (two_points, []).
Proof.
  exact (@residual_pass_idempotent guess_solver two_points false false
           (Fin (1 / 100)) cross_section two_points
           (start Standard (Fin (1 / 100))) (ones Standard) false
           (fit_to_data_two_points Standard (1 / 100))).
Defined.

End FitLoop.

(* ================================================================== *)
(** ** Ingestion *)

Module Ingestion.

Import ZBoson Notions Examples FloatFacts.
Local Open Scope R_scope.

Section Ingest.

Variable py_float : string -> option fl.

Lemma read_line_nan (l : string) :
  re_match_nan l = true -> read_line py_float l = Ok None.
Proof. intros H. unfold read_line. now rewrite H. Qed.

Lemma read_line_not_numeric (l : string) :
  floats py_float (split comma l) = None -> read_line py_float l = Ok None.
Proof. intros H. unfold read_line. rewrite H. now destruct (re_match_nan l). Qed.

Lemma read_line_short (l : string) (fields : row) :
  re_match_nan l = false -> floats py_float (split comma l) = Some fields ->
  (List.length fields < 3)%nat -> read_line py_float l = Error IndexError.
Proof.
  intros Hn Hf Hlen. unfold read_line. rewrite Hn, Hf.
  destruct fields as [|x0 [|x1 [|x2 tl]]]; simpl in *; try reflexivity; lia.
Qed.

Lemma read_line_three (l : string) (x0 x1 x2 : fl) (tl : row) :
  re_match_nan l = false ->
  floats py_float (split comma l) = Some (x0 :: x1 :: x2 :: tl) ->
  read_line py_float l
  = if fleb x2 (Fin 0) || fltb x1 (Fin 0) || fltb x0 (Fin 0)
    then Ok None else Ok (Some (x0 :: x1 :: x2 :: tl)).
Proof.
  intros Hn Hf. unfold read_line. rewrite Hn, Hf. cbn [index nth_error bind].
  destruct (fleb x2 (Fin 0)), (fltb x1 (Fin 0)), (fltb x0 (Fin 0)); reflexivity.
Qed.

Lemma out_of_bounds (x0 x1 x2 : R) :
  ~ (0 <= x0 /\ 0 <= x1 /\ 0 < x2) ->
  fleb (Fin x2) (Fin 0) || fltb (Fin x1) (Fin 0) || fltb (Fin x0) (Fin 0) = true.
Proof.
  intros H. simpl.
  destruct (Rle_dec x2 0), (Rlt_dec x1 0), (Rlt_dec x0 0); try reflexivity.
  exfalso. apply H. lra.
Qed.

Lemma within_bounds (x0 x1 x2 : R) :
  0 <= x0 -> 0 <= x1 -> 0 < x2 ->
  fleb (Fin x2) (Fin 0) || fltb (Fin x1) (Fin 0) || fltb (Fin x0) (Fin 0) = false.
Proof.
  intros H0 H1 H2. simpl.
  destruct (Rle_dec x2 0), (Rlt_dec x1 0), (Rlt_dec x0 0); try reflexivity; lra.
Qed.

(** For numbers other than [nan], the tests of [read_data] are the
    violation of the bounds. *)
Lemma tests_in_bounds (x0 x1 x2 : fl) :
  is_nan x0 = false -> is_nan x1 = false -> is_nan x2 = false ->
  fleb x2 (Fin 0) || fltb x1 (Fin 0) || fltb x0 (Fin 0)
  = negb (in_bounds x0 x1 x2).
Proof.
  intros H0 H1 H2. unfold in_bounds.
  destruct x0 as [a0| | |], x1 as [a1| | |], x2 as [a2| | |];
    try discriminate; simpl;
    repeat match goal with
           | |- context [Rle_dec ?a ?b] => destruct (Rle_dec a b)
           | |- context [Rlt_dec ?a ?b] => destruct (Rlt_dec a b)
           end;
    simpl; try reflexivity; lra.
Qed.

(** C3, amended: a line is passed over, and the import goes on with the
    next line, when it contains the text [nan], when one of its
    comma-separated fields is not numeric, or when it begins with three
    numbers other than [nan] that violate [independent_value >= 0 /\
    dependent_value >= 0 /\ uncertainty > 0].  In general a line without
    the text [nan] that begins with three numbers is passed over exactly
    when [line[2] <= 0 or line[1] < 0 or line[0] < 0], and is appended to
    the records otherwise; a field that is [nan] passes these tests.  A
    line without [nan] whose fields are all numeric but fewer than three
    raises an [IndexError], which ends the import. *)
Theorem read_lines_discards (l : string) (rest : list string) (out : list row) :
  (re_match_nan l = true \/
   floats py_float (split comma l) = None \/
   (exists x0 x1 x2 tl,
       floats py_float (split comma l) = Some (x0 :: x1 :: x2 :: tl) /\
       is_nan x0 = false /\ is_nan x1 = false /\ is_nan x2 = false /\
       in_bounds x0 x1 x2 = false) ->
   read_line py_float l = Ok None /\
   read_lines py_float (l :: rest) out = read_lines py_float rest out) /\
  (re_match_nan l = false ->
   forall x0 x1 x2 tl,
     floats py_float (split comma l) = Some (x0 :: x1 :: x2 :: tl) ->
     (fleb x2 (Fin 0) || fltb x1 (Fin 0) || fltb x0 (Fin 0) = true ->
      read_line py_float l = Ok None /\
      read_lines py_float (l :: rest) out = read_lines py_float rest out) /\
     (fleb x2 (Fin 0) || fltb x1 (Fin 0) || fltb x0 (Fin 0) = false ->
      read_line py_float l = Ok (Some (x0 :: x1 :: x2 :: tl)) /\
      read_lines py_float (l :: rest) out
      = read_lines py_float rest (out ++ [x0 :: x1 :: x2 :: tl]))) /\
  (re_match_nan l = false ->
   forall fields,
     floats py_float (split comma l) = Some fields ->
     (List.length fields < 3)%nat ->
     read_line py_float l = Error IndexError /\
     read_lines py_float (l :: rest) out = Error IndexError).
Proof.
  split; [| split].
  - intros H.
    assert (E : read_line py_float l = Ok None).
    { destruct H as [H | [H | (x0 & x1 & x2 & tl & Hf & H0 & H1 & H2 & Hb)]].
      - now apply read_line_nan.
      - now apply read_line_not_numeric.
      - destruct (re_match_nan l) eqn:Hn; [now apply read_line_nan |].
        rewrite (read_line_three _ Hn Hf).
        now rewrite (tests_in_bounds _ _ _ H0 H1 H2), Hb. }
    split; [exact E |]. cbn [read_lines]. now rewrite E.
  - intros Hn x0 x1 x2 tl Hf. split; intros Ht.
    + assert (E : read_line py_float l = Ok None)
        by now rewrite (read_line_three _ Hn Hf), Ht.
      split; [exact E |]. cbn [read_lines]. now rewrite E.
    + assert (E : read_line py_float l = Ok (Some (x0 :: x1 :: x2 :: tl)))
        by now rewrite (read_line_three _ Hn Hf), Ht.
      split; [exact E |]. cbn [read_lines]. now rewrite E.
  - intros Hn fields Hf Hlen.
    pose proof (read_line_short _ Hn Hf Hlen) as E.
    split; [exact E |]. cbn [read_lines]. now rewrite E.
Qed.

End Ingest.

(** A line of words and a line with a negative value are passed over; a
    line with an uncertainty [NaN] is retained; a line of two numbers ends
    the import. *)
Lemma read_lines_discards_witness :
  read_lines float_literal [line "not,numeric,data"; line "10,5,1"] []
  = read_lines float_literal [line "10,5,1"] [] /\
  read_lines float_literal [line "5,-1,1"; line "10,5,1"] []
  = read_lines float_literal [line "10,5,1"] [] /\
  read_lines float_literal [line "1,1,NaN"; line "10,5,1"] []
  = read_lines float_literal [line "10,5,1"] ([] ++ [[num 1; num 1; NaN]]) /\
  read_lines float_literal [line "1,2"] [] = Error IndexError.
Proof.
  split; [| split; [| split]].
  - apply (proj1 (read_lines_discards float_literal (line "not,numeric,data")
                    [line "10,5,1"] [])).
    right. left. reflexivity.
  - apply (proj1 (read_lines_discards float_literal (line "5,-1,1")
                    [line "10,5,1"] [])).
    right. right.
    exists (Fin (5 / 10 ^ 0)), (Fin (- (1 / 10 ^ 0))), (Fin (1 / 10 ^ 0)), [].
    repeat (split; [reflexivity |]).
    unfold in_bounds.
    replace (fleb (Fin 0) (Fin (- (1 / 10 ^ 0)))) with false
      by (symmetry; apply fleb_Fin_false; lra).
    now rewrite andb_false_r.
  - apply (proj1 (proj2 (read_lines_discards float_literal (line "1,1,NaN")
                           [line "10,5,1"] []))
             eq_refl (num 1) (num 1) NaN [] eq_refl).
    unfold num.
    replace (fltb (Fin (1 / 10 ^ 0)) (Fin 0)) with false
      by (symmetry; apply fltb_Fin_false; lra).
    reflexivity.
  - apply (proj2 (proj2 (read_lines_discards float_literal (line "1,2") [] []))
             eq_refl [Fin (1 / 10 ^ 0); Fin (2 / 10 ^ 0)] eq_refl).
    simpl. lia.
Defined.

(** *** Sorting *)

Lemma key_le_trans (key : row -> fl) (a b c : row) :
  key_le key a b -> key_le key b c -> key_le key a c.
Proof. unfold key_le. apply fleb_trans. Qed.

Lemma insert_by_perm (key : row -> fl) (x : row) (l : list row) :
  Permutation (insert_by key x l) (x :: l).
Proof.
  induction l as [|y l IH]; simpl; [reflexivity |].
  destruct (fltb (key x) (key y)); [reflexivity |].
  rewrite IH. apply perm_swap.
Qed.

Lemma insertion_sort_perm (key : row -> fl) (l : list row) :
  Permutation (insertion_sort key l) l.
Proof.
  unfold insertion_sort.
  assert (G : forall acc, Permutation
                (fold_left (fun sorted x => insert_by key x sorted) l acc)
                (acc ++ l)).
  { induction l as [|x l IH]; intros acc; simpl.
    - now rewrite app_nil_r.
    - rewrite IH, insert_by_perm. apply Permutation_middle. }
  apply (G []).
Qed.

Lemma insert_by_HdRel (key : row -> fl) (a x : row) (l : list row) :
  key_le key a x -> HdRel (key_le key) a l ->
  HdRel (key_le key) a (insert_by key x l).
Proof.
  intros Hax H. destruct l as [|y l]; simpl; [now constructor |].
  destruct (fltb (key x) (key y)); constructor; [assumption |].
  now inversion H.
Qed.

Lemma insert_by_sorted (key : row -> fl) (x : row) (l : list row) :
  is_nan (key x) = false -> Forall (fun r => is_nan (key r) = false) l ->
  Sorted (key_le key) l -> Sorted (key_le key) (insert_by key x l).
Proof.
  intros Hx Hl Hs. induction Hs as [|y l Hs IH Hhd]; simpl.
  - repeat constructor.
  - inversion Hl as [|? ? Hy Hl']; subst.
    destruct (fltb (key x) (key y)) eqn:E.
    + constructor; [now constructor |]. constructor. now apply fltb_fleb.
    + constructor; [now apply IH |].
      apply insert_by_HdRel; [| assumption]. now apply fltb_false_fleb.
Qed.

Lemma insertion_sort_sorted (key : row -> fl) (l : list row) :
  Forall (fun r => is_nan (key r) = false) l ->
  Sorted (key_le key) (insertion_sort key l).
Proof.
  unfold insertion_sort.
  assert (G : forall acc,
             Forall (fun r => is_nan (key r) = false) acc ->
             Forall (fun r => is_nan (key r) = false) l ->
             Sorted (key_le key) acc ->
             Sorted (key_le key)
               (fold_left (fun sorted x => insert_by key x sorted) l acc)).
  { induction l as [|x l IH]; intros acc Ha Hl Hs; simpl; [assumption |].
    inversion Hl as [|? ? Hx Hl']; subst. apply IH; [| assumption |].
    - eapply Permutation_Forall; [symmetry; apply insert_by_perm |].
      now constructor.
    - now apply insert_by_sorted. }
  intros H. apply G; [constructor | assumption | constructor].
Qed.

Lemma insertion_sort_contract : sort_contract insertion_sort.
Proof.
  intros key l. split; [apply insertion_sort_perm | apply insertion_sort_sorted].
Qed.

(** A filter keeps a sorted dataset sorted. *)
Lemma filter_sorted (key : row -> fl) (p : row -> bool) (l : list row) :
  Sorted (key_le key) l -> Sorted (key_le key) (filter p l).
Proof.
  intros H. apply StronglySorted_Sorted.
  apply Sorted_StronglySorted in H; [| intros a b c; apply key_le_trans].
  induction H as [|x l Hs IH Hall]; simpl; [constructor |].
  destruct (p x); [| assumption]. constructor; [assumption |].
  apply Forall_forall. intros y Hy. apply filter_In in Hy as [Hy _].
  rewrite Forall_forall in Hall. now apply Hall.
Qed.

(** In a sorted list of two or more rows every row is in order with a
    neighbour. *)
Lemma sorted_neighbour (key : row -> fl) (l : list row) (x : row) :
  Sorted (key_le key) l -> In x l -> (2 <= List.length l)%nat ->
  exists y, key_le key x y \/ key_le key y x.
Proof.
  intros Hs. induction Hs as [|a l Hs IH Hhd]; intros Hin Hlen; [easy |].
  destruct l as [|b l]; [simpl in Hlen; lia |].
  inversion Hhd as [|? ? Hab]; subst.
  destruct Hin as [<- | Hin]; [exists b; now left |].
  destruct l as [|c l].
  - destruct Hin as [<- | []]. exists a. now right.
  - apply IH; [assumption | simpl; lia].
Qed.

Lemma nan_key_unsorted (key : row -> fl) (l : list row) (x : row) :
  In x l -> key x = NaN -> (2 <= List.length l)%nat ->
  ~ Sorted (key_le key) l.
Proof.
  intros Hin Hk Hlen Hs.
  destruct (sorted_neighbour x Hs Hin Hlen) as [y [H | H]];
    unfold key_le in H; rewrite Hk in H.
  - now rewrite fleb_nan_l in H.
  - now rewrite fleb_nan_r in H.
Qed.

(** *** [read_data] *)

Lemma read_data_Ok (py_float : string -> option fl)
  (open_file : string -> text_file)
  (list_sort : (row -> fl) -> list row -> list row)
  (file_names : list string) (data : ndarray) (message : string) :
  read_data py_float open_file list_sort file_names = Ok (data, message) ->
  exists rows n,
    read_files py_float open_file file_names [] (List.length file_names)
    = Ok (rows, n) /\
    data = list_sort (item 0) rows.
Proof.
  unfold read_data.
  destruct (read_files py_float open_file file_names [] (List.length file_names))
    as [[rows n]|] eqn:E; simpl; [| discriminate].
  intros [= <- _]. now exists rows, n.
Qed.

(** When no retained independent value is [nan], the output of
    [read_data] is sorted ascending by independent value. *)
Theorem read_data_sorted (py_float : string -> option fl)
  (open_file : string -> text_file)
  (list_sort : (row -> fl) -> list row -> list row)
  (file_names : list string) (data : ndarray) (message : string) :
  sort_contract list_sort ->
  read_data py_float open_file list_sort file_names = Ok (data, message) ->
  Forall (fun r => is_nan (item 0 r) = false) data ->
  sorted_by_energy data.
Proof.
  intros Hc H Hnan. apply read_data_Ok in H as (rows & n & _ & ->).
  destruct (Hc (item 0) rows) as [Hperm Hsorted].
  apply Hsorted. eapply Permutation_Forall; [exact Hperm | exact Hnan].
Qed.

Lemma read_line_valid (py_float : string -> option fl) (l : string)
  (x0 x1 x2 : R) (tl : row) :
  re_match_nan l = false ->
  floats py_float (split comma l) = Some (Fin x0 :: Fin x1 :: Fin x2 :: tl) ->
  0 <= x0 -> 0 <= x1 -> 0 < x2 ->
  read_line py_float l = Ok (Some (Fin x0 :: Fin x1 :: Fin x2 :: tl)).
Proof.
  intros Hn Hf H0 H1 H2. rewrite (@read_line_three py_float l _ _ _ _ Hn Hf).
  now rewrite within_bounds.
Qed.

Lemma read_line_2_1_1 :
  read_line float_literal (line "2,1,1") = Ok (Some [num 2; num 1; num 1]).
Proof. apply read_line_valid; try reflexivity; lra. Qed.

Lemma read_line_1_1_1 :
  read_line float_literal (line "1,1,1") = Ok (Some [num 1; num 1; num 1]).
Proof. apply read_line_valid; try reflexivity; lra. Qed.

Lemma read_line_10_5_1 :
  read_line float_literal (line "10,5,1") = Ok (Some [num 10; num 5; num 1]).
Proof. apply read_line_valid; try reflexivity; lra. Qed.

Lemma read_line_NaN_1_1 :
  read_line float_literal (line "NaN,1,1") = Ok (Some [NaN; num 1; num 1]).
Proof.
  rewrite (@read_line_three float_literal _ NaN (num 1) (num 1) []);
    try reflexivity.
  unfold num. replace (fleb (Fin (1 / 10 ^ 0)) (Fin 0)) with false
    by (symmetry; apply fleb_Fin_false; lra).
  replace (fltb (Fin (1 / 10 ^ 0)) (Fin 0)) with false
    by (symmetry; apply fltb_Fin_false; lra).
  reflexivity.
Qed.

Lemma read_lines_keep (py_float : string -> option fl) (l : string)
  (rest : list string) (out : list row) (r : row) :
  read_line py_float l = Ok (Some r) ->
  read_lines py_float (l :: rest) out = read_lines py_float rest (out ++ [r]).
Proof. intros H. cbn [read_lines]. now rewrite H. Qed.

Lemma read_lines_skip (py_float : string -> option fl) (l : string)
  (rest : list string) (out : list row) :
  read_line py_float l = Ok None ->
  read_lines py_float (l :: rest) out = read_lines py_float rest out.
Proof. intros H. cbn [read_lines]. now rewrite H. Qed.

Lemma read_lines_abort (py_float : string -> option fl) (l : string)
  (rest : list string) (out : list row) (e : exn) :
  read_line py_float l = Error e ->
  read_lines py_float (l :: rest) out = Error e.
Proof. intros H. cbn [read_lines]. now rewrite H. Qed.

Lemma read_files_single (py_float : string -> option fl) (lines : list string) :
  read_files py_float (single_file lines) ["data.csv"%string] [] 1
  = (rows <- read_lines py_float lines [] ;; Ok (rows, 1%nat)).
Proof. reflexivity. Qed.

Lemma read_lines_nan : read_lines float_literal nan_lines [] = Ok nan_rows.
Proof.
  unfold nan_lines.
  rewrite (@read_lines_keep _ _ _ _ _ read_line_2_1_1).
  rewrite (@read_lines_keep _ _ _ _ _ read_line_NaN_1_1).
  rewrite (@read_lines_keep _ _ _ _ _ read_line_1_1_1).
  reflexivity.
Qed.

Lemma read_data_single (py_float : string -> option fl)
  (list_sort : (row -> fl) -> list row -> list row)
  (lines : list string) (rows : list row) :
  read_lines py_float lines [] = Ok rows ->
  read_data py_float (single_file lines) list_sort ["data.csv"%string]
  = Ok (list_sort (item 0) rows, one_of_one).
Proof.
  intros H. unfold read_data. cbn [List.length]. rewrite read_files_single, H.
  reflexivity.
Qed.

(** C9 at its failing input, a file with the lines [2,1,1], [NaN,1,1]
    and [1,1,1]: the test for [nan] is in lower case only, [float] reads
    [NaN] as a number that no comparison rejects, so all three rows are
    retained; whatever rearrangement the sort returns, the dataset that
    [read_data] hands on is not sorted ascending by independent value. *)
Theorem read_data_nan_unsorted
  (list_sort : (row -> fl) -> list row -> list row) :
  (forall key l, Permutation (list_sort key l) l) ->
  read_data float_literal (single_file nan_lines) list_sort ["data.csv"%string]
  = Ok (list_sort (item 0) nan_rows, one_of_one) /\
  ~ sorted_by_energy (list_sort (item 0) nan_rows).
Proof.
  intros Hperm. split; [apply read_data_single, read_lines_nan |].
  apply nan_key_unsorted with (x := [NaN; num 1; num 1]).
  - apply (Permutation_in _ (Permutation_sym (Hperm (item 0) nan_rows))).
    simpl. auto.
  - reflexivity.
  - rewrite (Permutation_length (Hperm (item 0) nan_rows)). simpl. lia.
Qed.

Lemma read_data_nan_unsorted_witness :
  read_data float_literal (single_file nan_lines) insertion_sort
    ["data.csv"%string]
  = Ok (insertion_sort (item 0) nan_rows, one_of_one) /\
  ~ sorted_by_energy (insertion_sort (item 0) nan_rows).
Proof.
  apply (read_data_nan_unsorted insertion_sort). apply insertion_sort_perm.
Defined.

Lemma read_line_1_2 : read_line float_literal (line "1,2") = Error IndexError.
Proof. apply (@read_line_short float_literal _ [num 1; num 2]); try reflexivity. simpl; lia. Qed.

(** C3, as stated, fails: the line [1,2] is not three comma-separated
    numeric fields, and it is not discarded: the [IndexError] of [line[2]]
    leaves [read_data], and the record read before it is lost with it. *)
Lemma short_line_aborts_import :
  read_data float_literal (single_file [line "10,5,1"; line "1,2"])
    insertion_sort ["data.csv"%string]
  = Error IndexError.
Proof.
  unfold read_data. cbn [List.length]. rewrite read_files_single.
  rewrite (@read_lines_keep _ _ _ _ _ read_line_10_5_1).
  rewrite (@read_lines_abort _ _ _ _ _ read_line_1_2). reflexivity.
Qed.

Lemma read_line_words : read_line float_literal (line "not,numeric,data") = Ok None.
Proof. now apply read_line_not_numeric. Qed.

Lemma read_line_5_m1_1 : read_line float_literal (line "5,-1,1") = Ok None.
Proof.
  rewrite (@read_line_three float_literal _ (num 5) (Fin (- (1 / 10 ^ 0))) (num 1) []);
    try reflexivity.
  unfold num. rewrite out_of_bounds; [reflexivity | lra].
Qed.

Lemma read_line_5_5_0 : read_line float_literal (line "5,5,0") = Ok None.
Proof.
  rewrite (@read_line_three float_literal _ (num 5) (num 5) (num 0) []);
    try reflexivity.
  unfold num. rewrite out_of_bounds; [reflexivity | lra].
Qed.

Lemma insertion_sort_single (key : row -> fl) (r : row) : insertion_sort key [r] = [r].
Proof. reflexivity. Qed.

(** The example of the specification's section 8. *)
Lemma read_data_spec_example :
  read_data float_literal
    (single_file [line "10,5,1"; line "not,numeric,data"; line "5,-1,1";
                  line "5,5,0"])
    insertion_sort ["data.csv"%string]
  = Ok ([[num 10; num 5; num 1]], one_of_one).
Proof.
  rewrite (@read_data_single _ _ _ [[num 10; num 5; num 1]]); [reflexivity |].
  rewrite (@read_lines_keep _ _ _ _ _ read_line_10_5_1).
  rewrite (@read_lines_skip _ _ _ _ read_line_words).
  rewrite (@read_lines_skip _ _ _ _ read_line_5_m1_1).
  rewrite (@read_lines_skip _ _ _ _ read_line_5_5_0).
  reflexivity.
Qed.

End Ingestion.

(* ================================================================== *)
(** ** Goodness of fit and derived quantities *)

Module Uncertainty.

Import ZBoson Notions Examples FloatFacts CrossSection Residual GlobalPass FitLoop.
Local Open Scope R_scope.

Lemma not_negative_fltb (x : fl) : not_negative x <-> fltb x (Fin 0) = false.
Proof.
  destruct x as [r| | |]; simpl; try easy.
  destruct (Rlt_dec r 0); split; intros; try easy; lra.
Qed.

Lemma fsq_not_negative (x : fl) : not_negative (fsq x).
Proof. destruct x as [r| | |]; simpl; try easy. apply sq_nonneg. Qed.

Lemma fdiv_not_negative (x y : fl) :
  not_negative x -> not_negative y -> not_negative (fdiv x y).
Proof.
  destruct x as [a| | |], y as [b| | |]; simpl; try easy.
  - intros Ha Hb. destruct (Req_dec_T b 0) as [->|Hb0].
    + unfold Rsgn. destruct (total_order_T a 0) as [[H|H]|H]; simpl; try easy; lra.
    + simpl. apply Rmult_le_pos; [assumption |].
      left. apply Rinv_0_lt_compat. lra.
  - intros _ Hb. destruct (Rlt_dec b 0); [lra | exact I].
Qed.

Lemma fadd_not_negative (x y : fl) :
  not_negative x -> not_negative y -> not_negative (fadd x y).
Proof.
  destruct x as [a| | |], y as [b| | |]; simpl; try easy. lra.
Qed.

Lemma fsum_not_negative (l : list fl) :
  Forall not_negative l -> not_negative (fsum l).
Proof.
  unfold fsum.
  assert (G : forall acc, not_negative acc -> Forall not_negative l ->
                          not_negative (fold_left fadd l acc)).
  { induction l as [|x l IH]; intros acc Ha Hl; simpl; [assumption |].
    inversion Hl; subst. apply IH; [| assumption]. now apply fadd_not_negative. }
  apply G. simpl. lra.
Qed.

Lemma chi_square_not_negative (data : ndarray) (popt : list fl) (geu : bool)
  (func : dist_fn) (chi : fl) :
  chi_square data popt geu func = Ok chi -> not_negative chi.
Proof.
  unfold chi_square.
  destruct (col 1 data) as [observed|]; simpl; [| discriminate].
  destruct (col 2 data) as [error|]; simpl; [| discriminate].
  match goal with |- context [bind ?m _] => destruct m as [predicted|] end;
    simpl; [| discriminate].
  intros [= <-]. apply fsum_not_negative. apply Forall_forall.
  intros t Ht. apply in_map_iff in Ht as ([[o p] e] & <- & _).
  apply fdiv_not_negative; apply fsq_not_negative.
Qed.

(** Division of a non-negative float by an integer. *)
Lemma fdiv_int_sign (chi : fl) (z : Z) :
  not_negative chi ->
  ((0 < z)%Z -> not_negative (fdiv chi (fl_of_Z z))) /\
  (z = 0%Z -> fdiv chi (fl_of_Z z) = PInf \/ fdiv chi (fl_of_Z z) = NaN) /\
  ((z < 0)%Z -> fltb (Fin 0) (fdiv chi (fl_of_Z z)) = false).
Proof.
  intros Hc. unfold fl_of_Z. split; [| split].
  - intros Hz. apply fdiv_not_negative; [assumption |]. simpl.
    apply IZR_le. lia.
  - intros ->. destruct chi as [c| | |]; simpl in *; auto.
    + destruct (Req_dec_T 0 0); [| congruence].
      unfold Rsgn. destruct (total_order_T c 0) as [[H|H]|H]; simpl; auto; lra.
    + destruct (Rlt_dec 0 0); [lra | auto].
    + contradiction.
  - intros Hz. apply IZR_lt in Hz. destruct chi as [c| | |]; simpl in *; auto.
    + destruct (Req_dec_T (IZR z) 0); [lra |]. simpl.
      destruct (Rlt_dec 0 (c / IZR z)) as [H|H]; [| reflexivity].
      exfalso.
      assert (0 <= c / - IZR z).
      { apply Rmult_le_pos; [assumption |].
        left. apply Rinv_0_lt_compat. lra. }
      replace (c / IZR z) with (- (c / - IZR z)) in H by (field; lra). lra.
    + destruct (Rlt_dec (IZR z) 0); [reflexivity | lra].
    + contradiction.
Qed.

(** C6, amended: the reduced chi-square is the sum of
    [((observed - predicted) / uncertainty)^2] divided by [N - P], with no
    check of [N] against [P] and no error of its own: whenever the sum is
    computed, the quotient is returned.  With [N > P] it is never negative;
    with [N = P] it is [+inf] or [nan]; with [N < P] it is never positive. *)
Theorem reduced_chi_square_sign (data : ndarray) (popt : list fl) (geu : bool)
  (chi : fl) :
  chi_square data popt geu cross_section = Ok chi ->
  exists v,
    reduced_chi_square data popt geu = Ok v /\
    v = fdiv chi (fl_of_Z (Z.of_nat (List.length data)
                           - Z.of_nat (List.length popt))%Z) /\
    ((List.length popt < List.length data)%nat -> fltb v (Fin 0) = false) /\
    (List.length data = List.length popt -> v = PInf \/ v = NaN) /\
    ((List.length data < List.length popt)%nat -> fltb (Fin 0) v = false).
Proof.
  intros H. unfold reduced_chi_square. rewrite H. cbn [bind].
  eexists. split; [reflexivity |]. split; [reflexivity |].
  pose proof (chi_square_not_negative _ _ _ _ H) as Hc.
  destruct (@fdiv_int_sign chi (Z.of_nat (List.length data)
                                - Z.of_nat (List.length popt))%Z Hc)
    as (H1 & H2 & H3).
  split; [| split].
  - intros Hlt. apply not_negative_fltb. apply H1. lia.
  - intros Heq. apply H2. lia.
  - intros Hlt. apply H3. lia.
Qed.

Lemma prediction_first_guess_zero :
  cross_section (Fin 0) M_Z0 GAMMA_Z0 None None = Fin 0.
Proof.
  unfold M_Z0, GAMMA_Z0. apply cross_section_zero_energy; try reflexivity; lra.
Qed.

Lemma chi_square_two_records :
  chi_square [off_line; off_line] first_guess false cross_section = Ok (Fin 2).
Proof.
  unfold chi_square, off_line, first_guess.
  cbn -[cross_section fdiv fsub fsq fsum].
  rewrite prediction_first_guess_zero. unfold fsum. cbn [fold_left].
  autorewrite with fl_fin. rewrite !fdiv_Fin by lra. autorewrite with fl_fin.
  do 2 f_equal. field.
Qed.

Lemma chi_square_one_record :
  chi_square [off_line] first_guess false cross_section = Ok (Fin 1).
Proof.
  unfold chi_square, off_line, first_guess.
  cbn -[cross_section fdiv fsub fsq fsum].
  rewrite prediction_first_guess_zero. unfold fsum. cbn [fold_left].
  autorewrite with fl_fin. rewrite !fdiv_Fin by lra. autorewrite with fl_fin.
  do 2 f_equal. field.
Qed.

(** C6, as stated, fails: with two records and two parameters ([N = P])
    the reduced chi-square is returned as [+inf], and with one record and
    two parameters ([N < P]) it is returned as [-1]; neither is an error, and
    the second is negative. *)
Lemma reduced_chi_square_no_error :
  reduced_chi_square [off_line; off_line] first_guess false = Ok PInf /\
  reduced_chi_square [off_line] first_guess false = Ok (Fin (-1)).
Proof.
  unfold reduced_chi_square.
  rewrite chi_square_two_records, chi_square_one_record. cbn [bind].
  split; f_equal.
  - apply fdiv_pos_zero. lra.
  - unfold fl_of_Z. rewrite fdiv_Fin.
    + f_equal. simpl. lra.
    + simpl. lra.
Qed.

Lemma reduced_chi_square_sign_witness :
  exists v,
    reduced_chi_square [off_line; off_line] first_guess false = Ok v /\
    v = fdiv (Fin 2) (fl_of_Z (Z.of_nat 2 - Z.of_nat 2)) /\
    ((2 < 2)%nat -> fltb v (Fin 0) = false) /\
    (2%nat = 2%nat -> v = PInf \/ v = NaN) /\
    ((2 < 2)%nat -> fltb (Fin 0) v = false).
Proof.
  exact (@reduced_chi_square_sign [off_line; off_line] first_guess false (Fin 2)
           chi_square_two_records).
Defined.

Local Open Scope string_scope.

Lemma append_assoc (s1 s2 s3 : string) : (s1 ++ s2) ++ s3 = s1 ++ (s2 ++ s3).
Proof. induction s1 as [|c s1 IH]; simpl; [reflexivity |]. now rewrite IH. Qed.

Lemma Ok_inj {A : Type} (a b : A) : Ok a = Ok b -> a = b.
Proof. now intros [= ->]. Qed.

Lemma append_assoc8 (m a b c d e f g r : string) :
  (m ++ a ++ b ++ c ++ d ++ e ++ f ++ g) ++ r
  = m ++ a ++ b ++ c ++ d ++ e ++ f ++ g ++ r.
Proof. now rewrite !append_assoc. Qed.

(** C8: whenever [collect_results] returns its message, the message shows
    the lifetime [H_BAR / width] and, as its uncertainty,
    [sigma_width * (lifetime / width)], where [width] is the second fitted
    parameter and [sigma_width] is the power [0.5] (the square root) of the
    second diagonal entry of the covariance matrix. *)
Theorem collect_results_lifetime (format_float : string -> fl -> string)
  (popt : list fl) (pcov : matrix) (chi_squared_red : fl) (geu : bool)
  (message : string) :
  collect_results format_float popt pcov chi_squared_red geu = Ok message ->
  exists width variance before after,
    index popt 1 = Ok width /\
    at2 pcov 1 1 = Ok variance /\
    let sigma_width := fpow_half variance in
    let lifetime := fdiv H_BAR width in
    let sigma_lifetime := fmul sigma_width (fdiv lifetime width) in
    message
    = before ++ "Lifetime of Z Boson = " ++ format_float ".2e" lifetime ++
      " +/- " ++ format_float ".1e" sigma_lifetime ++ " s" ++ nl ++ nl ++ after.
Proof.
  unfold collect_results.
  destruct (index popt 0) as [m_z|]; cbn [bind]; [| discriminate].
  destruct (at2 pcov 0 0) as [v00|]; cbn [bind]; [| discriminate].
  destruct (index popt 1) as [gamma_z|]; cbn [bind]; [| discriminate].
  destruct (at2 pcov 1 1) as [v11|]; cbn [bind]; [| discriminate].
  match goal with |- context [bind ?m _] => destruct m as [msg|] end;
    cbn [bind]; [| discriminate].
  intros H. apply Ok_inj in H. subst message. exists gamma_z, v11, msg,
    ("Reduced chi squared = " ++ format_float ".3f" chi_squared_red).
  split; [reflexivity |]. split; [reflexivity |]. lazy zeta.
  apply append_assoc8.
Qed.

Lemma collect_results_lifetime_witness :
  exists width variance before after,
    index first_guess 1 = Ok width /\
    at2 (ones Standard) 1 1 = Ok variance /\
    let sigma_width := fpow_half variance in
    let lifetime := fdiv H_BAR width in
    let sigma_lifetime := fmul sigma_width (fdiv lifetime width) in
    "Mass of Z Boson = {:.3e} +/- {:.1e} GeV/c^2" ++ nl ++ nl ++
    "Width of Z Boson = {:.3e} +/- {:.1e} GeV" ++ nl ++ nl ++
    "Lifetime of Z Boson = {:.2e} +/- {:.1e} s" ++ nl ++ nl ++
    "Reduced chi squared = {:.3f}"
    = before ++ "Lifetime of Z Boson = " ++ show_format ".2e" lifetime ++
      " +/- " ++ show_format ".1e" sigma_lifetime ++ " s" ++ nl ++ nl ++ after.
Proof.
  exact (@collect_results_lifetime show_format first_guess (ones Standard)
           (Fin 1) false _ eq_refl).
Defined.

End Uncertainty.

(* ================================================================== *)
(** ** The pipeline *)

Module Pipeline.

Import ZBoson Notions Examples FloatFacts CrossSection Residual GlobalPass FitLoop Ingestion.
Local Open Scope R_scope.

Section Analysis.

Variable py_float : string -> option fl.
Variable curve_fit :
  fit_fn -> list fl -> list fl -> list fl -> list fl -> result (list fl * matrix).
Variable format_float : string -> fl -> string.
Variable plot_fit : ndarray -> list fl -> bool -> result unit.
Variable plot_parameter_surface : ndarray -> list fl -> matrix -> result unit.

Lemma fit_to_data_empty (dd geu : bool) (guess : fl) (func : dist_fn) :
  fit_to_data curve_fit [] dd geu guess func = Error IndexError.
Proof. reflexivity. Qed.

Lemma run_analysis_empty (dd geu : bool) (custom_gamma : py_arg) :
  run_analysis py_float curve_fit format_float plot_fit plot_parameter_surface
    [] dd geu custom_gamma
  = Error (empty_dataset_error py_float custom_gamma).
Proof.
  unfold run_analysis, empty_dataset_error, float_of_arg.
  destruct custom_gamma as [|x|s]; try reflexivity.
  destruct (py_float s); reflexivity.
Qed.

End Analysis.

(** *** Order of the records through the filters *)
Lemma initial_filter_sorted (data new_data : ndarray) :
  initial_filter data = Ok new_data ->
  sorted_by_energy data -> sorted_by_energy new_data.
Proof.
  intros H Hs. apply initial_filter_filter in H. cbv zeta in H. subst new_data. 
  now apply filter_sorted.
Qed.

Lemma filter_data_sorted (data : ndarray) (func : dist_fn) (popt : list fl)
  (geu : bool) (new_data : ndarray) (outliers : list row) :
  filter_data data func popt geu = Ok (new_data, outliers) ->
  sorted_by_energy data ->
  sorted_by_energy new_data /\ sorted_by_energy outliers.
Proof.
  intros H Hs. apply filter_data_filter in H as [-> ->].
  split; now apply filter_sorted.
Qed.

Lemma while_outliers_invariant (P : ndarray -> Prop)
  (body : ndarray -> result (list fl * matrix * ndarray * list row)) :
  (forall d popt pcov d' out, body d = Ok (popt, pcov, d', out) -> P d -> P d') ->
  forall fuel data d popt pcov,
    P data -> while_outliers fuel body data = Some (Ok (d, popt, pcov)) -> P d.
Proof.
  intros Hstep. induction fuel as [|fuel IH]; intros data d popt pcov HP; simpl;
    [discriminate |].
  destruct (body data) as [[[[popt' pcov'] d'] out]|e] eqn:E; [| discriminate].
  pose proof (Hstep _ _ _ _ _ E HP) as HP'.
  destruct out as [|o out].
  - now intros [= <- <- <-].
  - now apply IH.
Qed.

(** The dataset that [fit_to_data] returns is sorted by independent value
    when its input is: the global pass and every residual pass return the
    records they keep in the order of their input. *)
Theorem pipeline_keeps_order
  (curve_fit : fit_fn -> list fl -> list fl -> list fl -> list fl ->
               result (list fl * matrix))
  (data : ndarray) (different_decay gamma_ee_unknown : bool) (guess : fl)
  (func : dist_fn) (d : ndarray) (popt : list fl) (pcov : matrix) (g : bool) :
  sorted_by_energy data ->
  fit_to_data curve_fit data different_decay gamma_ee_unknown guess func
  = Ok (d, popt, pcov, g) ->
  sorted_by_energy d.
Proof.
  intros Hs. unfold fit_to_data.
  destruct (initial_filter data) as [d1|] eqn:E1; simpl; [| discriminate].
  apply initial_filter_sorted in E1; [| assumption].
  assert (G : forall body,
             (forall d0 po pc d0' out,
                 body d0 = Ok (po, pc, d0', out) ->
                 exists flag, filter_data d0 func po flag = Ok (d0', out)) ->
             forall d' popt' pcov',
               run_while body d1 = Ok (d', popt', pcov') ->
               sorted_by_energy d').
  { intros body Hbody d' popt' pcov'. unfold run_while.
    destruct (while_outliers _ body d1) as [r|] eqn:E; [| discriminate].
    intros ->.
    eapply (@while_outliers_invariant sorted_by_energy); [| exact E1 | exact E].
    intros d0 po pc d0' out Hb Hd0. apply Hbody in Hb as [flag Hb].
    now apply filter_data_sorted in Hb as [Hb _]. }
  destruct different_decay; [| destruct gamma_ee_unknown];
  match goal with |- context [run_while ?b d1] =>
    destruct (run_while b d1) as [[[d' popt'] pcov']|] eqn:E; simpl;
      [| discriminate];
    intros [= <- <- <- <-]; apply (G b) in E; [exact E |];
    intros d0 po pc d0' out Hb;
    apply (@pass_Ok curve_fit _ _ func _ d0 d0' po pc out) in Hb as [_ Hb];
    eauto
  end.
Qed.

Lemma sorted_two_points : sorted_by_energy two_points.
Proof.
  unfold sorted_by_energy, two_points, on_line, off_line.
  repeat constructor. unfold key_le, item. simpl nth.
  apply fleb_Fin. lra.
Qed.

Lemma pipeline_keeps_order_witness : sorted_by_energy two_points.
Proof.
  exact (@pipeline_keeps_order guess_solver two_points false false
           (Fin (1 / 100)) cross_section two_points
           (start Standard (Fin (1 / 100))) (ones Standard) false
           sorted_two_points (fit_to_data_two_points Standard (1 / 100))).
Defined.

Lemma read_lines_two_rows :
  read_lines float_literal [line "2,1,1"; line "1,1,1"] []
  = Ok [[num 2; num 1; num 1]; [num 1; num 1; num 1]].
Proof.
  rewrite (@read_lines_keep _ _ _ _ _ read_line_2_1_1).
  rewrite (@read_lines_keep _ _ _ _ _ read_line_1_1_1).
  reflexivity.
Qed.

Lemma read_data_sorted_witness :
  sorted_by_energy
    (insertion_sort (item 0) [[num 2; num 1; num 1]; [num 1; num 1; num 1]]).
Proof.
  apply (@read_data_sorted float_literal
           (single_file [line "2,1,1"; line "1,1,1"]) insertion_sort
           ["data.csv"%string] _ one_of_one insertion_sort_contract).
  - apply read_data_single. exact read_lines_two_rows.
  - eapply Permutation_Forall.
    + apply Permutation_sym, insertion_sort_perm.
    + repeat constructor.
Defined.

Lemma fit_loop_ends_witness :
  while_outliers 5
    (pass guess_solver
       (Fit2 (fun x a b => cross_section x a b (Some GAMMA_EE) (Some GAMMA_EE)))
       (start Standard (Fin (1 / 100))) cross_section false)
    two_points
  = Some
      (run_while
         (pass guess_solver
            (Fit2 (fun x a b => cross_section x a b (Some GAMMA_EE) (Some GAMMA_EE)))
            (start Standard (Fin (1 / 100))) cross_section false)
         two_points).
Proof.
  apply fit_loop_ends. simpl. apply le_n_S, le_n_S, le_S, le_S, le_n.
Defined.

End Pipeline.

(* ================================================================== *)
(** ** One model in every function *)

Module Model.

Import ZBoson Notions Examples FloatFacts CrossSection Residual GlobalPass FitLoop Uncertainty.
Local Open Scope R_scope.

(** *** Signs *)

Lemma Rsgn_opp (r : R) : Rsgn (- r) = CompOpp (Rsgn r).
Proof.
  unfold Rsgn.
  destruct (total_order_T r 0) as [[H|H]|H],
           (total_order_T (- r) 0) as [[H'|H']|H']; try reflexivity; lra.
Qed.

Lemma fmul_fopp_l (x y : fl) : fmul (fopp x) y = fopp (fmul x y).
Proof.
  destruct x as [a| | |], y as [b| | |]; simpl; try reflexivity;
    rewrite ?Rsgn_opp; try (f_equal; ring);
    match goal with |- context [Rsgn ?r] => destruct (Rsgn r); reflexivity end.
Qed.

Lemma fmul_fopp_r (x y : fl) : fmul x (fopp y) = fopp (fmul x y).
Proof.
  destruct x as [a| | |], y as [b| | |]; simpl; try reflexivity;
    rewrite ?Rsgn_opp; try (f_equal; ring);
    match goal with |- context [Rsgn ?r] => destruct (Rsgn r); reflexivity end.
Qed.

Lemma fopp_fopp (x : fl) : fopp (fopp x) = x.
Proof. destruct x; simpl; try reflexivity. f_equal. ring. Qed.

Lemma fsq_fopp (x : fl) : fsq (fopp x) = fsq x.
Proof. unfold fsq. now rewrite fmul_fopp_l, fmul_fopp_r, fopp_fopp. Qed.

(** [cross_section] reads the energy, the mass and the width through their
    squares only. *)
Lemma cross_section_even_energy (E M G : fl) (o1 o2 : option fl) :
  cross_section (fopp E) M G o1 o2 = cross_section E M G o1 o2.
Proof. unfold cross_section. now rewrite fsq_fopp. Qed.

Lemma cross_section_even_mass (E M G : fl) (o1 o2 : option fl) :
  cross_section E (fopp M) G o1 o2 = cross_section E M G o1 o2.
Proof. unfold cross_section. now rewrite fmul_fopp_r, !fsq_fopp. Qed.

Lemma cross_section_even_width (E M G : fl) (o1 o2 : option fl) :
  cross_section E M (fopp G) o1 o2 = cross_section E M G o1 o2.
Proof. unfold cross_section. now rewrite fmul_fopp_l, fsq_fopp. Qed.

Lemma prediction_even_width (m g : fl) (rest : list fl) (geu : bool) (x : fl) :
  prediction cross_section (m :: fopp g :: rest) geu x
  = prediction cross_section (m :: g :: rest) geu x.
Proof.
  destruct rest as [|p2 [|p3 rest]]; destruct geu; simpl;
    apply cross_section_even_width.
Qed.

(** *** The shape of the arguments *)

Lemma has_columns_ncols (k : nat) (data : ndarray) :
  has_columns k data = true <-> exists n, ncols data = Some n /\ (k <= n)%nat.
Proof.
  unfold has_columns. destruct (ncols data) as [n|].
  - rewrite Nat.leb_le. split; [intros H; exists n; auto |].
    intros (n' & [= <-] & H). exact H.
  - split; [discriminate |]. intros (n & H & _). discriminate.
Qed.

Lemma col_undefined (k j : nat) (data : ndarray) :
  has_columns k data = false -> (k <= S j)%nat -> col j data = Error IndexError.
Proof.
  unfold has_columns, col. destruct (ncols data) as [n|]; [| reflexivity].
  intros H Hk. apply Nat.leb_gt in H.
  destruct (Nat.ltb j n) eqn:E; [| reflexivity].
  apply Nat.ltb_lt in E. lia.
Qed.

(** *** Chi squared, record by record *)

Lemma combine_map3 {A : Type} (f g h : A -> fl) (l : list A) :
  combine (combine (map f l) (map g l)) (map h l)
  = map (fun a => (f a, g a, h a)) l.
Proof. induction l; simpl; congruence. Qed.

Lemma chi_square_Ok (data : ndarray) (popt : list fl) (geu : bool)
  (func : dist_fn) (chi : fl) :
  chi_square data popt geu func = Ok chi ->
  chi = fsum (map (chi_term func popt geu) data).
Proof.
  unfold chi_square, chi_term, residual, prediction, index.
  destruct (col 1 data) as [ys|] eqn:Hy; simpl; [| discriminate].
  destruct (col 2 data) as [es|] eqn:He; simpl; [| discriminate].
  apply col_Ok in Hy, He. subst ys es.
  destruct popt as [|p0 [|p1 [|p2 [|p3 rest]]]]; destruct geu; simpl;
    destruct (col 0 data) as [xs|] eqn:Hx; simpl; try discriminate;
    apply col_Ok in Hx; subst xs;
    intros [= <-]; rewrite map_map, combine_map3, map_map; reflexivity.
Qed.

Lemma chi_square_defined (data : ndarray) (popt : list fl) (geu : bool)
  (func : dist_fn) :
  has_columns 3 data = true -> (2 <= List.length popt)%nat ->
  chi_square data popt geu func
  = Ok (fsum (map (chi_term func popt geu) data)).
Proof.
  intros Hc Hp. apply has_columns_ncols in Hc as (n & Hn & Hle).
  destruct (chi_square data popt geu func) as [chi|e] eqn:E.
  - f_equal. now apply chi_square_Ok.
  - exfalso. revert E. unfold chi_square, index.
    rewrite (col_defined (k:=1) data Hn), (col_defined (k:=2) data Hn),
      (col_defined (k:=0) data Hn) by lia.
    destruct popt as [|p0 [|p1 [|p2 [|p3 rest]]]]; simpl in *; try lia;
      try discriminate.
    destruct geu; discriminate.
Qed.

Lemma chi_square_undefined (data : ndarray) (popt : list fl) (geu : bool)
  (func : dist_fn) :
  has_columns 3 data = false \/ (List.length popt < 2)%nat ->
  chi_square data popt geu func = Error IndexError.
Proof.
  intros H. unfold chi_square.
  destruct (col 1 data) as [ys|e] eqn:Hy; simpl;
    [| now apply col_Error in Hy; subst e].
  destruct (col 2 data) as [es|e] eqn:He; simpl;
    [| now apply col_Error in He; subst e].
  destruct H as [H|H].
  - rewrite (@col_undefined 3 2 data H) in He by lia. discriminate.
  - destruct (col 0 data) as [xs|e] eqn:Hx.
    + destruct popt as [|p0 [|p1 rest]]; simpl in H; try lia; reflexivity.
    + apply col_Error in Hx. subst e.
      destruct popt as [|p0 [|p1 rest]]; simpl in H; try lia; reflexivity.
Qed.

Lemma deviation_array_undefined (data : ndarray) (popt : list fl) (geu : bool)
  (func : dist_fn) :
  has_columns 2 data = false \/ (List.length popt < 2)%nat ->
  deviation_array data func popt geu = Error IndexError.
Proof.
  intros H. unfold deviation_array.
  destruct H as [H|H].
  - rewrite (@col_undefined 2 1 data H) by lia.
    destruct (Nat.eqb (List.length popt) 2); [reflexivity |].
    destruct (Nat.eqb (List.length popt) 3 && geu); reflexivity.
  - destruct (col 1 data) as [ys|e] eqn:Hy;
      [| apply col_Error in Hy; subst e;
         destruct popt as [|p0 [|p1 rest]]; simpl in H; try lia; reflexivity].
    destruct (col 0 data) as [xs|e] eqn:Hx;
      [| apply col_Error in Hx; subst e];
      destruct popt as [|p0 [|p1 rest]]; simpl in H; try lia; reflexivity.
Qed.

Lemma residual_even_width (m g : fl) (rest : list fl) (geu : bool) (r : row) :
  residual cross_section (m :: fopp g :: rest) geu r
  = residual cross_section (m :: g :: rest) geu r.
Proof. unfold residual. now rewrite prediction_even_width. Qed.

(** [cross_section] is even in the energy, in the mass and in the
    width, whatever the other arguments; so the data cannot tell a width
    from its negative: [chi_square] and [filter_data] return the same for
    the parameters [m, -g, ...] as for [m, g, ...]. *)
Theorem width_sign_unobservable (data : ndarray) (m g : fl) (rest : list fl)
  (geu : bool) :
  (forall E M G o1 o2,
      cross_section (fopp E) M G o1 o2 = cross_section E M G o1 o2 /\
      cross_section E (fopp M) G o1 o2 = cross_section E M G o1 o2 /\
      cross_section E M (fopp G) o1 o2 = cross_section E M G o1 o2) /\
  chi_square data (m :: fopp g :: rest) geu cross_section
  = chi_square data (m :: g :: rest) geu cross_section /\
  filter_data data cross_section (m :: fopp g :: rest) geu
  = filter_data data cross_section (m :: g :: rest) geu.
Proof.
  split; [| split].
  - intros E M G o1 o2.
    now rewrite cross_section_even_energy, cross_section_even_mass,
      cross_section_even_width.
  - destruct (has_columns 3 data) eqn:Hc.
    + rewrite !chi_square_defined by (assumption || simpl; lia).
      f_equal. f_equal. apply map_ext. intros r.
      unfold chi_term. now rewrite residual_even_width.
    + rewrite !chi_square_undefined by (left; assumption). reflexivity.
  - unfold filter_data. destruct (has_columns 2 data) eqn:Hc.
    + apply has_columns_ncols in Hc as (n & Hn & Hle).
      rewrite !(@deviation_array_defined data cross_section _ geu n Hn Hle)
        by (simpl; lia).
      cbn [bind]. f_equal. f_equal. f_equal. apply map_ext. intros r.
      unfold abs_residual. now rewrite residual_even_width.
    + rewrite !deviation_array_undefined by (left; assumption). reflexivity.
Qed.

(** *** No negative prediction with equal vertex widths *)

Lemma fmul_not_negative (x y : fl) :
  not_negative x -> not_negative y -> not_negative (fmul x y).
Proof.
  destruct x as [a| | |], y as [b| | |]; simpl; try easy.
  - intros Ha Hb. now apply Rmult_le_pos.
  - intros Ha _. unfold Rsgn.
    destruct (total_order_T a 0) as [[H|H]|H]; simpl; try easy; lra.
  - intros _ Hb. unfold Rsgn.
    destruct (total_order_T b 0) as [[H|H]|H]; simpl; try easy; lra.
Qed.

Lemma fmul_twice_not_negative (x c : fl) :
  not_negative x -> not_negative (fmul (fmul x c) c).
Proof.
  destruct x as [a| | |], c as [b| | |]; simpl; try easy.
  - intros Ha. pose proof (sq_nonneg b). 
    replace (a * b * b) with (a * (b * b)) by ring. now apply Rmult_le_pos.
  - intros Ha. unfold Rsgn.
    destruct (total_order_T a 0) as [[H|H]|H]; simpl; try easy; lra.
  - intros Ha. unfold Rsgn.
    destruct (total_order_T a 0) as [[H|H]|H]; simpl; try easy; lra.
  - intros _. unfold Rsgn.
    destruct (total_order_T b 0) as [[H|H]|H]; simpl; try easy;
      unfold Rsgn; destruct (total_order_T b 0) as [[H'|H']|H']; simpl;
      try easy; lra.
Qed.

Lemma prefactor_not_negative (M : fl) :
  not_negative (fdiv (fmul (Fin 12) np_pi) (fsq M)).
Proof.
  apply fdiv_not_negative; [| apply fsq_not_negative].
  unfold np_pi. simpl. pose proof PI_RGT_0. lra.
Qed.

Lemma shape_not_negative (E M G : fl) :
  not_negative
    (fdiv (fsq E) (fadd (fsq (fsub (fsq E) (fsq M))) (fsq (fmul G M)))).
Proof.
  apply fdiv_not_negative; [apply fsq_not_negative |].
  apply fadd_not_negative; apply fsq_not_negative.
Qed.

(** With both vertex widths at their default, or both equal to one
    value, [cross_section] never returns a negative number: for every
    energy, mass, width and vertex width, finite or not, its value is a
    number [>= 0], [+inf] or [nan]. *)
Theorem cross_section_not_negative (E M G c : fl) :
  not_negative (cross_section E M G None None) /\
  not_negative (cross_section E M G (Some c) (Some c)).
Proof.
  assert (K : not_negative CONVERSION_FACTOR) by (unfold CONVERSION_FACTOR; simpl; lra).
  split; unfold cross_section, default;
    (apply fmul_not_negative; [| apply shape_not_negative]);
    (apply fmul_not_negative; [| exact K]);
    apply fmul_twice_not_negative, prefactor_not_negative.
Qed.

(** *** The fitted model and the evaluated model *)

Lemma fit_length_of
  (curve_fit : fit_fn -> list fl -> list fl -> list fl -> list fl ->
               result (list fl * matrix))
  (f : fit_fn) (data : ndarray) (p0 popt : list fl) (pcov : matrix) :
  (forall f xs ys p0 sigma popt pcov,
      curve_fit f xs ys p0 sigma = Ok (popt, pcov) ->
      List.length popt = List.length p0) ->
  fit curve_fit f data p0 = Ok (popt, pcov) ->
  List.length popt = List.length p0.
Proof.
  intros Hlen. unfold fit.
  destruct (col 0 data); simpl; [| discriminate].
  destruct (col 1 data); simpl; [| discriminate].
  destruct (col 2 data); simpl; [| discriminate].
  apply Hlen.
Qed.

(** With a solver that returns as many parameters as its starting
    point has, whenever [fit_to_data] returns, the returned data has its
    three columns and the result is what the solver answered on them for
    the function of the selected branch and its starting point; that
    function, at the returned parameters, is the prediction that the
    residual pass of the loop evaluates.  When [different_decay] and [gamma_ee_unknown] are not
    both set it is also the prediction that the returned flag selects in
    [chi_square], [plot_fit] and [collect_results].  When both are set, the
    fit binds the second vertex width to [GAMMA_EE] while the returned flag
    selects the prediction with both vertex widths bound to the third
    parameter. *)
Theorem fitted_model_evaluated
  (curve_fit : fit_fn -> list fl -> list fl -> list fl -> list fl ->
               result (list fl * matrix))
  (data : ndarray) (different_decay gamma_ee_unknown : bool) (guess : fl)
  (d : ndarray) (popt : list fl) (pcov : matrix) (g : bool) :
  (forall f xs ys p0 sigma popt pcov,
      curve_fit f xs ys p0 sigma = Ok (popt, pcov) ->
      List.length popt = List.length p0) ->
  fit_to_data curve_fit data different_decay gamma_ee_unknown guess
    cross_section = Ok (d, popt, pcov, g) ->
  col 0 d = Ok (map (item 0) d) /\
  col 1 d = Ok (map (item 1) d) /\
  col 2 d = Ok (map (item 2) d) /\
  curve_fit
    (fitted_function cross_section different_decay gamma_ee_unknown)
    (map (item 0) d) (map (item 1) d)
    (starting_point different_decay gamma_ee_unknown guess)
    (map (item 2) d)
  = Ok (popt, pcov) /\
  (forall x,
      eval_fit (fitted_function cross_section different_decay gamma_ee_unknown)
        popt x
      = Some (prediction cross_section popt
                (if different_decay then false else gamma_ee_unknown) x)) /\
  (different_decay && gamma_ee_unknown = false ->
   forall x,
     eval_fit (fitted_function cross_section different_decay gamma_ee_unknown)
       popt x
     = Some (prediction cross_section popt g x)) /\
  (different_decay = true -> gamma_ee_unknown = true ->
   exists p0 p1 p2,
     popt = [p0; p1; p2] /\
     forall x,
       eval_fit (fitted_function cross_section different_decay gamma_ee_unknown)
         popt x
       = Some (cross_section x p0 p1 (Some p2) (Some GAMMA_EE)) /\
       prediction cross_section popt g x
       = cross_section x p0 p1 (Some p2) (Some p2)).
Proof.
  intros Hlen H. apply fit_to_data_Ok in H as (-> & H & _).
  pose proof (fit_length_of _ _ _ _ Hlen H) as L.
  destruct (fit_solver _ _ _ _ H) as (C0 & C1 & C2 & S). clear H.
  split; [exact C0 |]. split; [exact C1 |]. split; [exact C2 |].
  unfold fitted_function, starting_point.
  destruct different_decay; [| destruct gamma_ee_unknown];
    cbn [orb andb] in S, L |- *;
    cbn [List.length] in L;
    (destruct popt as [|p0 [|p1 [|p2 [|p3 rest]]]]; try discriminate L);
    (split; [exact S |]).
  - split; [reflexivity |]. split.
    + intros E x. destruct gamma_ee_unknown; [discriminate | reflexivity].
    + intros _ ->. exists p0, p1, p2. split; [reflexivity |].
      intros x. split; reflexivity.
  - split; [reflexivity |]. split; [reflexivity |]. discriminate.
  - split; [reflexivity |]. split; [reflexivity |]. discriminate.
Qed.

Lemma fitted_model_evaluated_witness :
  guess_solver (fitted_function cross_section false false)
    (map (item 0) two_points) (map (item 1) two_points)
    (starting_point false false (Fin 0)) (map (item 2) two_points)
  = Ok (start Standard (Fin 0), ones Standard) /\
  forall x,
    eval_fit (fitted_function cross_section false false)
      (start Standard (Fin 0)) x
    = Some (prediction cross_section (start Standard (Fin 0)) false x).
Proof.
  destruct (@fitted_model_evaluated guess_solver two_points false false (Fin 0)
              two_points (start Standard (Fin 0)) (ones Standard) false)
    as (_ & _ & _ & H & K & _).
  - intros f xs ys p0 sigma popt pcov. apply guess_solver_length.
  - exact (fit_to_data_two_points Standard 0).
  - split; [exact H | exact K].
Defined.

(** *** The three copies of the model branch *)

Lemma ncols_rows (data : ndarray) (n : nat) (r : row) :
  ncols data = Some n -> In r data -> List.length r = n.
Proof.
  unfold ncols. destruct data as [|r0 rs]; [discriminate |].
  destruct (forallb (fun r' => Nat.eqb (List.length r') (List.length r0)) rs)
    eqn:F; [| discriminate].
  intros [= <-] [<-|Hr]; [reflexivity |].
  rewrite forallb_forall in F. apply F in Hr. now apply Nat.eqb_eq in Hr.
Qed.

Lemma at2_defined (data : ndarray) (n i j : nat) :
  ncols data = Some n -> (i < List.length data)%nat -> (j < n)%nat ->
  at2 data i j = Ok (item j (nth i data [])).
Proof.
  intros Hn Hi Hj. unfold at2, index, item. rewrite Hn.
  assert (L : List.length (nth i data []) = n)
    by (apply (@ncols_rows data n _ Hn), nth_In, Hi).
  unfold ndarray, row in *.
  rewrite (@nth_error_nth' (list fl) data i [] Hi).
  rewrite (@nth_error_nth' fl (nth i data []) j NaN); [reflexivity | lia].
Qed.

Lemma fit_curves_defined (linspace : fl -> fl -> nat -> list fl)
  (data : ndarray) (popt : list fl) (func : dist_fn) (geu : bool) :
  has_columns 3 data = true -> (2 <= List.length popt)%nat ->
  exists mode,
    let energy_space :=
      linspace (item 0 (nth 0 data []))
        (item 0 (nth (List.length data - 1) data [])) 1000%nat in
    Figures.fit_curves linspace data popt func geu
    = Ok (mode, energy_space, map (prediction func popt geu) energy_space,
          map (residual func popt geu) data).
Proof.
  intros Hc Hp. apply has_columns_ncols in Hc as (n & Hn & Hle).
  assert (Hd : (0 < List.length data)%nat)
    by (destruct data; [discriminate Hn | simpl; lia]).
  unfold Figures.fit_curves.
  rewrite (@at2_defined data n _ _ Hn) by lia.
  rewrite (@at2_defined data n _ _ Hn) by lia.
  cbn [bind].
  rewrite (col_defined (k:=1) data Hn), (col_defined (k:=0) data Hn) by lia.
  unfold residual, prediction, index.
  destruct popt as [|p0 [|p1 [|p2 [|p3 rest]]]]; simpl in Hp; try lia;
    destruct geu; cbn [List.length Nat.eqb andb nth_error bind];
    eexists; cbv zeta; rewrite combine_map_same, map_map; reflexivity.
Qed.

(** On a two-dimensional array with at least three columns and
    parameters with at least two entries, the three functions that each
    select the model by the length of [popt] and the flag select the same
    one: the deviations of [filter_data] are the absolute values of the
    residuals that [plot_fit] draws, the curve of [plot_fit] is the
    prediction of these residuals, and [chi_square] is the sum of the
    squares of these residuals over the squares of the uncertainties. *)
Theorem one_model_three_places (linspace : fl -> fl -> nat -> list fl)
  (data : ndarray) (popt : list fl) (func : dist_fn) (geu : bool) :
  has_columns 3 data = true -> (2 <= List.length popt)%nat ->
  exists mode energy_space,
    Figures.fit_curves linspace data popt func geu
    = Ok (mode, energy_space, map (prediction func popt geu) energy_space,
          map (residual func popt geu) data) /\
    deviation_array data func popt geu
    = Ok (map fabs (map (residual func popt geu) data)) /\
    chi_square data popt geu func
    = Ok (fsum (map (fun r => fdiv (fsq (residual func popt geu r))
                                (fsq (item 2 r))) data)).
Proof.
  intros Hc Hp.
  destruct (fit_curves_defined linspace data popt func geu Hc Hp) as (mode & H).
  exists mode. eexists. split; [exact H |]. split.
  - apply has_columns_ncols in Hc as (n & Hn & Hle).
    rewrite (@deviation_array_defined data func popt geu n Hn) by lia.
    now rewrite map_map.
  - now apply chi_square_defined.
Qed.

Lemma one_model_three_places_witness :
  exists mode energy_space,
    Figures.fit_curves (fun a b n => [a; b]) two_points first_guess
      cross_section false
    = Ok (mode, energy_space,
          map (prediction cross_section first_guess false) energy_space,
          map (residual cross_section first_guess false) two_points).
Proof.
  destruct (@one_model_three_places (fun a b n => [a; b]) two_points first_guess
              cross_section false) as (mode & es & H & _).
  - reflexivity.
  - simpl. lia.
  - exists mode, es. exact H.
Defined.

(** *** Arguments of the wrong shape *)

Lemma initial_filter_undefined (data : ndarray) :
  has_columns 2 data = false -> initial_filter data = Error IndexError.
Proof.
  intros H. unfold initial_filter.
  now rewrite (@col_undefined 2 1 data H) by lia.
Qed.

Lemma filter_data_Error (data : ndarray) (func : dist_fn) (popt : list fl)
  (geu : bool) (e : exn) :
  filter_data data func popt geu = Error e -> e = IndexError.
Proof.
  unfold filter_data.
  destruct (has_columns 2 data && Nat.leb 2 (List.length popt)) eqn:C.
  - apply andb_prop in C as [Hc Hp]. apply Nat.leb_le in Hp.
    apply has_columns_ncols in Hc as (n & Hn & Hle).
    rewrite (@deviation_array_defined data func popt geu n Hn Hle Hp).
    discriminate.
  - rewrite deviation_array_undefined.
    + now intros [= <-].
    + apply andb_false_iff in C as [C|C]; [now left | right].
      apply Nat.leb_gt in C. exact C.
Qed.

(** The array functions raise [IndexError] and nothing else, and
    exactly on arguments of the wrong shape.  [chi_square] needs a
    two-dimensional array with at least three columns and at least two
    parameters, [filter_data] at least two columns and two parameters,
    [initial_filter] at least two columns; parameters beyond the third
    are accepted and ignored. *)
Theorem shape_errors (data : ndarray) (popt : list fl) (geu : bool)
  (func : dist_fn) :
  chi_square data popt geu func
  = (if has_columns 3 data && Nat.leb 2 (List.length popt)
     then Ok (fsum (map (chi_term func popt geu) data))
     else Error IndexError) /\
  is_error (filter_data data func popt geu)
  = negb (has_columns 2 data && Nat.leb 2 (List.length popt)) /\
  (forall e, filter_data data func popt geu = Error e -> e = IndexError) /\
  is_error (initial_filter data) = negb (has_columns 2 data) /\
  (forall e, initial_filter data = Error e -> e = IndexError) /\
  (forall p0 p1 p2 rest,
      chi_square data (p0 :: p1 :: p2 :: rest) false func
      = chi_square data [p0; p1; p2] false func /\
      filter_data data func (p0 :: p1 :: p2 :: rest) false
      = filter_data data func [p0; p1; p2] false).
Proof.
  split; [| split; [| split; [| split; [| split]]]].
  - destruct (has_columns 3 data && Nat.leb 2 (List.length popt)) eqn:C.
    + apply andb_prop in C as [Hc Hp]. apply Nat.leb_le in Hp.
      now apply chi_square_defined.
    + apply chi_square_undefined.
      apply andb_false_iff in C as [C|C]; [now left | right].
      apply Nat.leb_gt in C. exact C.
  - unfold filter_data.
    destruct (has_columns 2 data && Nat.leb 2 (List.length popt)) eqn:C.
    + apply andb_prop in C as [Hc Hp]. apply Nat.leb_le in Hp.
      apply has_columns_ncols in Hc as (n & Hn & Hle).
      now rewrite (@deviation_array_defined data func popt geu n Hn Hle Hp).
    + rewrite deviation_array_undefined; [reflexivity |].
      apply andb_false_iff in C as [C|C]; [now left | right].
      apply Nat.leb_gt in C. exact C.
  - apply filter_data_Error.
  - destruct (has_columns 2 data) eqn:C.
    + apply has_columns_ncols in C as (n & Hn & Hle).
      now rewrite (initial_filter_defined data Hn Hle).
    + now rewrite initial_filter_undefined.
  - intros e. destruct (has_columns 2 data) eqn:C.
    + apply has_columns_ncols in C as (n & Hn & Hle).
      rewrite (initial_filter_defined data Hn Hle). discriminate.
    + rewrite initial_filter_undefined by assumption. now intros [= <-].
  - intros p0 p1 p2 rest. split.
    + destruct rest; reflexivity.
    + destruct rest; reflexivity.
Qed.

End Model.

(* ================================================================== *)
(** ** The spread of a single record *)

Module Spread.

Import ZBoson Notions Examples FloatFacts Residual GlobalPass FitLoop.
Local Open Scope R_scope.

(** *** A single record *)

Lemma average_single_inf (y : fl) :
  is_finite y = false -> is_nan y = false -> average [y] = y.
Proof.
  intros H1 H2. unfold average, fsum, fl_of_nat. cbn [fold_left List.length INR].
  destruct y; try discriminate; simpl; destruct (Rlt_dec 1 0); try lra; reflexivity.
Qed.

(** The mean of one value is the value, and its spread is zero or, for a
    value that is not finite, [nan]: the value is not within five times the
    spread of the mean. *)
Lemma single_value_dropped (y : fl) :
  fltb (fabs (fsub (average [y]) y)) (fmul (Fin 5) (std [y])) = false.
Proof.
  destruct y as [a| | |].
  - change [Fin a] with (map Fin (repeat a 1)).
    rewrite average_Fin by discriminate. rewrite flat_std by discriminate.
    rewrite Rmean_repeat by discriminate. autorewrite with fl_fin.
    apply fltb_Fin_false. rewrite Rminus_diag, Rabs_R0. lra.
  - rewrite average_single_inf by reflexivity. reflexivity.
  - rewrite average_single_inf by reflexivity. reflexivity.
  - reflexivity.
Qed.

(** A dataset of a single record (with at least two fields, of any
    values) cannot be fitted: the global pass drops the record, and
    [fit_to_data] raises [IndexError] on the empty array before the solver
    is called, whatever the solver and the variant. *)
Theorem single_record_not_fitted
  (curve_fit : fit_fn -> list fl -> list fl -> list fl -> list fl ->
               result (list fl * matrix))
  (r : row) (different_decay gamma_ee_unknown : bool) (guess : fl)
  (func : dist_fn) :
  (2 <= List.length r)%nat ->
  initial_filter [r] = Ok [] /\
  fit_to_data curve_fit [r] different_decay gamma_ee_unknown guess func
  = Error IndexError.
Proof.
  intros Hr.
  assert (I : initial_filter [r] = Ok []).
  { rewrite (@initial_filter_defined [r] (List.length r)); [| reflexivity | exact Hr].
    cbn [map filter]. now rewrite single_value_dropped. }
  split; [exact I |].
  unfold fit_to_data. rewrite I. cbn [bind].
  destruct different_decay; [| destruct gamma_ee_unknown]; reflexivity.
Qed.

Lemma single_record_not_fitted_witness :
  initial_filter [off_line] = Ok [] /\
  fit_to_data guess_solver [off_line] false false (Fin 0) cross_section
  = Error IndexError.
Proof.
  apply (@single_record_not_fitted guess_solver off_line false false (Fin 0)
           cross_section).
  simpl. lia.
Defined.

End Spread.

(* ================================================================== *)
(** ** What ingestion returns *)

Module Merge.

Import ZBoson Notions Examples FloatFacts Ingestion.
Local Open Scope R_scope.

Section Reading.

Variable py_float : string -> option fl.
Variable open_file : string -> text_file.

Lemma read_line_retained (l : string) (r : row) :
  read_line py_float l = Ok (Some r) -> retained r.
Proof.
  unfold read_line, retained, index, item.
  destruct (re_match_nan l); [discriminate |].
  destruct (floats py_float (split comma l)) as [fields|]; [| discriminate].
  destruct fields as [|x0 [|x1 [|x2 tl]]]; simpl; try discriminate.
  destruct (fleb x2 (Fin 0)) eqn:E2; [discriminate |].
  destruct (fltb x1 (Fin 0)) eqn:E1; [discriminate |].
  destruct (fltb x0 (Fin 0)) eqn:E0; [discriminate |].
  intros [= <-]. simpl. repeat split; auto. lia.
Qed.

Lemma read_line_Error (l : string) (e : exn) :
  read_line py_float l = Error e -> e = IndexError.
Proof.
  unfold read_line, index.
  destruct (re_match_nan l); [discriminate |].
  destruct (floats py_float (split comma l)) as [fields|]; [| discriminate].
  destruct fields as [|x0 [|x1 [|x2 tl]]]; simpl; try (now intros [= <-]).
  destruct (fleb x2 (Fin 0)); [discriminate |].
  destruct (fltb x1 (Fin 0)); [discriminate |].
  destruct (fltb x0 (Fin 0)); discriminate.
Qed.

(** The lines of a file add their records behind those read before. *)
Lemma read_lines_behind (lines : list string) (out : list row) :
  read_lines py_float lines out
  = (rows <- read_lines py_float lines [] ;; Ok (out ++ rows)).
Proof.
  revert out. induction lines as [|l lines IH]; intros out.
  - simpl. now rewrite app_nil_r.
  - cbn [read_lines]. destruct (read_line py_float l) as [[r|]|e]; cbn [bind].
    + rewrite (IH (out ++ [r])), (IH ([] ++ [r])).
      destruct (read_lines py_float lines []) as [rows|e]; cbn [bind];
        [| reflexivity].
      now rewrite <- app_assoc.
    + apply IH.
    + reflexivity.
Qed.

Lemma read_lines_retained (lines : list string) (rows : list row) :
  read_lines py_float lines [] = Ok rows -> Forall retained rows.
Proof.
  revert rows. induction lines as [|l lines IH]; intros rows.
  - intros [= <-]. constructor.
  - cbn [read_lines].
    destruct (read_line py_float l) as [[r|]|e] eqn:E; cbn [bind].
    + rewrite read_lines_behind.
      destruct (read_lines py_float lines []) as [rows'|]; cbn [bind];
        [| discriminate].
      intros [= <-]. constructor; [now apply read_line_retained in E |].
      exact (IH rows' eq_refl).
    + apply IH.
    + discriminate.
Qed.

(** The files of a list add their records behind those read before, and
    take the files that are not found off the counter. *)
Lemma read_files_behind (file_names : list string) (out : list row) (k : nat) :
  read_files py_float open_file file_names out k
  = ('(rows, _) <- read_files py_float open_file file_names [] O ;;
     Ok (out ++ rows, (k - missing open_file file_names)%nat)).
Proof.
  revert out k. induction file_names as [|name names IH]; intros out k.
  - simpl. now rewrite app_nil_r, Nat.sub_0_r.
  - cbn [read_files]. unfold missing, not_found. cbn [filter].
    destruct (open_file name) as [|e|lines [e|]].
    + rewrite (IH out (k - 1)%nat), (IH [] (0 - 1)%nat).
      destruct (read_files py_float open_file names [] O) as [[rows' j]|e];
        cbn [bind]; [| reflexivity].
      cbn [List.length]. f_equal. f_equal.
      unfold missing, not_found. lia.
    + reflexivity.
    + rewrite (read_lines_behind lines out), (read_lines_behind lines []).
      destruct (read_lines py_float lines []) as [rows|e']; reflexivity.
    + rewrite (read_lines_behind lines out), (read_lines_behind lines []).
      destruct (read_lines py_float lines []) as [rows|e]; cbn [bind];
        [| reflexivity].
      rewrite (IH (out ++ rows)), (IH ([] ++ rows)).
      destruct (read_files py_float open_file names [] O) as [[rows' j]|e];
        cbn [bind]; [| reflexivity].
      now rewrite <- app_assoc.
Qed.

Lemma read_files_app (names1 names2 : list string) (out : list row) (k : nat) :
  read_files py_float open_file (names1 ++ names2) out k
  = ('(out1, k1) <- read_files py_float open_file names1 out k ;;
     read_files py_float open_file names2 out1 k1).
Proof.
  revert out k. induction names1 as [|name names IH]; intros out k.
  - reflexivity.
  - cbn [app read_files]. destruct (open_file name) as [|e|lines [e|]].
    + apply IH.
    + reflexivity.
    + destruct (read_lines py_float lines out) as [out'|e']; reflexivity.
    + destruct (read_lines py_float lines out) as [out'|e]; cbn [bind];
        [apply IH | reflexivity].
Qed.

Lemma read_files_retained (file_names : list string) (rows : list row)
  (j : nat) :
  read_files py_float open_file file_names [] O = Ok (rows, j) ->
  Forall retained rows.
Proof.
  revert rows j. induction file_names as [|name names IH]; intros rows j.
  - intros [= <- _]. constructor.
  - cbn [read_files]. destruct (open_file name) as [|e|lines [e|]].
    + apply IH.
    + discriminate.
    + destruct (read_lines py_float lines []); discriminate.
    + destruct (read_lines py_float lines []) as [rows1|] eqn:E1; cbn [bind];
        [| discriminate].
      rewrite read_files_behind.
      destruct (read_files py_float open_file names [] O) as [[rows2 j2]|] eqn:E2;
        cbn [bind]; [| discriminate].
      intros [= <- _]. apply Forall_app. split.
      * now apply read_lines_retained in E1.
      * exact (IH rows2 j2 eq_refl).
Qed.

(** An exception that leaves the loop over the lines of a file is the
    [IndexError] of a line of fewer than three numbers. *)
Lemma read_lines_Error_line (lines : list string) (out : list row) (e : exn) :
  read_lines py_float lines out = Error e ->
  e = IndexError /\
  exists line, In line lines /\ read_line py_float line = Error IndexError.
Proof.
  revert out. induction lines as [|l lines IH]; intros out; [discriminate |].
  cbn [read_lines].
  destruct (read_line py_float l) as [[r|]|e'] eqn:E; cbn [bind].
  - intros H. apply IH in H as (-> & line & Hin & Hl).
    split; [reflexivity |]. exists line. split; [now right | exact Hl].
  - intros H. apply IH in H as (-> & line & Hin & Hl).
    split; [reflexivity |]. exists line. split; [now right | exact Hl].
  - intros [= <-]. pose proof (read_line_Error _ E) as ->.
    split; [reflexivity |]. exists l. split; [now left | exact E].
Qed.

(** An exception that leaves the loop over the files comes from one of
    them: from a line of fewer than three numbers, from [open], or from the
    iteration over the file. *)
Lemma read_files_Error (file_names : list string) (out : list row) (k : nat)
  (e : exn) :
  read_files py_float open_file file_names out k = Error e ->
  exists name,
    In name file_names /\
    ((e = IndexError /\
      exists lines fault line,
        open_file name = Lines lines fault /\ In line lines /\
        read_line py_float line = Error IndexError) \/
     open_file name = Refused e \/
     exists lines, open_file name = Lines lines (Some e)).
Proof.
  revert out k. induction file_names as [|name names IH]; intros out k;
    [discriminate |].
  cbn [read_files]. destruct (open_file name) as [|e'|lines fault] eqn:O.
  - intros H. apply IH in H as (name' & Hin & H).
    exists name'. split; [now right | exact H].
  - intros [= <-]. exists name. split; [now left |]. right. now left.
  - destruct (read_lines py_float lines out) as [out'|e'] eqn:E; cbn [bind].
    + destruct fault as [e'|].
      * intros [= <-]. exists name. split; [now left |]. right. right.
        rewrite O. now exists lines.
      * intros H. apply IH in H as (name' & Hin & H).
        exists name'. split; [now right | exact H].
    + intros [= <-]. apply read_lines_Error_line in E as (-> & line & Hin & Hl).
      exists name. split; [now left |]. left. split; [reflexivity |].
      rewrite O. now exists lines, fault, line.
Qed.

(** When the loop over the files returns, every file was opened or not
    found. *)
Lemma missing_opened (file_names : list string) (out rows : list row)
  (k j : nat) :
  read_files py_float open_file file_names out k = Ok (rows, j) ->
  (missing open_file file_names + opened open_file file_names
   = List.length file_names)%nat.
Proof.
  unfold missing, opened, not_found, opens.
  revert out k. induction file_names as [|name names IH]; intros out k;
    [reflexivity |].
  cbn [read_files filter List.length].
  destruct (open_file name) as [|e|lines [e|]].
  - intros H. apply IH in H. simpl. lia.
  - discriminate.
  - destruct (read_lines py_float lines out); discriminate.
  - destruct (read_lines py_float lines out) as [out'|]; cbn [bind];
      [| discriminate].
    intros H. apply IH in H. simpl. lia.
Qed.




Variable list_sort : (row -> fl) -> list row -> list row.

(** [read_data], in one equation. *)
Lemma read_data_rows (file_names : list string) :
  read_data py_float open_file list_sort file_names
  = ('(rows, _) <- read_files py_float open_file file_names [] O ;;
     Ok (list_sort (item 0) rows,
         (str_of_nat (opened open_file file_names) ++ "/" ++
          str_of_nat (List.length file_names) ++
          " files have been imported successfully.")%string)).
Proof.
  unfold read_data. rewrite read_files_behind.
  destruct (read_files py_float open_file file_names [] O) as [[rows j]|e] eqn:E;
    cbn [bind]; [| reflexivity].
  pose proof (missing_opened _ _ _ E) as H.
  replace (List.length file_names - missing open_file file_names)%nat
    with (opened open_file file_names) by lia.
  reflexivity.
Qed.

Lemma read_data_Error (file_names : list string) (e : exn) :
  read_data py_float open_file list_sort file_names = Error e ->
  exists name,
    In name file_names /\
    ((e = IndexError /\
      exists lines fault line,
        open_file name = Lines lines fault /\ In line lines /\
        read_line py_float line = Error IndexError) \/
     open_file name = Refused e \/
     exists lines, open_file name = Lines lines (Some e)).
Proof.
  unfold read_data.
  destruct (read_files py_float open_file file_names [] (List.length file_names))
    as [[rows j]|e'] eqn:E; cbn [bind]; [discriminate |].
  intros [= <-]. now apply read_files_Error in E.
Qed.

End Reading.

(** The message of [read_data] counts the files that opened: whenever
    [read_data] returns, its message is [k/n files have been imported
    successfully.] with [n] the number of requested files and [k] the
    number of them that could be opened. *)
Theorem read_data_message (py_float : string -> option fl)
  (open_file : string -> text_file)
  (list_sort : (row -> fl) -> list row -> list row)
  (file_names : list string) (data : ndarray) (message : string) :
  read_data py_float open_file list_sort file_names = Ok (data, message) ->
  message
  = (str_of_nat (opened open_file file_names) ++ "/" ++
     str_of_nat (List.length file_names) ++
     " files have been imported successfully.")%string.
Proof.
  rewrite read_data_rows.
  destruct (read_files py_float open_file file_names [] O) as [[rows j]|e];
    cbn [bind]; [| discriminate].
  now intros [= _ <-].
Qed.

(** With a sort that returns a rearrangement of its list, every
    record that [read_data] returns has at least three fields, an
    uncertainty that is not [<= 0], and a cross section and an energy that
    are not [< 0]. *)
Theorem read_data_retained (py_float : string -> option fl)
  (open_file : string -> text_file)
  (list_sort : (row -> fl) -> list row -> list row)
  (file_names : list string) (data : ndarray) (message : string) :
  (forall key l, Permutation (list_sort key l) l) ->
  read_data py_float open_file list_sort file_names = Ok (data, message) ->
  Forall retained data.
Proof.
  intros Hperm. rewrite read_data_rows.
  destruct (read_files py_float open_file file_names [] O) as [[rows j]|e] eqn:E;
    cbn [bind]; [| discriminate].
  intros [= <- _]. apply read_files_retained in E.
  eapply Permutation_Forall; [| exact E].
  apply Permutation_sym, Hperm.
Qed.

(** With a sort that returns a rearrangement of its list, reading two
    lists of files at once returns the records of the first list and those
    of the second, rearranged: when [read_data] returns on each list, it
    returns on their concatenation, with a rearrangement of the two
    datasets put together. *)
Theorem read_data_merges (py_float : string -> option fl)
  (open_file : string -> text_file)
  (list_sort : (row -> fl) -> list row -> list row)
  (names1 names2 : list string) (d1 d2 : ndarray) (m1 m2 : string) :
  (forall key l, Permutation (list_sort key l) l) ->
  read_data py_float open_file list_sort names1 = Ok (d1, m1) ->
  read_data py_float open_file list_sort names2 = Ok (d2, m2) ->
  exists data message,
    read_data py_float open_file list_sort (names1 ++ names2)
    = Ok (data, message) /\
    Permutation data (d1 ++ d2).
Proof.
  intros Hperm. rewrite !read_data_rows, read_files_app.
  destruct (read_files py_float open_file names1 [] O) as [[rows1 j1]|] eqn:E1;
    cbn [bind]; [| discriminate].
  rewrite (read_files_behind py_float open_file names2 rows1 j1).
  destruct (read_files py_float open_file names2 [] O) as [[rows2 j2]|] eqn:E2;
    cbn [bind]; [| discriminate].
  intros [= <- _] [= <- _]. eexists _, _. split; [reflexivity |].
  rewrite (Hperm (item 0) (rows1 ++ rows2)).
  apply Permutation_app; apply Permutation_sym, Hperm.
Qed.



Lemma read_data_nan_lines (list_sort : (row -> fl) -> list row -> list row) :
  read_data float_literal (single_file nan_lines) list_sort ["data.csv"%string]
  = Ok (list_sort (item 0) nan_rows, one_of_one).
Proof. apply read_data_single, read_lines_nan. Qed.

Lemma read_data_message_witness :
  one_of_one
  = (str_of_nat (opened (single_file nan_lines) ["data.csv"%string]) ++ "/" ++
     str_of_nat (List.length ["data.csv"%string]) ++
     " files have been imported successfully.")%string.
Proof.
  exact (@read_data_message float_literal (single_file nan_lines)
           insertion_sort ["data.csv"%string] _ _
           (read_data_nan_lines insertion_sort)).
Defined.

Lemma read_data_retained_witness :
  Forall retained (insertion_sort (item 0) nan_rows).
Proof.
  exact (@read_data_retained float_literal (single_file nan_lines)
           insertion_sort ["data.csv"%string] _ _
           (fun key l => insertion_sort_perm key l)
           (read_data_nan_lines insertion_sort)).
Defined.

Lemma read_data_merges_witness :
  exists data message,
    read_data float_literal (single_file nan_lines) insertion_sort
      (["data.csv"%string] ++ ["data.csv"%string])
    = Ok (data, message) /\
    Permutation data
      (insertion_sort (item 0) nan_rows ++ insertion_sort (item 0) nan_rows).
Proof.
  exact (@read_data_merges float_literal (single_file nan_lines)
           insertion_sort ["data.csv"%string] ["data.csv"%string] _ _ _ _
           (fun key l => insertion_sort_perm key l)
           (read_data_nan_lines insertion_sort)
           (read_data_nan_lines insertion_sort)).
Defined.

End Merge.

(* ================================================================== *)
(** ** A dataset without records *)

Module NoRecords.

Import ZBoson Notions Examples FloatFacts Ingestion Pipeline Merge.

(** C2, amended: when ingestion retains no record, [read_data] signals
    nothing: it returns the empty array with the message that counts the
    files it opened.  The analysis of that array enters [fit_to_data],
    whose global pass raises [IndexError] at [data[:, 1]], whatever the
    solver, the variant, the guess and the model function are; so
    [run_analysis] ends in that [IndexError], or in the [ValueError] of
    [float(custom_gamma)] when the guess is a text that is no number, and
    it does so whatever the solver, the formatting and the plotting
    functions are: none of them is reached. *)
Theorem empty_dataset_not_refused (py_float : string -> option fl)
  (open_file : string -> text_file)
  (list_sort : (row -> fl) -> list row -> list row)
  (file_names : list string) (message : string)
  (different_decay gamma_ee_unknown : bool) (custom_gamma : py_arg) :
  read_data py_float open_file list_sort file_names = Ok ([], message) ->
  message
  = (str_of_nat (opened open_file file_names) ++ "/" ++
     str_of_nat (List.length file_names) ++
     " files have been imported successfully.")%string /\
  initial_filter [] = Error IndexError /\
  forall curve_fit format_float plot_fit plot_parameter_surface,
    (forall guess func,
        fit_to_data curve_fit [] different_decay gamma_ee_unknown guess func
        = Error IndexError) /\
    run_analysis py_float curve_fit format_float plot_fit
      plot_parameter_surface [] different_decay gamma_ee_unknown custom_gamma
    = Error (empty_dataset_error py_float custom_gamma).
Proof.
  rewrite read_data_rows.
  destruct (read_files py_float open_file file_names [] O) as [[rows j]|e];
    cbn [bind]; [| discriminate].
  intros [= _ <-]. split; [reflexivity |]. split; [reflexivity |].
  intros curve_fit format_float plot_fit plot_parameter_surface. split.
  - intros guess func. apply fit_to_data_empty.
  - apply run_analysis_empty.
Qed.

Lemma read_data_no_numbers :
  read_data float_literal (single_file [line "not,numeric,data"])
    insertion_sort ["data.csv"%string]
  = Ok ([], one_of_one).
Proof.
  apply (@read_data_single float_literal insertion_sort _ []).
  now rewrite (@read_lines_skip _ _ _ _ read_line_words).
Qed.

Lemma empty_dataset_not_refused_witness :
  initial_filter [] = Error IndexError /\
  forall curve_fit format_float plot_fit plot_parameter_surface,
    run_analysis float_literal curve_fit format_float plot_fit
      plot_parameter_surface [] false false (PyFloat (Fin (1 / 100)))
    = Error IndexError.
Proof.
  destruct (@empty_dataset_not_refused float_literal
              (single_file [line "not,numeric,data"]) insertion_sort
              ["data.csv"%string] one_of_one false false
              (PyFloat (Fin (1 / 100))) read_data_no_numbers)
    as (_ & H & K).
  split; [exact H |].
  intros curve_fit format_float plot_fit plot_parameter_surface.
  exact (proj2 (K curve_fit format_float plot_fit plot_parameter_surface)).
Defined.

(** C2, as stated, fails: for a file whose only line is not numeric,
    ingestion signals no error to its caller; it returns the empty array
    with the message of a successful import, and the exception of the run
    is raised within [fit_to_data], which the caller has entered. *)
Lemma empty_dataset_returned :
  read_data float_literal (single_file [line "not,numeric,data"])
    insertion_sort ["data.csv"%string]
  = Ok ([], "1/1 files have been imported successfully."%string) /\
  fit_to_data guess_solver [] false false (Fin (1 / 100)) cross_section
  = Error IndexError /\
  run_analysis float_literal guess_solver show_format no_fit_plot
    no_surface_plot [] false false (PyFloat (Fin (1 / 100)))
  = Error IndexError.
Proof. split; [exact read_data_no_numbers | split; reflexivity]. Qed.

End NoRecords.

(* ================================================================== *)
(** ** Saving the figures *)

Module Saving.

Import ZBoson Figures Notions Examples FloatFacts Model.

(** *** File names *)

Local Open Scope string_scope.

Lemma append_length (s1 s2 : string) :
  String.length (s1 ++ s2) = (String.length s1 + String.length s2)%nat.
Proof. induction s1 as [|c s1 IH]; simpl; [reflexivity | now rewrite IH]. Qed.

Lemma append_cancel_l (p s1 s2 : string) : p ++ s1 = p ++ s2 -> s1 = s2.
Proof. induction p as [|c p IH]; simpl; [auto |]. intros [= H]. auto. Qed.

Lemma append_cancel_r (s1 s2 t : string) : s1 ++ t = s2 ++ t -> s1 = s2.
Proof.
  revert s2. induction s1 as [|c s1 IH]; intros [|d s2] H; simpl in H.
  - reflexivity.
  - apply (f_equal String.length) in H. simpl in H.
    rewrite append_length in H. lia.
  - apply (f_equal String.length) in H. simpl in H.
    rewrite append_length in H. lia.
  - injection H as -> H. f_equal. now apply IH.
Qed.

Lemma to_uint_nonnil (n : nat) : Nat.to_uint n <> Decimal.Nil.
Proof.
  pose proof (DecimalNat.Unsigned.to_of (Nat.to_uint n)) as H.
  rewrite DecimalNat.Unsigned.of_to in H. rewrite H. apply DecimalFacts.unorm_nonnil.
Qed.

Lemma str_of_nat_inj (i j : nat) : str_of_nat i = str_of_nat j -> i = j.
Proof.
  unfold str_of_nat. intros H.
  apply (f_equal NilZero.uint_of_string) in H.
  rewrite !NilZero.usu in H by apply to_uint_nonnil.
  injection H as H. now apply DecimalNat.Unsigned.to_uint_inj.
Qed.

Lemma fit_plot_name_inj (mode : string) (i j : nat) :
  fit_plot_name mode i = fit_plot_name mode j -> i = j.
Proof.
  unfold fit_plot_name. intros H.
  apply append_cancel_l, append_cancel_l, append_cancel_l in H.
  now apply append_cancel_r, str_of_nat_inj in H.
Qed.

Lemma surface_name_inj (i j : nat) : surface_name i = surface_name j -> i = j.
Proof.
  unfold surface_name. intros H.
  apply append_cancel_l in H.
  now apply append_cancel_r, str_of_nat_inj in H.
Qed.

Lemma figure_path_inj (folder a b : string) :
  figure_path folder a = figure_path folder b -> a = b.
Proof.
  unfold figure_path. intros H. now apply append_cancel_l, append_cancel_l in H.
Qed.

Lemma figure_path_not_folder (folder name : string) :
  String.eqb (figure_path folder name) folder = false.
Proof.
  apply String.eqb_neq. intros H. apply (f_equal String.length) in H.
  unfold figure_path in H. rewrite !append_length in H. simpl in H. lia.
Qed.

(** *** The directory *)

Lemma path_exists_In (fs : file_system) (p : string) :
  path_exists fs p = true <-> In p fs.
Proof.
  unfold path_exists. rewrite existsb_exists. split.
  - intros (q & Hq & E). apply String.eqb_eq in E. now subst.
  - intros H. exists p. split; [assumption | apply String.eqb_refl].
Qed.

Lemma mkdir_twice (folder : string) (fs : file_system) :
  mkdir folder (mkdir folder fs) = mkdir folder fs.
Proof.
  unfold mkdir at 2. destruct (path_exists fs folder) eqn:E.
  - reflexivity.
  - unfold mkdir. rewrite E. unfold path_exists. cbn [existsb].
    now rewrite String.eqb_refl.
Qed.

(** Making the folder does not make a figure. *)
Lemma mkdir_figure (folder name : string) (fs : file_system) :
  path_exists (mkdir folder fs) (figure_path folder name)
  = path_exists fs (figure_path folder name).
Proof.
  unfold mkdir. destruct (path_exists fs folder); [reflexivity |].
  unfold path_exists. cbn [existsb]. now rewrite figure_path_not_folder.
Qed.

Lemma NoDup_map_injective {A B : Type} (f : A -> B) (l : list A) :
  (forall a b, f a = f b -> a = b) -> NoDup l -> NoDup (map f l).
Proof.
  intros Hf. induction 1 as [|a l Ha Hl IH]; simpl; constructor; [| exact IH].
  intros Hin. apply in_map_iff in Hin as (b & E & Hb).
  apply Hf in E. now subst.
Qed.

Section Loop.

Variable fig_name : nat -> string.
Hypothesis fig_name_inj : forall i j, fig_name i = fig_name j -> i = j.

(** Among more paths than the directory holds, one is free. *)
Lemma free_name (fs : file_system) (i : nat) :
  exists j,
    (i <= j <= i + List.length fs)%nat /\
    path_exists fs (figure_path "SavedFigures" (fig_name j)) = false.
Proof.
  set (path := fun j => figure_path "SavedFigures" (fig_name j)).
  set (candidates := map path (seq i (S (List.length fs)))).
  destruct (forallb (path_exists fs) candidates) eqn:F.
  - exfalso. rewrite forallb_forall in F.
    assert (N : NoDup candidates).
    { apply NoDup_map_injective; [| apply seq_NoDup].
      intros a b H. now apply figure_path_inj, fig_name_inj in H. }
    assert (I : incl candidates fs).
    { intros p Hp. now apply path_exists_In, F. }
    pose proof (NoDup_incl_length N I) as L.
    unfold candidates in L. rewrite length_map, length_seq in L. lia.
  - assert (E : existsb (fun p => negb (path_exists fs p)) candidates = true).
    { clear -F. induction candidates as [|p l IH]; simpl in *; [discriminate |].
      destruct (path_exists fs p); simpl in *; auto. }
    apply existsb_exists in E as (p & Hp & E).
    apply in_map_iff in Hp as (j & <- & Hj). apply in_seq in Hj.
    exists j. split; [lia |]. now apply negb_true_iff in E.
Qed.

(** The loop stops at the first free name from [i] on, when its fuel
    reaches that far. *)
Lemma save_loop_first (fuel i j : nat) (fs : file_system) :
  (i <= j < i + fuel)%nat ->
  path_exists fs (figure_path "SavedFigures" (fig_name j)) = false ->
  exists k,
    (i <= k <= j)%nat /\
    save_loop fuel fig_name i fs
    = Some (figure_path "SavedFigures" (fig_name k) :: mkdir "SavedFigures" fs) /\
    path_exists fs (figure_path "SavedFigures" (fig_name k)) = false /\
    forall m, (i <= m < k)%nat ->
              path_exists fs (figure_path "SavedFigures" (fig_name m)) = true.
Proof.
  revert i fs. induction fuel as [|fuel IH]; intros i fs Hj Hfree; [lia |].
  cbn [save_loop]. rewrite mkdir_figure.
  destruct (path_exists fs (figure_path "SavedFigures" (fig_name i))) eqn:E;
    cbn [negb].
  - assert (Hne : i <> j) by (intros ->; congruence).
    destruct (IH (S i) (mkdir "SavedFigures" fs)) as (k & Hk & Hs & F & B).
    + lia.
    + now rewrite mkdir_figure.
    + exists k. split; [lia |]. rewrite mkdir_twice in Hs.
      split; [exact Hs |]. rewrite mkdir_figure in F. split; [exact F |].
      intros m Hm. destruct (Nat.eq_dec m i) as [->|Hmi]; [exact E |].
      rewrite <- (mkdir_figure "SavedFigures"). apply B. lia.
  - exists i. split; [lia |]. split; [reflexivity |]. split; [exact E |].
    intros m Hm. lia.
Qed.

Lemma save_figure_first_free (fs : file_system) :
  exists fs', save_figure fig_name fs = Ok fs' /\ first_free fig_name fs fs'.
Proof.
  destruct (free_name fs 1) as (j & Hj & Hfree).
  destruct (@save_loop_first (S (S (List.length fs))) 1 j fs) as (k & Hk & Hs & F & B);
    [lia | exact Hfree |].
  unfold save_figure. rewrite Hs. eexists. split; [reflexivity |].
  exists k. split; [lia |]. split; [reflexivity |]. split; [exact F | exact B].
Qed.

(** The loop ends: more fuel changes nothing. *)
Lemma save_loop_ends (fuel : nat) (fs : file_system) :
  (S (List.length fs) < fuel)%nat ->
  save_loop fuel fig_name 1 fs
  = save_loop (S (S (List.length fs))) fig_name 1 fs.
Proof.
  intros H. destruct (free_name fs 1) as (j & Hj & Hfree).
  destruct (@save_loop_first fuel 1 j fs) as (k & Hk & Hs & F & B);
    [lia | exact Hfree |].
  destruct (@save_loop_first (S (S (List.length fs))) 1 k fs)
    as (k' & Hk' & Hs' & F' & B'); [lia | exact F |].
  rewrite Hs, Hs'. destruct (Nat.eq_dec k k') as [->|Hne]; [reflexivity |].
  assert (k' < k)%nat by lia.
  rewrite B in F' by lia. discriminate.
Qed.

End Loop.

(** Both plotting functions save their figure under the first file
    name, counted from 1, that does not exist yet in the folder
    [SavedFigures]: the save loop ends for every directory, makes the folder
    if it is missing, writes one new file and writes to no path that
    existed. *)
Theorem figure_saved_first_free (mode : string) (fs : file_system) :
  (exists fs',
      save_figure (fit_plot_name mode) fs = Ok fs' /\
      first_free (fit_plot_name mode) fs fs') /\
  (exists fs',
      save_figure surface_name fs = Ok fs' /\
      first_free surface_name fs fs').
Proof.
  split.
  - apply save_figure_first_free. apply fit_plot_name_inj.
  - apply save_figure_first_free. apply surface_name_inj.
Qed.

End Saving.

(* ================================================================== *)
(** ** The chi squared surface *)

Module Surface.

Import ZBoson Figures Notions Examples FloatFacts Residual Uncertainty Model.
Local Open Scope R_scope.

Section Grid.

Variable linspace : fl -> fl -> nat -> list fl.
Variable data : ndarray.
Hypothesis three_columns : has_columns 3 data = true.

(** Chi squared at the point [(m_z, gamma_z)] of the grid. *)
Let chi_at (point : fl * fl) : fl :=
  fsum (map (chi_term cross_section [fst point; snd point] false) data).

Lemma scan_gamma_z_Ok (m_z : fl) (gamma_z_array ms gs cs : list fl) :
  scan_gamma_z data m_z gamma_z_array (ms, gs, cs)
  = Ok (ms ++ map fst (map (pair m_z) gamma_z_array),
        gs ++ map snd (map (pair m_z) gamma_z_array),
        cs ++ map chi_at (map (pair m_z) gamma_z_array)).
Proof.
  revert ms gs cs. induction gamma_z_array as [|g rest IH]; intros ms gs cs.
  - simpl. now rewrite !app_nil_r.
  - cbn [scan_gamma_z].
    rewrite chi_square_defined by (assumption || simpl; lia).
    cbn [bind]. rewrite IH. cbn [map fst snd]. now rewrite <- !app_assoc.
Qed.

Lemma scan_m_z_Ok (m_z_array gamma_z_array ms gs cs : list fl) :
  scan_m_z data m_z_array gamma_z_array (ms, gs, cs)
  = Ok (ms ++ map fst (list_prod m_z_array gamma_z_array),
        gs ++ map snd (list_prod m_z_array gamma_z_array),
        cs ++ map chi_at (list_prod m_z_array gamma_z_array)).
Proof.
  revert ms gs cs. induction m_z_array as [|m rest IH]; intros ms gs cs.
  - simpl. now rewrite !app_nil_r.
  - cbn [scan_m_z list_prod]. rewrite scan_gamma_z_Ok. cbn [bind].
    rewrite IH, !map_app. now rewrite <- !app_assoc.
Qed.

Lemma parameter_surface_Ok (popt : list fl) (pcov : matrix) (v00 v11 : fl) :
  (2 <= List.length popt)%nat ->
  at2 pcov 0 0 = Ok v00 -> at2 pcov 1 1 = Ok v11 ->
  let delta_m_z := fmul (Fin (15 / 10)) (fpow_half v00) in
  let delta_gamma_z := fmul (Fin (15 / 10)) (fpow_half v11) in
  let m_z_array :=
    linspace (fsub (nth 0 popt NaN) delta_m_z)
      (fadd (nth 0 popt NaN) delta_m_z) 100 in
  let gamma_z_array :=
    linspace (fsub (nth 1 popt NaN) delta_gamma_z)
      (fadd (nth 1 popt NaN) delta_gamma_z) 100 in
  parameter_surface linspace data popt pcov
  = Ok (map fst (list_prod m_z_array gamma_z_array),
        map snd (list_prod m_z_array gamma_z_array),
        map chi_at (list_prod m_z_array gamma_z_array)).
Proof.
  intros Hp H0 H1. unfold parameter_surface. rewrite H0, H1. cbn [bind].
  rewrite chi_square_defined by assumption.
  destruct popt as [|p0 [|p1 rest]]; simpl in Hp; try lia.
  cbn [index nth_error bind nth]. now rewrite scan_m_z_Ok.
Qed.

End Grid.

(** For a two-dimensional array with at least three columns, at least
    two fitted parameters and a covariance with the entries [0, 0] and
    [1, 1], and with a [linspace] that returns as many samples as it is
    asked for, [plot_parameter_surface] computes chi squared at each of the
    100 times 100 points of the grid of masses and widths, in the order of
    the masses and, within a mass, of the widths.  The masses and the widths
    are the samples of [linspace] from 1.5 square roots of the diagonal of
    the covariance below the fitted value to as much above it.  It raises
    nothing, and no value of the surface is negative. *)
Theorem parameter_surface_grid (linspace : fl -> fl -> nat -> list fl)
  (data : ndarray) (popt : list fl) (pcov : matrix) (v00 v11 : fl) :
  (forall start stop num, List.length (linspace start stop num) = num) ->
  has_columns 3 data = true -> (2 <= List.length popt)%nat ->
  at2 pcov 0 0 = Ok v00 -> at2 pcov 1 1 = Ok v11 ->
  let delta_m_z := fmul (Fin (15 / 10)) (fpow_half v00) in
  let delta_gamma_z := fmul (Fin (15 / 10)) (fpow_half v11) in
  let m_z_array :=
    linspace (fsub (nth 0 popt NaN) delta_m_z)
      (fadd (nth 0 popt NaN) delta_m_z) 100%nat in
  let gamma_z_array :=
    linspace (fsub (nth 1 popt NaN) delta_gamma_z)
      (fadd (nth 1 popt NaN) delta_gamma_z) 100%nat in
  exists m_z_values gamma_z_values chi_square_values,
    parameter_surface linspace data popt pcov
    = Ok (m_z_values, gamma_z_values, chi_square_values) /\
    List.length m_z_array = 100%nat /\
    List.length gamma_z_array = 100%nat /\
    combine m_z_values gamma_z_values = list_prod m_z_array gamma_z_array /\
    List.length chi_square_values = (100 * 100)%nat /\
    chi_square_values
    = map (fun point =>
             fsum (map (chi_term cross_section [fst point; snd point] false)
                     data))
        (list_prod m_z_array gamma_z_array) /\
    Forall not_negative chi_square_values.
Proof.
  intros Hlin Hc Hp H0 H1 delta_m_z delta_gamma_z m_z_array gamma_z_array.
  pose proof (@parameter_surface_Ok linspace data Hc popt pcov v00 v11 Hp H0 H1)
    as H. cbv zeta in H. fold delta_m_z delta_gamma_z in H.
  fold m_z_array gamma_z_array in H.
  eexists _, _, _. split; [exact H |].
  split; [apply Hlin |]. split; [apply Hlin |]. split; [| split; [| split]].
  - rewrite combine_map_same. rewrite <- map_id. apply map_ext.
    intros [m g]. reflexivity.
  - unfold m_z_array, gamma_z_array.
    rewrite length_map, length_prod, !Hlin. reflexivity.
  - reflexivity.
  - apply Forall_forall. intros c Hin.
    apply in_map_iff in Hin as (point & <- & _).
    apply fsum_not_negative, Forall_forall.
    intros t Ht. apply in_map_iff in Ht as (r & <- & _).
    apply fdiv_not_negative; apply fsq_not_negative.
Qed.

Lemma parameter_surface_grid_witness :
  exists m_z_values gamma_z_values chi_square_values,
    parameter_surface (fun start stop num => repeat start num) two_points
      first_guess (ones Standard)
    = Ok (m_z_values, gamma_z_values, chi_square_values) /\
    List.length chi_square_values = (100 * 100)%nat /\
    Forall not_negative chi_square_values.
Proof.
  destruct (@parameter_surface_grid (fun start stop num => repeat start num)
              two_points first_guess (ones Standard) (Fin 1) (Fin 1))
    as (ms & gs & cs & H & _ & _ & _ & L & _ & N).
  - intros start stop num. apply repeat_length.
  - reflexivity.
  - simpl. lia.
  - reflexivity.
  - reflexivity.
  - exists ms, gs, cs. split; [exact H |]. split; [exact L | exact N].
Defined.

(** *** The plots within [run_analysis] *)

Lemma chi_square_shape (data : ndarray) (popt : list fl) (geu : bool)
  (func : dist_fn) (chi : fl) :
  chi_square data popt geu func = Ok chi ->
  has_columns 3 data = true /\ (2 <= List.length popt)%nat.
Proof.
  intros H. destruct (has_columns 3 data) eqn:Hc.
  - split; [reflexivity |].
    destruct (Nat.lt_ge_cases (List.length popt) 2) as [Hp|Hp]; [| exact Hp].
    rewrite chi_square_undefined in H by (right; exact Hp). discriminate.
  - rewrite chi_square_undefined in H by (left; exact Hc). discriminate.
Qed.

Lemma collect_results_shape (format_float : string -> fl -> string)
  (popt : list fl) (pcov : matrix) (chi : fl) (geu : bool) (message : string) :
  collect_results format_float popt pcov chi geu = Ok message ->
  exists v00 v11, at2 pcov 0 0 = Ok v00 /\ at2 pcov 1 1 = Ok v11.
Proof.
  unfold collect_results.
  destruct (index popt 0) as [m_z|]; cbn [bind]; [| discriminate].
  destruct (at2 pcov 0 0) as [v00|]; cbn [bind]; [| discriminate].
  destruct (index popt 1) as [gamma_z|]; cbn [bind]; [| discriminate].
  destruct (at2 pcov 1 1) as [v11|]; cbn [bind]; [| discriminate].
  intros _. now exists v00, v11.
Qed.

(** When [run_analysis] has computed the reduced chi squared and the
    message of [collect_results], the arrays that the two plotting functions
    compute before they draw are defined: neither the curve and residuals
    of [plot_fit] nor the surface of [plot_parameter_surface] raises. *)
Theorem plots_arrays_defined (linspace : fl -> fl -> nat -> list fl)
  (format_float : string -> fl -> string)
  (data : ndarray) (popt : list fl) (pcov : matrix) (geu : bool)
  (chi_squared_red : fl) (message : string) :
  reduced_chi_square data popt geu = Ok chi_squared_red ->
  collect_results format_float popt pcov chi_squared_red geu = Ok message ->
  (exists curves,
      fit_curves linspace data popt cross_section geu = Ok curves) /\
  (exists surface, parameter_surface linspace data popt pcov = Ok surface).
Proof.
  intros Hchi Hmsg. unfold reduced_chi_square in Hchi.
  destruct (chi_square data popt geu cross_section) as [chi|] eqn:E;
    [| discriminate].
  apply chi_square_shape in E as [Hc Hp].
  apply collect_results_shape in Hmsg as (v00 & v11 & H0 & H1).
  split.
  - destruct (fit_curves_defined linspace data popt cross_section geu Hc Hp)
      as (mode & H).
    eexists. exact H.
  - eexists.
    exact (@parameter_surface_Ok linspace data Hc popt pcov v00 v11 Hp H0 H1).
Qed.

Lemma plots_arrays_defined_witness :
  (exists curves,
      fit_curves (fun start stop num => repeat start num) [off_line; off_line]
        first_guess cross_section false = Ok curves) /\
  (exists surface,
      parameter_surface (fun start stop num => repeat start num)
        [off_line; off_line] first_guess (ones Standard) = Ok surface).
Proof.
  eapply (@plots_arrays_defined (fun start stop num => repeat start num)
            show_format [off_line; off_line] first_guess (ones Standard) false
            (fdiv (Fin 2) (fl_of_Z (Z.of_nat 2 - Z.of_nat 2)))).
  - unfold reduced_chi_square. rewrite chi_square_two_records. reflexivity.
  - reflexivity.
Defined.

End Surface.

(* ================================================================== *)
(** ** Records kept, fit quality and the report *)

Module Quality.

Import ZBoson Notions Examples FloatFacts CrossSection Residual GlobalPass FitLoop Uncertainty Pipeline Model.
Local Open Scope R_scope.

(** *** No record is lost *)

Lemma filter_partition {A : Type} (p : A -> bool) (l : list A) :
  Permutation (filter p l ++ filter (fun x => negb (p x)) l) l.
Proof.
  induction l as [|x l IH]; simpl; [constructor |].
  destruct (p x); simpl.
  - now constructor.
  - apply Permutation_sym, Permutation_cons_app, Permutation_sym, IH.
Qed.

(** The residual pass loses no record and invents none: the records
    that [filter_data] retains, followed by the outliers, are a
    rearrangement of the data it was given; and the records that
    [initial_filter] returns are among those it was given. *)
Theorem filters_lose_nothing (data : ndarray) (func : dist_fn)
  (popt : list fl) (geu : bool) :
  (forall new_data outliers,
      filter_data data func popt geu = Ok (new_data, outliers) ->
      Permutation (new_data ++ outliers) data) /\
  (forall new_data,
      initial_filter data = Ok new_data -> incl new_data data).
Proof.
  split.
  - intros nd out H. apply filter_data_filter in H as [-> ->].
    apply filter_partition.
  - intros nd H. apply initial_filter_filter in H. subst nd.
    intros r Hr. now apply filter_In in Hr.
Qed.

(** *** A fit that reproduces the data *)

Lemma Rsum_zero (l : list R) :
  Forall (fun x => 0 <= x) l -> Rsum l = 0 -> Forall (fun x => x = 0) l.
Proof.
  induction 1 as [|x l Hx Hl IH]; intros H; constructor.
  - pose proof (Rsum_nonneg Hl). unfold Rsum in *. simpl in H. lra.
  - apply IH. pose proof (Rsum_nonneg Hl). unfold Rsum in *. simpl in H. lra.
Qed.

Lemma chi_term_Fin (func : dist_fn) (popt : list fl) (geu : bool) (r : row)
  (x e : R) :
  residual func popt geu r = Fin x -> item 2 r = Fin e -> e <> 0 ->
  chi_term func popt geu r = Fin (x * x / (e * e)).
Proof.
  intros Hx He Hne. unfold chi_term. rewrite Hx, He.
  autorewrite with fl_fin. apply fdiv_Fin. nra.
Qed.

(** On records with finite residuals and uncertainties other than
    zero, chi squared is a finite number, never negative, and it is zero
    exactly when the model reproduces every record. *)
Theorem chi_square_zero_iff (data : ndarray) (popt : list fl) (geu : bool)
  (func : dist_fn) :
  has_columns 3 data = true -> (2 <= List.length popt)%nat ->
  Forall (fun r => exists x e,
              residual func popt geu r = Fin x /\ item 2 r = Fin e /\ e <> 0)
    data ->
  exists chi,
    chi_square data popt geu func = Ok (Fin chi) /\
    0 <= chi /\
    (chi = 0 <-> Forall (fun r => residual func popt geu r = Fin 0) data).
Proof.
  intros Hc Hp Hall. rewrite chi_square_defined by assumption.
  assert (T : exists ts,
             map (chi_term func popt geu) data = map Fin ts /\
             Forall (fun t => 0 <= t) ts /\
             (Forall (fun t => t = 0) ts <->
              Forall (fun r => residual func popt geu r = Fin 0) data)).
  { clear Hc. induction Hall as [|r l (x & e & Hx & He & Hne) Hl IH].
    - exists []. repeat split; constructor.
    - destruct IH as (ts & E & Hpos & Hiff).
      assert (Hee : 0 < e * e) by nra.
      exists (x * x / (e * e) :: ts). split; [| split].
      + cbn [map]. now rewrite (chi_term_Fin _ _ _ _ Hx He Hne), E.
      + constructor; [| exact Hpos].
        apply Rmult_le_pos; [apply sq_nonneg |].
        left. now apply Rinv_0_lt_compat.
      + split; intros H; inversion H; subst; constructor.
        * rewrite Hx. f_equal.
          assert (x * x = 0).
          { apply (Rmult_eq_reg_r (/ (e * e))); [| apply Rinv_neq_0_compat; lra].
            unfold Rdiv in *. lra. }
          nra.
        * now apply Hiff.
        * rewrite Hx in *. match goal with H : Fin x = Fin 0 |- _ =>
            injection H as -> end. unfold Rdiv. ring.
        * now apply Hiff. }
  destruct T as (ts & E & Hpos & Hiff).
  exists (Rsum ts). rewrite E, fsum_Fin. split; [reflexivity |].
  split; [now apply Rsum_nonneg |].
  rewrite <- Hiff. split.
  - now apply Rsum_zero.
  - intros H. clear -H. induction H as [|t l -> _ IH]; unfold Rsum in *; simpl;
      [reflexivity | lra].
Qed.

Lemma chi_square_zero_iff_witness :
  exists chi,
    chi_square [on_line; on_line] first_guess false cross_section
    = Ok (Fin chi) /\
    0 <= chi /\
    (chi = 0 <->
     Forall (fun r => residual cross_section first_guess false r = Fin 0)
       [on_line; on_line]).
Proof.
  apply (@chi_square_zero_iff [on_line; on_line] first_guess false
           cross_section).
  - reflexivity.
  - simpl. lia.
  - repeat constructor; exists 0, 1;
      (split; [apply residual_on_line | split; [reflexivity | lra]]).
Defined.

(** *** The guess of the user *)

(** [check_numerical_input] accepts a text exactly when
    [run_analysis] can convert it: on a text that it refuses,
    [run_analysis] raises [ValueError] before it looks at the data,
    whatever the data; on a text that it accepts, [run_analysis] does what
    it does on the number that the text stands for. *)
Theorem guess_validated (py_float : string -> option fl)
  (curve_fit : fit_fn -> list fl -> list fl -> list fl -> list fl ->
               result (list fl * matrix))
  (format_float : string -> fl -> string)
  (plot_fit : ndarray -> list fl -> bool -> result unit)
  (plot_parameter_surface : ndarray -> list fl -> matrix -> result unit)
  (data : ndarray) (different_decay gamma_ee_unknown : bool) (value : string) :
  (check_numerical_input py_float value = false ->
   run_analysis py_float curve_fit format_float plot_fit
     plot_parameter_surface data different_decay gamma_ee_unknown
     (PyStr value) = Error ValueError) /\
  (check_numerical_input py_float value = true ->
   exists x,
     py_float value = Some x /\
     run_analysis py_float curve_fit format_float plot_fit
       plot_parameter_surface data different_decay gamma_ee_unknown
       (PyStr value)
     = run_analysis py_float curve_fit format_float plot_fit
         plot_parameter_surface data different_decay gamma_ee_unknown
         (PyFloat x)).
Proof.
  unfold check_numerical_input, run_analysis, float_of_arg.
  destruct (py_float value) as [x|]; split; try discriminate.
  - intros _. exists x. split; reflexivity.
  - reflexivity.
Qed.

(** *** The uncertainties of the report *)

Lemma fpow_half_not_negative (v : fl) : not_negative (fpow_half v).
Proof.
  destruct v as [r| | |]; simpl; try easy.
  destruct (Rlt_dec r 0); simpl; [exact I | apply sqrt_pos].
Qed.

Lemma lifetime_scale_not_negative (width : fl) :
  not_negative (fdiv (fdiv H_BAR width) width).
Proof.
  assert (H : 0 < 6582119569 / 1000000000 * / 10 ^ 25).
  { apply Rmult_lt_0_compat; [lra |]. apply Rinv_0_lt_compat, pow_lt. lra. }
  unfold H_BAR. set (h := 6582119569 / 1000000000 * / 10 ^ 25) in *.
  destruct width as [g| | |]; simpl; try easy.
  - destruct (Req_dec_T g 0) as [->|Hg].
    + rewrite (Rsgn_pos H). simpl. destruct (Rlt_dec 0 0); [lra | exact I].
    + simpl. destruct (Req_dec_T g 0); [contradiction |]. simpl.
      replace (h / g / g) with (h * (/ g * / g)) by (field; assumption).
      apply Rmult_le_pos; [lra |]. apply sq_nonneg.
Qed.

(** No uncertainty of the report is negative, whatever the solver
    returned: whenever [collect_results] returns, the uncertainties of the
    mass and of the width are the power [0.5] of the variances, and that of
    the lifetime is the uncertainty of the width times [H_BAR / width^2];
    each of them is a number [>= 0], [+inf] or [nan], also for a negative
    variance or a negative width. *)
Theorem report_uncertainties (format_float : string -> fl -> string)
  (popt : list fl) (pcov : matrix) (chi_squared_red : fl) (geu : bool)
  (message : string) :
  collect_results format_float popt pcov chi_squared_red geu = Ok message ->
  exists m_z gamma_z v00 v11 middle,
    index popt 0 = Ok m_z /\ index popt 1 = Ok gamma_z /\
    at2 pcov 0 0 = Ok v00 /\ at2 pcov 1 1 = Ok v11 /\
    let sigma_m_z := fpow_half v00 in
    let sigma_gamma_z := fpow_half v11 in
    let tau := fdiv H_BAR gamma_z in
    let sigma_tau := fmul sigma_gamma_z (fdiv tau gamma_z) in
    message
    = ("Mass of Z Boson = " ++ format_float ".3e" m_z ++ " +/- " ++
       format_float ".1e" sigma_m_z ++ " GeV/c^2" ++ nl ++ nl ++
       "Width of Z Boson = " ++ format_float ".3e" gamma_z ++ " +/- " ++
       format_float ".1e" sigma_gamma_z ++ " GeV" ++ nl ++ nl ++
       middle ++
       "Lifetime of Z Boson = " ++ format_float ".2e" tau ++ " +/- " ++
       format_float ".1e" sigma_tau ++ " s" ++ nl ++ nl ++
       "Reduced chi squared = " ++ format_float ".3f" chi_squared_red)%string /\
    not_negative sigma_m_z /\ not_negative sigma_gamma_z /\
    not_negative sigma_tau.
Proof.
  unfold collect_results.
  destruct (index popt 0) as [m_z|]; cbn [bind]; [| discriminate].
  destruct (at2 pcov 0 0) as [v00|]; cbn [bind]; [| discriminate].
  destruct (index popt 1) as [gamma_z|]; cbn [bind]; [| discriminate].
  destruct (at2 pcov 1 1) as [v11|]; cbn [bind]; [| discriminate].
  intros H.
  assert (N : not_negative (fpow_half v00) /\ not_negative (fpow_half v11) /\
              not_negative (fmul (fpow_half v11)
                              (fdiv (fdiv H_BAR gamma_z) gamma_z))).
  { split; [apply fpow_half_not_negative |].
    split; [apply fpow_half_not_negative |].
    apply fmul_not_negative;
      [apply fpow_half_not_negative | apply lifetime_scale_not_negative]. }
  destruct (Nat.eqb (List.length popt) 3 && geu);
    [| destruct (Nat.eqb (List.length popt) 3)].
  - destruct (index popt 2) as [p2|]; cbn [bind] in H; [| discriminate].
    destruct (at2 pcov 2 2) as [v22|]; cbn [bind] in H; [| discriminate].
    apply Ok_inj in H. subst message.
    exists m_z, gamma_z, v00, v11,
      ("Partial width for electron-positron = " ++ format_float ".3e" p2 ++
       " +/- " ++ format_float ".1e" (fpow_half v22) ++ " GeV" ++ nl ++ nl)%string.
    repeat (split; [reflexivity |]). lazy zeta. split; [| exact N].
    repeat (progress cbn [String.append] || rewrite append_assoc).
    reflexivity.
  - destruct (index popt 2) as [p2|]; cbn [bind] in H; [| discriminate].
    destruct (at2 pcov 2 2) as [v22|]; cbn [bind] in H; [| discriminate].
    apply Ok_inj in H. subst message.
    exists m_z, gamma_z, v00, v11,
      ("Partial width for new decay = " ++ format_float ".3e" p2 ++
       " +/- " ++ format_float ".1e" (fpow_half v22) ++ " GeV" ++ nl ++ nl)%string.
    repeat (split; [reflexivity |]). lazy zeta. split; [| exact N].
    repeat (progress cbn [String.append] || rewrite append_assoc).
    reflexivity.
  - cbn [bind] in H. apply Ok_inj in H. subst message.
    exists m_z, gamma_z, v00, v11, ""%string.
    repeat (split; [reflexivity |]). lazy zeta. split; [| exact N].
    repeat (progress cbn [String.append] || rewrite append_assoc).
    reflexivity.
Qed.

Lemma report_uncertainties_witness :
  not_negative (fmul (fpow_half (Fin 1)) (fdiv (fdiv H_BAR GAMMA_Z0) GAMMA_Z0)).
Proof.
  pose proof (@report_uncertainties show_format first_guess (ones Standard)
                (Fin 1) false _ eq_refl) as H.
  cbv zeta in H.
  destruct H as (m_z & gamma_z & v00 & v11 & middle & _ & H1 & _ & H3 & _ & _ & _ & N).
  change (Ok GAMMA_Z0 = Ok gamma_z) in H1. change (Ok (Fin 1) = Ok v11) in H3.
  apply Ok_inj in H1, H3. subst gamma_z v11. exact N.
Defined.

End Quality.

(* ================================================================== *)
(** ** From the fit to the report *)

Module Completion.

Import ZBoson Notions Examples FloatFacts Residual GlobalPass FitLoop Uncertainty Pipeline Model.

Lemma fit_columns
  (curve_fit : fit_fn -> list fl -> list fl -> list fl -> list fl ->
               result (list fl * matrix))
  (f : fit_fn) (d : ndarray) (p0 popt : list fl) (pcov : matrix) :
  fit curve_fit f d p0 = Ok (popt, pcov) -> has_columns 3 d = true.
Proof.
  unfold fit. destruct (has_columns 3 d) eqn:Hc; [reflexivity |].
  destruct (col 0 d); cbn [bind]; [| discriminate].
  destruct (col 1 d); cbn [bind]; [| discriminate].
  now rewrite (@col_undefined 3 2 d Hc) by lia.
Qed.

Lemma fit_contract
  (curve_fit : fit_fn -> list fl -> list fl -> list fl -> list fl ->
               result (list fl * matrix))
  (f : fit_fn) (d : ndarray) (p0 popt : list fl) (pcov : matrix) :
  solver_contract curve_fit -> p0 <> [] ->
  fit curve_fit f d p0 = Ok (popt, pcov) ->
  List.length popt = List.length p0 /\
  ncols pcov = Some (List.length p0) /\
  List.length pcov = List.length p0.
Proof.
  intros Hc Hp0. unfold fit.
  destruct (col 0 d); cbn [bind]; [| discriminate].
  destruct (col 1 d); cbn [bind]; [| discriminate].
  destruct (col 2 d); cbn [bind]; [| discriminate].
  now apply Hc.
Qed.

Lemma collect_results_defined (format_float : string -> fl -> string)
  (popt : list fl) (pcov : matrix) (chi : fl) (geu : bool) (n : nat) :
  List.length popt = n -> (2 <= n)%nat ->
  ncols pcov = Some n -> List.length pcov = n ->
  exists message, collect_results format_float popt pcov chi geu = Ok message.
Proof.
  intros Hp Hn Hc Hl. unfold collect_results, index.
  rewrite (@at2_defined pcov n 0 0 Hc), (@at2_defined pcov n 1 1 Hc)
    by (unfold row; lia).
  destruct popt as [|p0 [|p1 rest]]; simpl in Hp; try lia.
  cbn [nth_error bind].
  destruct (Nat.eqb (List.length (p0 :: p1 :: rest)) 3) eqn:E3.
  - apply Nat.eqb_eq in E3.
    destruct rest as [|p2 rest]; [discriminate E3 |].
    rewrite (@at2_defined pcov n 2 2 Hc) by (unfold row; simpl in *; lia).
    destruct geu; cbn [andb nth_error bind]; eexists; reflexivity.
  - cbn [andb bind]. eexists. reflexivity.
Qed.

(** Once the fit has returned, with a solver that keeps its promise,
    nothing in [run_analysis] can fail but the plotting functions: the
    reduced chi squared and the message of [collect_results] are computed,
    and [run_analysis] returns that message when [plot_fit] and, for two
    parameters, [plot_parameter_surface] return. *)
Theorem run_analysis_completes (py_float : string -> option fl)
  (curve_fit : fit_fn -> list fl -> list fl -> list fl -> list fl ->
               result (list fl * matrix))
  (format_float : string -> fl -> string)
  (plot_fit : ndarray -> list fl -> bool -> result unit)
  (plot_parameter_surface : ndarray -> list fl -> matrix -> result unit)
  (data : ndarray) (different_decay gamma_ee_unknown : bool) (guess : fl)
  (d : ndarray) (popt : list fl) (pcov : matrix) (g : bool) :
  solver_contract curve_fit ->
  fit_to_data curve_fit data different_decay gamma_ee_unknown guess
    cross_section = Ok (d, popt, pcov, g) ->
  exists chi_squared_red message,
    reduced_chi_square d popt g = Ok chi_squared_red /\
    collect_results format_float popt pcov chi_squared_red g = Ok message /\
    run_analysis py_float curve_fit format_float plot_fit
      plot_parameter_surface data different_decay gamma_ee_unknown
      (PyFloat guess)
    = (_ <- plot_fit d popt g ;;
       _ <- (if Nat.eqb (List.length popt) 2
             then plot_parameter_surface d popt pcov
             else Ok tt) ;;
       Ok message).
Proof.
  intros Hc H. unfold run_analysis. cbn [float_of_arg bind]. rewrite H.
  cbn [bind].
  apply fit_to_data_Ok in H as (_ & H & _).
  pose proof (fit_columns _ _ _ _ H) as Hcols.
  apply (@fit_contract curve_fit _ d _ popt pcov Hc) in H as (Hp & Hn & Hl);
    [| destruct (different_decay || gamma_ee_unknown); discriminate].
  assert (H2 : (2 <= List.length popt)%nat).
  { rewrite Hp. destruct (different_decay || gamma_ee_unknown); simpl; lia. }
  unfold reduced_chi_square. rewrite (@chi_square_defined d popt g cross_section Hcols H2).
  cbn [bind].
  destruct (@collect_results_defined format_float popt pcov
              (fdiv (fsum (map (chi_term cross_section popt g) d))
                 (fl_of_Z (Z.of_nat (List.length d)
                           - Z.of_nat (List.length popt))))
              g (List.length popt) eq_refl H2) as (message & Hm).
  - now rewrite Hp.
  - now rewrite Hp.
  - eexists _, message. split; [reflexivity |]. split; [exact Hm |].
    rewrite Hm. reflexivity.
Qed.

Lemma ncols_same_rows {A : Type} (r : row) (l : list A) :
  l <> [] -> ncols (map (fun _ => r) l) = Some (List.length r).
Proof.
  destruct l as [|a l]; [congruence |]. intros _. cbn [map ncols].
  replace (forallb (fun r' => Nat.eqb (List.length r') (List.length r))
             (map (fun _ => r) l)) with true; [reflexivity |].
  symmetry. apply forallb_forall. intros r' Hr'.
  apply in_map_iff in Hr' as (_ & <- & _). apply Nat.eqb_refl.
Qed.

Lemma guess_solver_contract : solver_contract guess_solver.
Proof.
  intros f xs ys p0 sigma popt pcov Hp0. unfold guess_solver.
  intros [= <- <-]. split; [reflexivity |].
  rewrite ncols_same_rows by assumption. now rewrite !length_map.
Qed.

Lemma run_analysis_completes_witness :
  exists chi_squared_red message,
    reduced_chi_square two_points (start Standard (Fin 0)) false
    = Ok chi_squared_red /\
    collect_results show_format (start Standard (Fin 0)) (ones Standard)
      chi_squared_red false = Ok message /\
    run_analysis float_literal guess_solver show_format no_fit_plot
      no_surface_plot two_points false false (PyFloat (Fin 0))
    = (_ <- no_fit_plot two_points (start Standard (Fin 0)) false ;;
       _ <- (if Nat.eqb (List.length (start Standard (Fin 0))) 2
             then no_surface_plot two_points (start Standard (Fin 0))
                    (ones Standard)
             else Ok tt) ;;
       Ok message).
Proof.
  apply (@run_analysis_completes float_literal guess_solver show_format
           no_fit_plot no_surface_plot two_points false false (Fin 0)
           two_points (start Standard (Fin 0)) (ones Standard) false).
  - exact guess_solver_contract.
  - exact (fit_to_data_two_points Standard 0).
Defined.

(** *** The records of the fit *)

(** The records that [fit_to_data] returns are among those it was given:
    neither the global pass nor a residual pass of the loop adds a record,
    whatever the solver returns. *)
Theorem fit_keeps_to_data
  (curve_fit : fit_fn -> list fl -> list fl -> list fl -> list fl ->
               result (list fl * matrix))
  (data : ndarray) (different_decay gamma_ee_unknown : bool) (guess : fl)
  (func : dist_fn) (d : ndarray) (popt : list fl) (pcov : matrix) (g : bool) :
  fit_to_data curve_fit data different_decay gamma_ee_unknown guess func
  = Ok (d, popt, pcov, g) ->
  incl d data /\ (List.length d <= List.length data)%nat.
Proof.
  unfold fit_to_data.
  destruct (initial_filter data) as [d1|] eqn:E1; simpl; [| discriminate].
  apply initial_filter_filter in E1.
  set (P := fun d0 : ndarray =>
              incl d0 data /\ (List.length d0 <= List.length data)%nat).
  assert (P1 : P d1).
  { subst d1. split.
    - intros r Hr. now apply filter_In in Hr.
    - apply filter_length_le. }
  assert (G : forall body,
             (forall d0 po pc d0' out,
                 body d0 = Ok (po, pc, d0', out) ->
                 exists flag, filter_data d0 func po flag = Ok (d0', out)) ->
             forall d' popt' pcov',
               run_while body d1 = Ok (d', popt', pcov') -> P d').
  { intros body Hbody d' popt' pcov'. unfold run_while.
    destruct (while_outliers _ body d1) as [r|] eqn:E; [| discriminate].
    intros ->.
    eapply (@while_outliers_invariant P); [| exact P1 | exact E].
    intros d0 po pc d0' out Hb [Hi Hl]. apply Hbody in Hb as [flag Hb].
    apply filter_data_filter in Hb as [-> _]. split.
    - intros r Hr. apply filter_In in Hr. now apply Hi.
    - pose proof (filter_length_le (kept d0 func po flag) d0). lia. }
  destruct different_decay; [| destruct gamma_ee_unknown];
  match goal with |- context [run_while ?b d1] =>
    destruct (run_while b d1) as [[[d' popt'] pcov']|] eqn:E; simpl;
      [| discriminate];
    intros [= <- <- <- <-]; apply (G b) in E; [exact E |];
    intros d0 po pc d0' out Hb;
    apply (@pass_Ok curve_fit _ _ func _ d0 d0' po pc out) in Hb as [_ Hb];
    eauto
  end.
Qed.

Lemma fit_keeps_to_data_witness :
  incl two_points two_points /\
  (List.length two_points <= List.length two_points)%nat.
Proof.
  exact (@fit_keeps_to_data guess_solver two_points false false (Fin 0)
           cross_section two_points (start Standard (Fin 0)) (ones Standard)
           false (fit_to_data_two_points Standard 0)).
Defined.

End Completion.

(* ================================================================== *)
(** ** The window *)

Module Window.

Import ZBoson Gui Notions Examples FloatFacts Ingestion Pipeline Merge.

(** *** The message area *)

Lemma drop_last_firstn (fuel : nat) (displayed : list label) :
  (List.length displayed <= fuel + 6)%nat ->
  drop_last fuel displayed = firstn 6 displayed.
Proof.
  revert displayed. induction fuel as [|fuel IH]; intros displayed H.
  - cbn [drop_last]. symmetry. apply firstn_all2. lia.
  - cbn [drop_last]. destruct (Nat.ltb 6 (List.length displayed)) eqn:E.
    + apply Nat.ltb_lt in E. rewrite IH.
      * now apply firstn_removelast.
      * rewrite removelast_firstn_len, length_firstn. lia.
    + apply Nat.ltb_ge in E. symmetry. now apply firstn_all2.
Qed.

Lemma place_from_twice (i j : nat) (l : list label) :
  place_from i (place_from j l) = place_from i l.
Proof.
  revert i j. induction l as [|x l IH]; intros i j; [reflexivity |].
  cbn [place_from]. now rewrite IH.
Qed.

Lemma place_from_firstn (k i : nat) (l : list label) :
  firstn k (place_from i l) = place_from i (firstn k l).
Proof.
  revert k i. induction l as [|x l IH]; intros k i.
  - now rewrite !firstn_nil.
  - destruct k; [reflexivity |]. cbn [place_from firstn]. now rewrite IH.
Qed.

Lemma place_from_length (i : nat) (l : list label) :
  List.length (place_from i l) = List.length l.
Proof.
  revert i. induction l as [|x l IH]; intros i; [reflexivity |].
  cbn [place_from List.length]. now rewrite IH.
Qed.

Lemma texts_firstn (k counter : nat) (l : list string) :
  firstn k (texts counter l) = texts counter (firstn k l).
Proof.
  revert k counter. induction l as [|m l IH]; intros k counter.
  - now rewrite !firstn_nil.
  - destruct k; [reflexivity |]. cbn [texts firstn]. now rewrite IH.
Qed.

Lemma texts_length (counter : nat) (l : list string) :
  List.length (texts counter l) = List.length l.
Proof.
  revert counter. induction l as [|m l IH]; intros counter; [reflexivity |].
  cbn [texts List.length]. now rewrite IH.
Qed.

Lemma display_message_shows (message : string) (w : InputWindow) :
  console_shows (log w) -> console_shows (log (display_message message w)).
Proof.
  intros [Hc Hd]. unfold display_message, set_log, console_shows.
  cbn [log messages displayed_messages message_counter].
  split; [cbn [List.length]; lia |].
  rewrite drop_last_firstn by lia. rewrite firstn_cons.
  rewrite Hd, place_from_firstn, firstn_map, texts_firstn, firstn_firstn.
  change (Nat.min 5 6) with 5%nat.
  change (firstn 6 (message :: messages (log w)))
    with (message :: firstn 5 (messages (log w))).
  cbn [texts map place_from]. rewrite place_from_twice.
  replace (message_counter (log w) + 1 - 1)%nat with (message_counter (log w))
    by lia.
  reflexivity.
Qed.

Lemma init_shows : console_shows (log init).
Proof. split; reflexivity. Qed.

(** *** The methods *)

Section Methods.

Variable py_float : string -> option fl.
Variable open_file : string -> text_file.
Variable curve_fit :
  fit_fn -> list fl -> list fl -> list fl -> list fl -> result (list fl * matrix).
Variable format_float : string -> fl -> string.
Variable list_sort : (row -> fl) -> list row -> list row.
Variable plot_fit : ndarray -> list fl -> bool -> result unit.
Variable plot_parameter_surface : ndarray -> list fl -> matrix -> result unit.

Local Abbreviation confirm_selection :=
  (Gui.confirm_selection py_float open_file curve_fit format_float list_sort
     plot_fit plot_parameter_surface).
Local Abbreviation get_files := (Gui.get_files py_float open_file list_sort).
Local Abbreviation run_default :=
  (Gui.run_default py_float open_file curve_fit format_float list_sort plot_fit
     plot_parameter_surface).
Local Abbreviation handle :=
  (Gui.handle py_float open_file curve_fit format_float list_sort plot_fit
     plot_parameter_surface).
Local Abbreviation mainloop :=
  (Gui.mainloop py_float open_file curve_fit format_float list_sort plot_fit
     plot_parameter_surface).

Ltac framed :=
  cbv zeta;
  cbn [fst log vars ctrl files data with_vars with_ctrl with_mark set_files
         set_data set_output show_output];
  repeat apply display_message_shows; try assumption.

Ltac branch :=
  match goal with
  | |- context [check_numerical_input ?p ?s] =>
      destruct (check_numerical_input p s)
  | |- context [if String.eqb ?a ?b then ?x else ?y] =>
      destruct (if String.eqb a b then x else y) as [[? ?]|?]
  | |- context [Gui.read ?a1 ?a2 ?a3 ?a4] =>
      destruct (Gui.read a1 a2 a3 a4) as [[? ?]|?]
  | |- context [Gui.analyse ?a1 ?a2 ?a3 ?a4 ?a5 ?a6 ?a7 ?a8 ?a9] =>
      destruct (Gui.analyse a1 a2 a3 a4 a5 a6 a7 a8 a9) as [?|?]
  end.

Lemma confirm_selection_shows (w : InputWindow) :
  console_shows (log w) -> console_shows (log (fst (confirm_selection w))).
Proof.
  intros H. unfold Gui.confirm_selection.
  destruct (sel_2 (vars w)); [| destruct (sel_3 (vars w))]; [| | exact H];
    framed; repeat (branch; framed).
Qed.

Lemma get_files_shows (selection : list string) (w : InputWindow) :
  console_shows (log w) ->
  console_shows (log (fst (get_files selection w))).
Proof.
  intros H. unfold Gui.get_files. cbv zeta.
  destruct (Gui.read _ _ _ _) as [[d m]|[]]; framed.
Qed.

Lemma run_default_shows (w : InputWindow) :
  console_shows (log w) -> console_shows (log (fst (run_default w))).
Proof.
  intros H. unfold Gui.run_default. cbv zeta.
  destruct (Gui.read _ _ _ _) as [[d m]|e]; [| framed].
  destruct (Gui.analyse _ _ _ _ _ _ _ _ _) as [text|e]; framed.
Qed.

Lemma handle_shows (e : event) (w : InputWindow) :
  console_shows (log w) -> console_shows (log (fst (handle e w))).
Proof.
  intros H. destruct e; cbn [Gui.handle].
  - destruct (existsb _ _); [| exact H]. unfold allow_file_input. cbv zeta.
    destruct (String.eqb _ _); exact H.
  - destruct (input_files (ctrl w)); [now apply get_files_shows | exact H].
  - unfold allow_gamma_pp. cbv zeta. destruct (sel_2 _); exact H.
  - unfold allow_gamma_ee. cbv zeta. destruct (_ && _); exact H.
  - destruct (gamma_pp_input (ctrl w)); exact H.
  - destruct (gamma_ee_input (ctrl w)); exact H.
  - now apply confirm_selection_shows.
  - now apply run_default_shows.
  - unfold exit_program. framed.
Qed.

Lemma mainloop_invariant (P : InputWindow -> Prop) :
  (forall e w, P w -> P (fst (handle e w))) ->
  forall events w, P w -> P (mainloop events w).
Proof.
  intros Hstep events. induction events as [|e events IH]; intros w Hw;
    [exact Hw |].
  cbn [Gui.mainloop].
  destruct e; try (apply IH, (Hstep _ _ Hw)). apply (Hstep ExitProgram _ Hw).
Qed.

(** The methods that read files or run the analysis leave the selection
    as it is. *)
Lemma confirm_selection_frame (w : InputWindow) :
  vars (fst (confirm_selection w)) = vars w /\
  ctrl (fst (confirm_selection w)) = ctrl w /\
  files (fst (confirm_selection w)) = files w.
Proof.
  unfold Gui.confirm_selection.
  destruct (sel_2 (vars w)); [| destruct (sel_3 (vars w))]; [| | auto]; cbv zeta.
  - destruct (check_numerical_input py_float _); [| auto].
    destruct (Gui.read _ _ _ _) as [[d m]|e]; [| auto].
    destruct (Gui.analyse _ _ _ _ _ _ _ _ _) as [text|e]; auto.
  - destruct (check_numerical_input py_float _); [| auto].
    destruct (if String.eqb _ _ then _ else _) as [[d m]|e]; [| auto].
    destruct (Gui.analyse _ _ _ _ _ _ _ _ _) as [text|e]; auto.
Qed.

Lemma get_files_frame (selection : list string) (w : InputWindow) :
  vars (fst (get_files selection w)) = vars w /\
  ctrl (fst (get_files selection w)) = ctrl w.
Proof.
  unfold Gui.get_files. cbv zeta.
  destruct (Gui.read _ _ _ _) as [[d m]|[]]; auto.
Qed.

Lemma run_default_frame (w : InputWindow) :
  vars (fst (run_default w)) = vars w /\
  ctrl (fst (run_default w)) = ctrl w.
Proof.
  unfold Gui.run_default. cbv zeta.
  destruct (Gui.read _ _ _ _) as [[d m]|e]; [| auto].
  destruct (Gui.analyse _ _ _ _ _ _ _ _ _) as [text|e]; auto.
Qed.

Lemma selection_frame (w w' : InputWindow) :
  vars w' = vars w -> ctrl w' = ctrl w ->
  selection_consistent w -> selection_consistent w'.
Proof. unfold selection_consistent. now intros -> ->. Qed.

Lemma handle_consistent (e : event) (w : InputWindow) :
  selection_consistent w -> selection_consistent (fst (handle e w)).
Proof.
  intros H. destruct e; cbn [Gui.handle].
  - revert H. unfold selection_consistent, file_options. cbn [existsb].
    destruct w as [fs d [s1 s2 s3 gpp gee] [fc inf ppi eei] mk lg out].
    destruct (String.eqb choice "Use default files") eqn:E1;
      [apply String.eqb_eq in E1; subst choice |
       destruct (String.eqb choice "Choose different files") eqn:E2;
       [apply String.eqb_eq in E2; subst choice |]];
      cbn; intros (H1 & H2 & H3 & H4 & H5); subst;
      repeat split; auto; try discriminate; try (now destruct s3).
    all: destruct H5; auto.
  - destruct (input_files (ctrl w)); [| exact H].
    destruct (get_files_frame selection w) as [Hv Hc].
    exact (selection_frame _ Hv Hc H).
  - revert H. unfold selection_consistent.
    destruct w as [fs d [s1 s2 s3 gpp gee] [fc inf ppi eei] mk lg out].
    destruct value; cbn; intros (H1 & H2 & H3 & H4 & H5); subst;
      repeat split; auto; discriminate.
  - revert H. unfold selection_consistent.
    destruct w as [fs d [s1 s2 s3 gpp gee] [fc inf ppi eei] mk lg out].
    destruct value, s2; cbn; intros (H1 & H2 & H3 & H4 & H5); subst;
      repeat split; auto; try discriminate.
    all: destruct H5; auto.
  - destruct (gamma_pp_input (ctrl w)); exact H.
  - destruct (gamma_ee_input (ctrl w)); exact H.
  - destruct (confirm_selection_frame w) as (Hv & Hc & _).
    exact (selection_frame _ Hv Hc H).
  - destruct (run_default_frame w) as [Hv Hc].
    exact (selection_frame _ Hv Hc H).
  - exact H.
Qed.

Lemma init_consistent : selection_consistent init.
Proof. unfold selection_consistent. cbn. repeat split; auto. discriminate. Qed.

Lemma selection_stays_consistent_aux (events : list event) :
  sel_1 (vars (mainloop events init)) = "Use default files"%string.
Proof.
  apply (@mainloop_invariant
           (fun w => sel_1 (vars w) = "Use default files"%string)).
  - intros e w H.
    destruct e; cbn [Gui.handle]; try assumption.
    + destruct (existsb _ _); [| exact H]. unfold allow_file_input. cbv zeta.
      destruct (String.eqb _ _); exact H.
    + destruct (input_files (ctrl w)); [| exact H].
      destruct (get_files_frame selection w) as [-> _]. exact H.
    + unfold allow_gamma_pp. cbv zeta. destruct (sel_2 _); exact H.
    + unfold allow_gamma_ee. cbv zeta. destruct (_ && _); exact H.
    + destruct (gamma_pp_input (ctrl w)); exact H.
    + destruct (gamma_ee_input (ctrl w)); exact H.
    + destruct (confirm_selection_frame w) as (-> & _ & _). exact H.
    + destruct (run_default_frame w) as [-> _]. exact H.
  - reflexivity.
Qed.

End Methods.

Local Open Scope string_scope.

(** Whatever the user does, the message area shows the six newest
    messages, the newest on top, in rows of 40 points from 450 on, each with
    its number, and the counter is the number of messages displayed so far;
    never more than six labels are on display. *)
Theorem message_area_shows (py_float : string -> option fl)
  (open_file : string -> text_file)
  (curve_fit : fit_fn -> list fl -> list fl -> list fl -> list fl ->
               result (list fl * matrix))
  (format_float : string -> fl -> string)
  (list_sort : (row -> fl) -> list row -> list row)
  (plot_fit : ndarray -> list fl -> bool -> result unit)
  (plot_parameter_surface : ndarray -> list fl -> matrix -> result unit)
  (events : list event) :
  console_shows
    (log (mainloop py_float open_file curve_fit format_float list_sort
            plot_fit plot_parameter_surface events init)) /\
  (List.length
     (displayed_messages
        (log (mainloop py_float open_file curve_fit format_float list_sort
                plot_fit plot_parameter_surface events init))) <= 6)%nat.
Proof.
  assert (H : console_shows
                (log (mainloop py_float open_file curve_fit format_float
                        list_sort plot_fit plot_parameter_surface events init))).
  { apply (@mainloop_invariant py_float open_file curve_fit format_float
             list_sort plot_fit plot_parameter_surface
             (fun w => console_shows (log w))).
    - intros e w. apply handle_shows.
    - apply init_shows. }
  split; [exact H |]. destruct H as [_ ->].
  rewrite place_from_length, length_map, texts_length, length_firstn. lia.
Qed.

(** Whatever the user does, the selection of the window stays
    consistent: [sel_1] keeps the value [Use default files], the new decay
    and the free electron-positron width are never both selected, each
    entry box is open exactly when its option is selected, and with the new
    decay selected the button for choosing files is open. *)
Theorem selection_stays_consistent (py_float : string -> option fl)
  (open_file : string -> text_file)
  (curve_fit : fit_fn -> list fl -> list fl -> list fl -> list fl ->
               result (list fl * matrix))
  (format_float : string -> fl -> string)
  (list_sort : (row -> fl) -> list row -> list row)
  (plot_fit : ndarray -> list fl -> bool -> result unit)
  (plot_parameter_surface : ndarray -> list fl -> matrix -> result unit)
  (events : list event) :
  selection_consistent
    (mainloop py_float open_file curve_fit format_float list_sort plot_fit
       plot_parameter_surface events init).
Proof.
  apply (@mainloop_invariant py_float open_file curve_fit format_float
           list_sort plot_fit plot_parameter_surface selection_consistent).
  - intros e w. apply handle_consistent.
  - apply init_consistent.
Qed.

(** The files that the user chose have no part in an analysis that
    is not of a new decay: in every window that the user can reach and in
    which the new decay is not selected, [confirm_selection] does the same
    whatever [self.files] holds. *)
Theorem chosen_files_ignored (py_float : string -> option fl)
  (open_file : string -> text_file)
  (curve_fit : fit_fn -> list fl -> list fl -> list fl -> list fl ->
               result (list fl * matrix))
  (format_float : string -> fl -> string)
  (list_sort : (row -> fl) -> list row -> list row)
  (plot_fit : ndarray -> list fl -> bool -> result unit)
  (plot_parameter_surface : ndarray -> list fl -> matrix -> result unit)
  (events : list event) (selection : list string) (w : InputWindow) :
  w = mainloop py_float open_file curve_fit format_float list_sort plot_fit
        plot_parameter_surface events init ->
  sel_2 (vars w) = false ->
  confirm_selection py_float open_file curve_fit format_float list_sort
    plot_fit plot_parameter_surface (set_files selection w)
  = (set_files selection
       (fst (confirm_selection py_float open_file curve_fit format_float
               list_sort plot_fit plot_parameter_surface w)),
     snd (confirm_selection py_float open_file curve_fit format_float
            list_sort plot_fit plot_parameter_surface w)).
Proof.
  intros Hw H2.
  assert (H1 : sel_1 (vars w) = "Use default files").
  { rewrite Hw.
    apply (selection_stays_consistent_aux py_float open_file curve_fit
             format_float list_sort plot_fit plot_parameter_surface events). }
  clear Hw. unfold confirm_selection.
  destruct w as [fs d [s1 s2 s3 gpp gee] c mk lg out].
  cbn [vars sel_1 sel_2 sel_3 gamma_ee set_files] in *. subst s1 s2.
  destruct s3; [| reflexivity].
  cbn -[drop_last place_from numbered read analyse check_numerical_input FILE_NAMES].
  destruct (check_numerical_input py_float gee); [| reflexivity].
  destruct (read py_float open_file list_sort FILE_NAMES) as [[d' m]|e];
    [| reflexivity].
  cbn -[drop_last place_from numbered read analyse check_numerical_input FILE_NAMES].
  destruct (analyse _ _ _ _ _ _ _ _ _) as [text|e]; reflexivity.
Qed.

Lemma chosen_files_ignored_witness :
  confirm_selection float_literal short_file guess_solver show_format
    insertion_sort no_fit_plot no_surface_plot
    (set_files ["data.csv"]
       (mainloop float_literal short_file guess_solver show_format
          insertion_sort no_fit_plot no_surface_plot [ClickSel3 true] init))
  = (set_files ["data.csv"]
       (fst (confirm_selection float_literal short_file guess_solver
               show_format insertion_sort no_fit_plot no_surface_plot
               (mainloop float_literal short_file guess_solver show_format
                  insertion_sort no_fit_plot no_surface_plot
                  [ClickSel3 true] init))),
     snd (confirm_selection float_literal short_file guess_solver
            show_format insertion_sort no_fit_plot no_surface_plot
            (mainloop float_literal short_file guess_solver show_format
               insertion_sort no_fit_plot no_surface_plot
               [ClickSel3 true] init))).
Proof.
  apply (@chosen_files_ignored float_literal short_file guess_solver
           show_format insertion_sort no_fit_plot no_surface_plot
           [ClickSel3 true] ["data.csv"] _ eq_refl).
  reflexivity.
Defined.

(** [get_files] guards against the [IndexError] of [read_data] and
    against nothing else.  It records the files that the user picked.  On
    files that are text, or are not found, it returns without an exception.
    When [read_data] fails by [IndexError] it keeps the data it had and
    displays that the files are not compatible with the script.  An
    exception that leaves [get_files] is one that [open] or the iteration
    over one of the picked files raised; the data and the message area are
    then as they were. *)
Theorem get_files_guards (py_float : string -> option fl)
  (open_file : string -> text_file)
  (list_sort : (row -> fl) -> list row -> list row)
  (selection : list string) (w : InputWindow) :
  files (fst (get_files py_float open_file list_sort selection w)) = selection /\
  (Forall (reads_as_text open_file) selection ->
   snd (get_files py_float open_file list_sort selection w) = Ok tt) /\
  (read_data py_float open_file list_sort selection = Error IndexError ->
   snd (get_files py_float open_file list_sort selection w) = Ok tt /\
   data (fst (get_files py_float open_file list_sort selection w)) = data w /\
   messages (log (fst (get_files py_float open_file list_sort selection w)))
   = "The selected files are not compatible with the script."
     :: messages (log w)) /\
  (forall e,
      snd (get_files py_float open_file list_sort selection w) = Error e ->
      read_data py_float open_file list_sort selection = Error e /\
      (exists name,
          In name selection /\
          (open_file name = Refused e \/
           exists lines, open_file name = Lines lines (Some e))) /\
      data (fst (get_files py_float open_file list_sort selection w)) = data w /\
      log (fst (get_files py_float open_file list_sort selection w)) = log w).
Proof.
  unfold get_files, read. cbv zeta. cbn [files set_files].
  destruct (read_data py_float open_file list_sort selection) as [[d m]|e] eqn:E.
  - split; [reflexivity |]. split; [reflexivity |].
    split; [discriminate |]. discriminate.
  - assert (G : e <> IndexError ->
                exists name,
                  In name selection /\
                  (open_file name = Refused e \/
                   exists lines, open_file name = Lines lines (Some e))).
    { intros Hne. apply read_data_Error in E as (name & Hin & [[-> _] | H]);
        [congruence |].
      exists name. split; assumption. }
    split; [destruct e; reflexivity |]. split; [| split].
    + intros Hall. destruct e as [| |s]; [reflexivity | exfalso | exfalso].
      all: destruct G as (name & Hin & H); [discriminate |].
      all: rewrite Forall_forall in Hall; destruct (Hall name Hin) as [A | [l A]].
      all: destruct H as [H | [l' H]]; congruence.
    + intros [= ->]. repeat split; reflexivity.
    + intros e'. destruct e as [| |s]; [discriminate | |].
      all: intros [= <-]; split; [reflexivity |].
      all: split; [apply G; discriminate |]; split; reflexivity.
Qed.

Lemma read_data_binary_file :
  read_data float_literal binary_file insertion_sort ["data.csv"]
  = Error (ExternalError "UnicodeDecodeError").
Proof. reflexivity. Qed.

Lemma get_files_guards_witness :
  snd (get_files float_literal binary_file insertion_sort ["data.csv"] init)
  = Error (ExternalError "UnicodeDecodeError") /\
  exists name,
    In name ["data.csv"] /\
    (binary_file name = Refused (ExternalError "UnicodeDecodeError") \/
     exists lines,
       binary_file name
       = Lines lines (Some (ExternalError "UnicodeDecodeError"))).
Proof.
  split; [reflexivity |].
  apply (proj2 (proj2 (proj2 (get_files_guards float_literal binary_file
                                insertion_sort ["data.csv"] init)))
           (ExternalError "UnicodeDecodeError") eq_refl).
Defined.

(** The guard of [get_files] does not reach [confirm_selection]: when
    [read_data] fails on the files that the user picked, by the
    [IndexError] that [get_files] reports or by any other exception, the
    window keeps them, and confirming the analysis of a new decay with a
    numeric guess reads them again and leaves [confirm_selection] by that
    exception. *)
Theorem confirm_selection_unguarded (py_float : string -> option fl)
  (open_file : string -> text_file)
  (curve_fit : fit_fn -> list fl -> list fl -> list fl -> list fl ->
               result (list fl * matrix))
  (format_float : string -> fl -> string)
  (list_sort : (row -> fl) -> list row -> list row)
  (plot_fit : ndarray -> list fl -> bool -> result unit)
  (plot_parameter_surface : ndarray -> list fl -> matrix -> result unit)
  (selection : list string) (w : InputWindow) (e : exn) :
  read_data py_float open_file list_sort selection = Error e ->
  sel_2 (vars w) = true ->
  check_numerical_input py_float (gamma_pp (vars w)) = true ->
  snd (confirm_selection py_float open_file curve_fit format_float list_sort
         plot_fit plot_parameter_surface
         (fst (get_files py_float open_file list_sort selection w)))
  = Error e.
Proof.
  intros E H2 Hc.
  unfold get_files, read. cbv zeta. cbn [files set_files]. rewrite E.
  unfold confirm_selection.
  destruct e as [| |s];
    cbn -[drop_last place_from numbered read analyse check_numerical_input];
    rewrite H2;
    cbn -[drop_last place_from numbered read analyse check_numerical_input];
    rewrite Hc; unfold read; rewrite E; reflexivity.
Qed.

Lemma read_data_short_file :
  read_data float_literal short_file insertion_sort ["data.csv"]
  = Error IndexError.
Proof.
  unfold read_data, short_file. cbn [List.length]. rewrite read_files_single.
  now rewrite (@read_lines_abort _ _ _ _ _ read_line_1_2).
Qed.

Lemma confirm_selection_unguarded_witness :
  snd (confirm_selection float_literal short_file guess_solver show_format
         insertion_sort no_fit_plot no_surface_plot
         (fst (get_files float_literal short_file insertion_sort ["data.csv"]
                 (mainloop float_literal short_file guess_solver show_format
                    insertion_sort no_fit_plot no_surface_plot
                    [ClickSel2 true; TypeGammaPP "1"] init))))
  = Error IndexError /\
  snd (confirm_selection float_literal binary_file guess_solver show_format
         insertion_sort no_fit_plot no_surface_plot
         (fst (get_files float_literal binary_file insertion_sort ["data.csv"]
                 (mainloop float_literal binary_file guess_solver show_format
                    insertion_sort no_fit_plot no_surface_plot
                    [ClickSel2 true; TypeGammaPP "1"] init))))
  = Error (ExternalError "UnicodeDecodeError").
Proof.
  split.
  - apply (@confirm_selection_unguarded float_literal short_file guess_solver
             show_format insertion_sort no_fit_plot no_surface_plot
             ["data.csv"] _ IndexError).
    + exact read_data_short_file.
    + reflexivity.
    + reflexivity.
  - apply (@confirm_selection_unguarded float_literal binary_file guess_solver
             show_format insertion_sort no_fit_plot no_surface_plot
             ["data.csv"] _ (ExternalError "UnicodeDecodeError")).
    + exact read_data_binary_file.
    + reflexivity.
    + reflexivity.
Defined.

(** A guess that is not numeric is rejected before anything is read:
    with an option selected and a guess that [check_numerical_input]
    refuses, [confirm_selection] returns without an exception, keeps the
    files and the data, displays [Invalid input provided.], and does the
    same whatever the file system, the solver and the plotting functions
    are. *)
Theorem invalid_guess_rejected (py_float : string -> option fl)
  (open_file open_file' : string -> text_file)
  (curve_fit curve_fit' : fit_fn -> list fl -> list fl -> list fl -> list fl ->
                          result (list fl * matrix))
  (format_float format_float' : string -> fl -> string)
  (list_sort list_sort' : (row -> fl) -> list row -> list row)
  (plot_fit plot_fit' : ndarray -> list fl -> bool -> result unit)
  (plot_parameter_surface plot_parameter_surface' :
     ndarray -> list fl -> matrix -> result unit)
  (w : InputWindow) :
  sel_2 (vars w) || sel_3 (vars w) = true ->
  check_numerical_input py_float
    (if sel_2 (vars w) then gamma_pp (vars w) else gamma_ee (vars w)) = false ->
  snd (confirm_selection py_float open_file curve_fit format_float list_sort
         plot_fit plot_parameter_surface w) = Ok tt /\
  files (fst (confirm_selection py_float open_file curve_fit format_float
                list_sort plot_fit plot_parameter_surface w)) = files w /\
  data (fst (confirm_selection py_float open_file curve_fit format_float
               list_sort plot_fit plot_parameter_surface w)) = data w /\
  messages (log (fst (confirm_selection py_float open_file curve_fit
                        format_float list_sort plot_fit
                        plot_parameter_surface w)))
  = "Invalid input provided." :: messages (log w) /\
  confirm_selection py_float open_file' curve_fit' format_float' list_sort'
    plot_fit' plot_parameter_surface' w
  = confirm_selection py_float open_file curve_fit format_float list_sort
      plot_fit plot_parameter_surface w.
Proof.
  intros Hsel Hc. unfold confirm_selection.
  destruct (sel_2 (vars w)); [| destruct (sel_3 (vars w))];
    [| | discriminate Hsel];
    cbn -[drop_last place_from numbered read analyse check_numerical_input];
    rewrite Hc; repeat split; reflexivity.
Qed.

Lemma invalid_guess_rejected_witness :
  snd (confirm_selection float_literal short_file guess_solver show_format
         insertion_sort no_fit_plot no_surface_plot
         (mainloop float_literal short_file guess_solver show_format
            insertion_sort no_fit_plot no_surface_plot
            [ClickSel2 true; TypeGammaPP "one"] init)) = Ok tt.
Proof.
  apply (@invalid_guess_rejected float_literal short_file short_file
           guess_solver guess_solver show_format show_format
           insertion_sort insertion_sort no_fit_plot no_fit_plot
           no_surface_plot no_surface_plot
           (mainloop float_literal short_file guess_solver show_format
              insertion_sort no_fit_plot no_surface_plot
              [ClickSel2 true; TypeGammaPP "one"] init)).
  - reflexivity.
  - reflexivity.
Defined.

(** Without the two default files, [Use default settings] ends in an
    exception: [run_default] displays [Running the script...] and
    [0/2 files have been imported successfully.], and [run_analysis] then
    raises [IndexError] on the empty dataset, which leaves [run_default]
    before any output is shown. *)
Theorem run_default_without_files (py_float : string -> option fl)
  (open_file : string -> text_file)
  (curve_fit : fit_fn -> list fl -> list fl -> list fl -> list fl ->
               result (list fl * matrix))
  (format_float : string -> fl -> string)
  (list_sort : (row -> fl) -> list row -> list row)
  (plot_fit : ndarray -> list fl -> bool -> result unit)
  (plot_parameter_surface : ndarray -> list fl -> matrix -> result unit)
  (w : InputWindow) :
  (forall key, list_sort key [] = []) ->
  open_file "z_boson_data_1.csv" = Absent ->
  open_file "z_boson_data_2.csv" = Absent ->
  snd (run_default py_float open_file curve_fit format_float list_sort
         plot_fit plot_parameter_surface w) = Error IndexError /\
  messages (log (fst (run_default py_float open_file curve_fit format_float
                        list_sort plot_fit plot_parameter_surface w)))
  = "0/2 files have been imported successfully."
    :: "Running the script..." :: messages (log w) /\
  output (fst (run_default py_float open_file curve_fit format_float
                 list_sort plot_fit plot_parameter_surface w)) = output w.
Proof.
  intros Hsort H1 H2.
  assert (R : read py_float open_file list_sort FILE_NAMES
              = Ok ([], "0/2 files have been imported successfully.")).
  { unfold read, read_data, FILE_NAMES. cbn [read_files List.length].
    rewrite H1, H2. cbn [bind]. now rewrite Hsort. }
  unfold run_default. cbv zeta. rewrite R.
  cbn -[drop_last place_from numbered analyse].
  unfold analyse. rewrite run_analysis_empty.
  repeat split; reflexivity.
Qed.

Lemma run_default_without_files_witness :
  snd (run_default float_literal short_file guess_solver show_format
         insertion_sort no_fit_plot no_surface_plot init) = Error IndexError.
Proof.
  apply (@run_default_without_files float_literal short_file guess_solver
           show_format insertion_sort no_fit_plot no_surface_plot init).
  - reflexivity.
  - reflexivity.
  - reflexivity.
Defined.

End Window.
